(** * Document ingestion pipeline: a shallow embedding and its properties

    The development follows the Python sources under [backend/services]:
    - [ocr_service.py]        -> [Module OcrService]
    - [document_processor.py] -> [Module DocumentProcessor]
    - [rag_agent.py]          -> [Module RagAgent]
    - [periodic_indexer.py]   -> [Module PeriodicIndexer]

    External collaborators (the OCR models, PyMuPDF, the JSON decoder, the
    file system, hashlib, the vector store) are fields of environment
    records: the code under study is the control flow around them. *)

From Stdlib Require Import ZArith List String Ascii Bool Lia DecimalString.
From stdpp Require Import gmap strings list.

Local Open Scope string_scope.
Local Set Warnings "-register-all,-clear-no-such-hyp".

(** ** Python values shared by the services *)

(** Exceptions.  Every exception the services catch with [except Exception]
    is rendered through [str(e)]; only that text is observable. *)
Inductive exn : Type :=
| Exception (msg : string).

Definition str (e : exn) : string :=
  match e with Exception m => m end.

Definition RuntimeError (msg : string) : exn := Exception msg.

(** The outcome of a call that may raise. *)
Inductive outcome (A : Type) : Type :=
| Returned (a : A)
| Raised (e : exn).
Arguments Returned {A} a.
Arguments Raised {A} e.

(** [asyncio]: the awaits of one pass of the watcher at which the event
    loop can run another task, and so the places where a [stop()] can
    cancel it: inside the agent's [initialize] (it awaits the HTTP client
    of the LLM service), inside the [asyncio.gather] of a wave of
    documents, and inside [asyncio.sleep].  The other awaits of a pass are
    on coroutines that run through without suspending. *)
Inductive suspension : Type := InInitialize | InGather | InSleep.

(** JSON documents as [json.loads] builds them; [JNull] is Python's [None]. *)
Inductive json : Type :=
| JNull
| JBool (b : bool)
| JNum (z : Z)
| JFloat (num den : Z)          (* a float, by its exact value num/den *)
| JStr (s : string)
| JArr (items : list json)
| JObj (fields : list (string * json)).

(** Decimal rendering of integers, as [str(int)] and f-strings print them. *)
Definition str_nat (n : nat) : string := NilEmpty.string_of_uint (Nat.to_uint n).
Definition str_Z (z : Z) : string := NilEmpty.string_of_int (Z.to_int z).

(** [l.append(x)] on Python lists. *)
Definition snoc {A : Type} (l : list A) (x : A) : list A := (l ++ [x])%list.

(** The newline and the double quote of Python's escapes. *)
Definition nl : string := String (ascii_of_nat 10) EmptyString.
Definition dq : string := String (ascii_of_nat 34) EmptyString.

Module PyText.

(** The code points of a UTF-8 string: each lead byte with the
    continuation bytes that follow it. *)
Definition is_continuation (c : ascii) : bool :=
  Nat.eqb (nat_of_ascii c / 64) 2.

Fixpoint code_points (s : string) : list string :=
  match s with
  | EmptyString => []
  | String c rest =>
      match code_points rest with
      | (String c' _ as p) :: ps =>
          if is_continuation c' then String c p :: ps
          else String c EmptyString :: p :: ps
      | l => String c EmptyString :: l
      end
  end.

Fixpoint bytes (l : list nat) : string :=
  match l with
  | [] => EmptyString
  | n :: rest => String (ascii_of_nat n) (bytes rest)
  end.

(** The code points [str.strip()] and [str.isspace()] treat as white space:
    U+0009..U+000D, U+001C..U+001F, U+0020, U+0085, U+00A0, U+1680,
    U+2000..U+200A, U+2028, U+2029, U+202F, U+205F, U+3000. *)
Definition is_whitespace (p : string) : bool :=
  match p with
  | String c EmptyString =>
      let n := nat_of_ascii c in
      (Nat.leb 9 n && Nat.leb n 13) || (Nat.leb 28 n && Nat.leb n 32)
  | String a (String b EmptyString) =>
      Nat.eqb (nat_of_ascii a) 194 &&
      (Nat.eqb (nat_of_ascii b) 133 || Nat.eqb (nat_of_ascii b) 160)
  | String a (String b (String c EmptyString)) =>
      let '(x, y, z) := (nat_of_ascii a, nat_of_ascii b, nat_of_ascii c) in
      (Nat.eqb x 225 && Nat.eqb y 154 && Nat.eqb z 128) ||
      (Nat.eqb x 226 && Nat.eqb y 128 &&
         ((Nat.leb 128 z && Nat.leb z 138) || Nat.eqb z 168 || Nat.eqb z 169
          || Nat.eqb z 175)) ||
      (Nat.eqb x 226 && Nat.eqb y 129 && Nat.eqb z 159) ||
      (Nat.eqb x 227 && Nat.eqb y 128 && Nat.eqb z 128)
  | _ => false
  end.

(** [not text.strip()]: the text is empty or white space only. *)
Definition blank (text : string) : bool :=
  forallb is_whitespace (code_points text).

(** [sep.join(parts)]. *)
Definition join (sep : string) (parts : list string) : string :=
  String.concat sep parts.

End PyText.

(** [str.strip()]: the leading and the trailing white-space code points
    removed. *)
Fixpoint lstrip_points (l : list string) : list string :=
  match l with
  | p :: rest => if PyText.is_whitespace p then lstrip_points rest else l
  | [] => []
  end.

Definition strip (s : string) : string :=
  String.concat ""
    (rev (lstrip_points (rev (lstrip_points (PyText.code_points s))))).

(** [len(s)]: Unicode code points of a UTF-8 encoded string, the bytes that
    are not continuation bytes. *)
Fixpoint py_len (s : string) : nat :=
  match s with
  | EmptyString => 0
  | String c rest =>
      (if Nat.eqb (nat_of_ascii c / 64) 2 then 0 else 1) + py_len rest
  end.

(** Truth value of a Python object in [if x:]. *)
Definition truthy (v : json) : bool :=
  match v with
  | JNull => false
  | JBool b => b
  | JNum z => negb (Z.eqb z 0)
  | JFloat n _ => negb (Z.eqb n 0)
  | JStr s => negb (String.eqb s "")
  | JArr l => match l with [] => false | _ => true end
  | JObj l => match l with [] => false | _ => true end
  end.

(** [os.stat_result], the two fields the services read.  [st_mtime] is kept
    as the text the f-string prints for the float. *)
Record stat_result : Type := {
  st_size : Z;
  st_mtime : string
}.

(** [pathlib]: [Path.name] and [Path.suffix] of a normalised path. *)
Fixpoint rsplit_at (sep : ascii) (s : string) : option (string * string) :=
  match s with
  | EmptyString => None
  | String c rest =>
      match rsplit_at sep rest with
      | Some (before, after) => Some (String c before, after)
      | None => if Ascii.eqb c sep then Some (EmptyString, rest) else None
      end
  end.

Definition path_name (p : string) : string :=
  match rsplit_at "/" p with
  | Some (_, after) => after
  | None => p
  end.

(** [i = name.rfind('.')]; the suffix is [name[i:]] when [0 < i < len(name) - 1]. *)
Definition path_suffix (p : string) : string :=
  match rsplit_at "." (path_name p) with
  | Some (String _ _, String c rest) => String "." (String c rest)
  | _ => EmptyString
  end.

(** [str.lower()] on ASCII letters.  The only other characters that Python
    lowers to ASCII are U+212A (to k) and U+0130 (to i and a combining dot);
    no key of the extension tables below can arise from them. *)
Definition lower_ascii (c : ascii) : ascii :=
  let n := nat_of_ascii c in
  if Nat.leb 65 n && Nat.leb n 90 then ascii_of_nat (n + 32) else c.

Fixpoint lower (s : string) : string :=
  match s with
  | EmptyString => EmptyString
  | String c rest => String (lower_ascii c) (lower rest)
  end.

(** [d.get(key, default)] on a literal table. *)
Fixpoint dict_get {V : Type} (d : list (string * V)) (key : string) (default : V) : V :=
  match d with
  | [] => default
  | (k, v) :: rest => if String.eqb k key then v else dict_get rest key default
  end.

(** [needle in hay] on Python strings. *)
Fixpoint contains (needle hay : string) : bool :=
  String.prefix needle hay ||
  match hay with
  | EmptyString => false
  | String _ rest => contains needle rest
  end.

(* ===================================================================== *)
(** ** ocr_service.py *)
(* ===================================================================== *)

Module OcrService.

(** What the module needs from outside: import-time flags, the platform,
    the transformers model, the JSON decoder, Tesseract, PyMuPDF, [/tmp]. *)
Inductive loads_result : Type :=
| Loaded (v : json)
| JSONDecodeError
| LoadsRaised (e : exn).

Record env : Type := {
  DOTS_OCR_AVAILABLE : bool;
  TESSERACT_AVAILABLE : bool;
  platform_system : string;
  (* AutoModelForCausalLM.from_pretrained / AutoProcessor.from_pretrained *)
  load_model : outcome unit;
  load_processor : outcome unit;
  (* chat template, vision preprocessing, generate, batch_decode:
     image path and prompt to decoded output text *)
  infer : string -> string -> outcome string;
  json_loads : string -> loads_result;
  (* Image.open followed by pytesseract.image_to_string and strip *)
  image_to_string : string -> outcome string;
  (* PyMuPDF *)
  fitz_import : outcome unit;
  fitz_open : string -> outcome nat;            (* number of pages *)
  load_page : string -> nat -> outcome unit;
  get_pixmap : string -> nat -> nat -> outcome unit;
  pix_save : string -> outcome unit;
  os_remove : string -> outcome unit;
  py_hash : string -> Z
}.

(** *** DotsOCRService *)

Record dots_state : Type := {
  model : bool;        (* self.model is not None *)
  processor : bool     (* self.processor is not None *)
}.

Definition dots_init : dots_state := {| model := false; processor := false |}.

Definition dots_is_available (E : env) : bool :=
  if negb (DOTS_OCR_AVAILABLE E) then false
  else if String.eqb (platform_system E) "Darwin" then false
  else true.

(** [DotsOCRService.initialize]: the new state and whether it raised. *)
Definition dots_initialize (E : env) (s : dots_state) : dots_state * outcome unit :=
  if negb (dots_is_available E) then
    (s, Raised (RuntimeError "Dots.OCR dependencies are not available"))
  else
    match load_model E with
    | Raised e =>
        (s, Raised (RuntimeError ("Dots.OCR model requires flash_attn: " +:+ str e)))
    | Returned _ =>
        let s1 := {| model := true; processor := processor s |} in
        match load_processor E with
        | Raised e => (s1, Raised e)
        | Returned _ => ({| model := true; processor := true |}, Returned tt)
        end
    end.

Definition prompt_layout_only : string :=
"Please output the layout information from the PDF image, including each layout element's bbox and its category.

1. Bbox format: [x1, y1, x2, y2]
2. Layout Categories: The possible categories are ['Caption', 'Footnote', 'Formula', 'List-item', 'Page-footer', 'Page-header', 'Picture', 'Section-header', 'Table', 'Text', 'Title'].
3. Constraints: All layout elements must be sorted according to human reading order.
4. Final Output: The entire output must be a single JSON object.".

Definition prompt_ocr_only : string :=
"Please extract all text content from the image, excluding Page-header and Page-footer elements.

1. Extract text from all text elements, titles, captions, footnotes, and list items.
2. For tables, format the text as HTML.
3. For formulas, format the text as LaTeX.
4. The output text must be the original text from the image, with no translation.
5. Final Output: Return the extracted text in a clean, readable format.".

Definition prompt_full : string :=
"Please output the layout information from the PDF image, including each layout element's bbox, its category, and the corresponding text content within the bbox.

1. Bbox format: [x1, y1, x2, y2]
2. Layout Categories: The possible categories are ['Caption', 'Footnote', 'Formula', 'List-item', 'Page-footer', 'Page-header', 'Picture', 'Section-header', 'Table', 'Text', 'Title'].
3. Text Extraction & Formatting Rules:
   - Picture: For the 'Picture' category, the text field should be omitted.
   - Formula: Format its text as LaTeX.
   - Table: Format its text as HTML.
   - All Others (Text, Title, etc.): Format their text as Markdown.
4. Constraints:
   - The output text must be the original text from the image, with no translation.
   - All layout elements must be sorted according to human reading order.
5. Final Output: The entire output must be a single JSON object.".

Definition _create_prompt (task_type : string) : string :=
  if String.eqb task_type "layout_only" then prompt_layout_only
  else if String.eqb task_type "ocr_only" then prompt_ocr_only
  else prompt_full.

(** The dict returned by [DotsOCRService.extract_text_from_image]. *)
Record dots_result : Type := {
  d_text : string;
  d_parsed : json;
  d_task_type : string;
  d_success : bool
}.

Definition is_structured (task_type : string) : bool :=
  String.eqb task_type "full" || String.eqb task_type "layout_only".

Definition dots_extract_text_from_image
    (E : env) (s : dots_state) (image_path task_type : string) : outcome dots_result :=
  if negb (model s) || negb (processor s) then
    Raised (RuntimeError "Dots.OCR model not initialized")
  else
    match infer E image_path (_create_prompt task_type) with
    | Raised e => Raised e
    | Returned output_text =>
        if is_structured task_type then
          match json_loads E output_text with
          | Loaded parsed_output =>
              Returned {| d_text := output_text; d_parsed := parsed_output;
                          d_task_type := task_type; d_success := true |}
          | JSONDecodeError =>
              Returned {| d_text := output_text; d_parsed := JNull;
                          d_task_type := task_type; d_success := true |}
          | LoadsRaised e => Raised e
          end
        else
          Returned {| d_text := output_text; d_parsed := JNull;
                      d_task_type := task_type; d_success := true |}
    end.

(** *** TesseractOCRService *)

Definition tesseract_is_available (E : env) : bool := TESSERACT_AVAILABLE E.

Definition tesseract_extract_text_from_image (E : env) (image_path : string)
  : outcome string :=
  if negb (tesseract_is_available E) then
    Raised (RuntimeError "Tesseract OCR is not available")
  else image_to_string E image_path.

(** *** OCRService *)

Record state : Type := {
  dots_ocr : dots_state;
  initialized : bool
}.

Definition init : state := {| dots_ocr := dots_init; initialized := false |}.

(** [OCRService.initialize] swallows the primary's failure. *)
Definition initialize (E : env) (s : state) : state :=
  if negb (initialized s) then
    let '(d, _) := dots_initialize E (dots_ocr s) in
    {| dots_ocr := d; initialized := true |}
  else s.

Record result : Type := {
  text : string;
  method : string;
  success : bool;
  error : option string;
  parsed : json;
  task_type : string
}.

(** [str(None)] is what the f-string prints for an unset error. *)
Definition str_opt (o : option string) : string :=
  match o with Some m => m | None => "None" end.

Definition extract_text_from_image
    (E : env) (s : state) (image_path : string) (use_fallback : bool)
    (task : string) : state * result :=
  let s := initialize E s in
  let result0 := {| text := ""; method := ""; success := false;
                    error := None; parsed := JNull; task_type := task |} in
  let primary :=
    if dots_is_available E then
      match dots_extract_text_from_image E (dots_ocr s) image_path task with
      | Returned dots_result =>
          inl {| text := d_text dots_result; method := "dots.ocr";
                 success := true; error := error result0;
                 parsed := d_parsed dots_result;
                 task_type := d_task_type dots_result |}
      | Raised e =>
          inr {| text := text result0; method := method result0;
                 success := success result0; error := Some (str e);
                 parsed := parsed result0; task_type := task_type result0 |}
      end
    else inr result0 in
  match primary with
  | inl r => (s, r)
  | inr r =>
      if use_fallback && tesseract_is_available E then
        match tesseract_extract_text_from_image E image_path with
        | Returned t =>
            (s, {| text := t; method := "tesseract"; success := true;
                   error := None; parsed := parsed r; task_type := task_type r |})
        | Raised e =>
            (s, {| text := text r; method := method r; success := success r;
                   error := Some ("Both OCR methods failed. Dots: "
                                  +:+ str_opt (error r)
                                  +:+ ", Tesseract: " +:+ str e);
                   parsed := parsed r; task_type := task_type r |})
        end
      else (s, r)
  end.

(** *** DotsOCRService.extract_text_from_pdf

    [/tmp] is the set of temporary page images that exist. *)

Record page_result : Type := {
  page_num : nat;
  page_total : nat;
  p_success : bool;
  p_error : option string;
  p_text : string;
  p_parsed : json;
  p_task_type : option string
}.

Record pdf_result : Type := {
  pdf_text : string;
  pages : list page_result;
  pdf_task_type : string;
  pdf_success : bool;
  total_pages : nat;
  successful_pages : nat;
  dpi_used : nat
}.

Definition temp_image_path (E : env) (pdf_path : string) (n : nat) : string :=
  "/tmp/dots_ocr_pdf_" +:+ str_nat n +:+ "_" +:+ str_Z (py_hash E pdf_path) +:+ ".png".

(** [os.remove]: raises when the file is absent or the system refuses. *)
Definition remove (E : env) (tmp : gset string) (path : string)
  : gset string * outcome unit :=
  if decide (path ∈ tmp) then
    match os_remove E path with
    | Returned _ => (tmp ∖ {[path]}, Returned tt)
    | Raised e => (tmp, Raised e)
    end
  else (tmp, Raised (Exception ("[Errno 2] No such file or directory: '" +:+ path +:+ "'"))).

Definition error_page (n total : nat) (e : exn) : page_result :=
  {| page_num := n + 1; page_total := total; p_success := false;
     p_error := Some (str e); p_text := ""; p_parsed := JNull;
     p_task_type := None |}.

(** One iteration of [for page_num in range(total_pages)]: the body of the
    [try], with every exception landing in the single [except] clause. *)
Definition process_page
    (E : env) (s : dots_state) (pdf_path task : string) (total dpi : nat)
    (acc : gset string * list page_result) (n : nat)
  : gset string * list page_result :=
  let '(tmp, all_results) := acc in
  match load_page E pdf_path n with
  | Raised e => (tmp, snoc all_results (error_page n total e))
  | Returned _ =>
  match get_pixmap E pdf_path n dpi with
  | Raised e => (tmp, snoc all_results (error_page n total e))
  | Returned _ =>
  let path := temp_image_path E pdf_path n in
  match pix_save E path with
  | Raised e => (tmp, snoc all_results (error_page n total e))
  | Returned _ =>
  let tmp := {[path]} ∪ tmp in
  match dots_extract_text_from_image E s path task with
  | Raised e => (tmp, snoc all_results (error_page n total e))
  | Returned r =>
      let page := {| page_num := n + 1; page_total := total;
                     p_success := d_success r; p_error := None;
                     p_text := d_text r; p_parsed := d_parsed r;
                     p_task_type := Some (d_task_type r) |} in
      (* Clean up temporary file immediately *)
      (fst (remove E tmp path), snoc all_results page)
  end end end end.

Definition combine_page (acc : string * nat) (r : page_result) : string * nat :=
  let '(combined_text, ok) := acc in
  if p_success r then
    (if negb (String.eqb (strip (p_text r)) "") then
       combined_text +:+ nl +:+ nl +:+ "--- עמוד " +:+ str_nat (page_num r)
         +:+ " ---" +:+ nl +:+ nl +:+ p_text r
     else combined_text, ok + 1)
  else
    (combined_text +:+ nl +:+ nl +:+ "--- עמוד " +:+ str_nat (page_num r)
       +:+ " (שגיאה) ---" +:+ nl +:+ nl, ok).

Definition dots_extract_text_from_pdf
    (E : env) (s : dots_state) (tmp : gset string)
    (pdf_path task : string) (dpi : nat)
  : gset string * outcome pdf_result :=
  if negb (model s) || negb (processor s) then
    (tmp, Raised (RuntimeError "Dots.OCR model not initialized"))
  else
    match fitz_import E with
    | Raised _ =>
        (tmp, Raised (RuntimeError
           "PyMuPDF (fitz) is required for PDF processing. Install with: pip install PyMuPDF"))
    | Returned _ =>
    match fitz_open E pdf_path with
    | Raised e => (tmp, Raised e)
    | Returned total =>
        let '(tmp', all_results) :=
          fold_left (process_page E s pdf_path task total dpi)
                    (seq 0 total) (tmp, []) in
        let '(combined_text, ok) := fold_left combine_page all_results ("", 0) in
        (tmp', Returned {| pdf_text := strip combined_text; pages := all_results;
                           pdf_task_type := task; pdf_success := Nat.ltb 0 ok;
                           total_pages := total; successful_pages := ok;
                           dpi_used := dpi |})
    end end.

End OcrService.

(* ===================================================================== *)
(** ** config/settings.py *)
(* ===================================================================== *)

Module Settings.

Record settings : Type := {
  max_file_size_mb : Z;
  supported_extensions : list string;
  scan_interval_seconds : Z;
  enable_periodic_indexing : bool;
  watch_directory : string;
  processed_files_db : string
}.

Definition defaults : settings := {|
  max_file_size_mb := 100;
  supported_extensions :=
    [".pdf"; ".docx"; ".doc"; ".txt"; ".png"; ".jpg"; ".jpeg";
     ".mp3"; ".wav"; ".m4a"; ".flac"];
  scan_interval_seconds := 3600;
  enable_periodic_indexing := true;
  watch_directory := "./storage/watch";
  processed_files_db := "./storage/processed_files.json"
|}.

End Settings.

(* ===================================================================== *)
(** ** document_processor.py *)
(* ===================================================================== *)

Module DocumentProcessor.
Import Settings.

Record content_item : Type := {
  ci_type : option string;      (* content_item.get("type") *)
  ci_content : string
}.

(** The dict every format extractor returns. *)
Record extraction_result : Type := {
  e_success : bool;
  e_content : list content_item;
  e_metadata : gmap string json;
  e_error : option string
}.

(** A LangChain [Document]. *)
Record chunk : Type := {
  page_content : string;
  chunk_metadata : gmap string json
}.

Record env : Type := {
  (* file_path.exists(): it raises on an OSError other than a missing or
     dangling path *)
  path_exists : string -> outcome bool;
  path_stat : string -> outcome stat_result;
  open_read : string -> outcome string;
  (* processors[file_type].extract_text(file_path) for the pdf, docx,
     doc, image and audio kinds *)
  processors : string -> string -> outcome extraction_result;
  md5_hexdigest : string -> string;
  (* RecursiveCharacterTextSplitter.split_documents: the chunk texts *)
  split_documents : string -> outcome (list string);
  get_memory_usage : json
}.

Definition type_mapping : list (string * string) :=
  [(".pdf", "pdf"); (".docx", "docx"); (".doc", "doc"); (".txt", "txt");
   (".png", "image"); (".jpg", "image"); (".jpeg", "image");
   (".tiff", "image"); (".bmp", "image");
   (".mp3", "audio"); (".wav", "audio"); (".m4a", "audio"); (".flac", "audio")].

Definition _get_file_type (file_path : string) : string :=
  let extension := lower (path_suffix file_path) in
  dict_get type_mapping extension "unknown".

Definition _process_text_file (E : env) (file_path : string) : extraction_result :=
  match open_read E file_path with
  | Returned content =>
      {| e_success := true;
         e_content := [{| ci_type := None; ci_content := content |}];
         e_metadata := <["file_type" := JStr "txt"]>
                         (<["file_path" := JStr file_path]> ∅);
         e_error := None |}
  | Raised e =>
      {| e_success := false; e_content := [];
         e_metadata := <["file_type" := JStr "txt"]>
                         (<["file_path" := JStr file_path]> ∅);
         e_error := Some (str e) |}
  end.

(** [HebrewTextSplitter.split_text]: split, then tag every chunk. *)
Definition split_text (E : env) (text : string) (metadata : gmap string json)
  : outcome (list chunk) :=
  match split_documents E text with
  | Raised e => Raised e
  | Returned pieces =>
      let total := length pieces in
      Returned
        (imap (fun i piece =>
                 {| page_content := piece;
                    chunk_metadata :=
                      <["chunk_size" := JNum (Z.of_nat (py_len piece))]>
                        (<["total_chunks" := JNum (Z.of_nat total)]>
                           (<["chunk_id" := JNum (Z.of_nat i)]> metadata)) |})
              pieces)
  end.

(** The dict [process_document] returns. *)
Record doc_result : Type := {
  success : bool;
  error : option string;
  documents : list chunk;
  metadata : gmap string json
}.

Definition failure (msg : option string) (md : gmap string json) : doc_result :=
  {| success := false; error := msg; documents := []; metadata := md |}.

(** [f"{size / (1024 * 1024):.1f}"]: the quotient is exact in a double for
    sizes below 2^53, and the format rounds it to one decimal, ties to
    even. *)
Definition MB : Z := (1024 * 1024)%Z.

Definition format_mb_1f (size : Z) : string :=
  let q := ((size * 10) / MB)%Z in
  let r := ((size * 10) mod MB)%Z in
  let t := if (MB <? 2 * r)%Z then (q + 1)%Z
           else if (MB =? 2 * r)%Z then (if Z.even q then q else (q + 1)%Z)
           else q in
  str_Z (t / 10)%Z +:+ "." +:+ str_Z (t mod 10)%Z.

(** The layout-aware concatenation of the extracted items. *)
Definition add_item (acc : string * gmap string json) (item : content_item)
  : string * gmap string json :=
  let '(full_text, layout_metadata) := acc in
  let content_type := default "text" (ci_type item) in
  let content := ci_content item in
  if String.eqb content_type "table" then
    (full_text +:+ nl +:+ "[טבלה]" +:+ nl +:+ content +:+ nl +:+ "[/טבלה]" +:+ nl +:+ nl,
     <["has_tables" := JBool true]> layout_metadata)
  else if String.eqb content_type "formula" then
    (full_text +:+ nl +:+ "[נוסחה]" +:+ nl +:+ content +:+ nl +:+ "[/נוסחה]" +:+ nl +:+ nl,
     <["has_formulas" := JBool true]> layout_metadata)
  else if String.eqb content_type "text_block" then
    (full_text +:+ content +:+ nl +:+ nl,
     <["has_text_blocks" := JBool true]> layout_metadata)
  else
    (full_text +:+ content +:+ nl +:+ nl, layout_metadata).

Definition md_get (md : gmap string json) (key : string) (d : json) : json :=
  default d (md !! key).

(** [base.update(extra)]. *)
Definition md_update (base extra : gmap string json) : gmap string json :=
  extra ∪ base.

Definition normalise (E : env) (file_path : string) (size : Z)
    (x : extraction_result) : doc_result :=
  let '(full_text, layout_metadata) := fold_left add_item (e_content x) ("", ∅) in
  let doc_hash := md5_hexdigest E full_text in
  let base_metadata :=
    <["layout_aware" := JBool true]>
      (<["total_chars" := JNum (Z.of_nat (py_len full_text))]>
         (<["file_size_mb" := JFloat size MB]>
            (<["document_hash" := JStr doc_hash]> (e_metadata x)))) in
  let base_metadata := md_update base_metadata layout_metadata in
  let base_metadata :=
    if truthy (md_get (e_metadata x) "has_layout_info" JNull) then
      <["formula_elements" := md_get (e_metadata x) "formula_elements" (JNum 0)]>
        (<["table_elements" := md_get (e_metadata x) "table_elements" (JNum 0)]>
           (<["text_elements" := md_get (e_metadata x) "text_elements" (JNum 0)]>
              (<["layout_elements" := md_get (e_metadata x) "layout_elements" (JNum 0)]>
                 (<["ocr_enhanced" := JBool true]> base_metadata))))
    else base_metadata in
  match split_text E full_text base_metadata with
  | Returned chunks =>
      {| success := true; error := None; documents := chunks;
         metadata := base_metadata |}
  | Raised e =>
      failure (Some (str e)) (<["file_path" := JStr file_path]> ∅)
  end.

(** An extractor invocation: the kind it was dispatched on and the path. *)
Inductive call : Type :=
| Extract (file_type file_path : string).

(** [DocumentProcessor.process_document]: the extractor invocations made,
    and what the coroutine returned or raised. *)
Definition process_document (S : settings) (E : env) (file_path : string)
  : list call * outcome doc_result :=
  match path_exists E file_path with
  | Raised e => ([], Raised e)
  | Returned false =>
      ([], Returned (failure (Some ("File not found: " +:+ file_path)) ∅))
  | Returned true =>
    match path_stat E file_path with
    | Raised e => ([], Raised e)
    | Returned st =>
        if (max_file_size_mb S * MB <? st_size st)%Z then
          ([], Returned (failure
                 (Some ("File too large: " +:+ format_mb_1f (st_size st)
                        +:+ "MB (max: " +:+ str_Z (max_file_size_mb S) +:+ "MB)")) ∅))
        else
          let file_type := _get_file_type file_path in
          if String.eqb file_type "unknown" then
            ([], Returned (failure
                   (Some ("Unsupported file type: " +:+ path_suffix file_path)) ∅))
          else
            let extraction :=
              if String.eqb file_type "txt"
              then Returned (_process_text_file E file_path)
              else processors E file_type file_path in
            ([Extract file_type file_path],
             match extraction with
             | Raised e =>
                 Returned (failure (Some (str e))
                                   (<["file_path" := JStr file_path]> ∅))
             | Returned x =>
                 if negb (e_success x)
                 then Returned (failure (e_error x) (e_metadata x))
                 else Returned (normalise E file_path (st_size st) x)
             end)
    end
  end.

(** *** process_multiple_documents *)

Record successful_entry : Type := {
  s_file_path : string;
  s_documents : list chunk;
  s_metadata : gmap string json
}.

Record failed_entry : Type := {
  f_file_path : string;
  f_error : option string
}.

Record report : Type := {
  successful : list successful_entry;
  failed : list failed_entry;
  total_documents : nat;
  total_chunks : nat;
  memory_usage : json
}.

Definition batch_size : nat := 5.

(** [range(0, total, step)]. *)
Definition range_step (total step : nat) : list nat :=
  map (fun j => j * step) (seq 0 ((total + step - 1) / step)).

(** [l[i:j]]. *)
Definition slice {A : Type} (l : list A) (i j : nat) : list A :=
  firstn (j - i) (skipn i l).

(** The body of [for file_path, result in zip(batch_files, batch_results)]. *)
Definition record_result (results : report)
    (fr : string * outcome doc_result) : report :=
  let '(file_path, result) := fr in
  match result with
  | Raised e =>
      {| successful := successful results;
         failed := snoc (failed results)
                        {| f_file_path := file_path; f_error := Some (str e) |};
         total_documents := total_documents results;
         total_chunks := total_chunks results;
         memory_usage := memory_usage results |}
  | Returned r =>
      if success r then
        {| successful := snoc (successful results)
                              {| s_file_path := file_path;
                                 s_documents := documents r;
                                 s_metadata := metadata r |};
           failed := failed results;
           total_documents := total_documents results;
           total_chunks := total_chunks results + length (documents r);
           memory_usage := memory_usage results |}
      else
        {| successful := successful results;
           failed := snoc (failed results)
                          {| f_file_path := file_path; f_error := error r |};
           total_documents := total_documents results;
           total_chunks := total_chunks results;
           memory_usage := memory_usage results |}
  end.

(** One wave: gather the batch with [return_exceptions=True], then record
    each result against the path it came from.  [E j] is the environment
    the call on the [j]-th path of the input runs in: the calls of a wave
    run concurrently and the memory cleanup between waves unloads the OCR
    model, so collaborators may answer differently from call to call. *)
Definition process_batch (S : settings) (E : nat -> env)
    (file_paths : list string) (results : report) (i : nat) : report :=
  let batch_files := slice file_paths i (i + batch_size) in
  let batch_results :=
    imap (fun o path => snd (process_document S (E (i + o)) path)) batch_files in
  fold_left record_result (combine batch_files batch_results) results.

Definition process_multiple_documents (S : settings) (E : nat -> env)
    (file_paths : list string) : report :=
  let results := {| successful := []; failed := []; total_documents := 0;
                    total_chunks := 0; memory_usage := JObj [] |} in
  let total_files := length file_paths in
  let results :=
    fold_left (process_batch S E file_paths)
              (range_step total_files batch_size) results in
  {| successful := successful results;
     failed := failed results;
     total_documents := length (successful results);
     total_chunks := total_chunks results;
     memory_usage := get_memory_usage (E total_files) |}.

End DocumentProcessor.

(* ===================================================================== *)
(** ** vector_store_service.py and rag_agent.py *)
(* ===================================================================== *)

Module RagAgent.
Import Settings DocumentProcessor.

Record env : Type := {
  (* HebrewRAGAgent.initialize, run while [initialized] is unset *)
  agent_initialize : outcome unit;
  (* QdrantVectorStore.add_documents on one batch: the new ids *)
  store_add_documents : list chunk -> outcome (list string);
  (* QdrantVectorService.get_collection_stats *)
  get_collection_stats : outcome (gmap string json)
}.

(** The agent's flag and the chunks the vector index holds. *)
Record state : Type := {
  initialized : bool;
  vector_store : list chunk
}.

(** [QdrantVectorService.add_documents]: batches of 100; a failing batch
    raises and leaves the earlier batches in the index. *)
Definition add_batch (E : env) (documents : list chunk)
    (acc : list chunk * outcome (list string)) (i : nat)
  : list chunk * outcome (list string) :=
  match acc with
  | (_, Raised _) => acc
  | (store, Returned document_ids) =>
      let batch := slice documents i (i + 100) in
      match store_add_documents E batch with
      | Returned batch_ids => ((store ++ batch)%list, Returned (document_ids ++ batch_ids)%list)
      | Raised e => (store, Raised e)
      end
  end.

Definition vector_add_documents (E : env) (store : list chunk)
    (documents : list chunk) : list chunk * outcome (list string) :=
  fold_left (add_batch E documents) (range_step (length documents) 100)
            (store, Returned []).

Record add_result : Type := {
  a_success : bool;
  a_documents_added : nat;
  a_document_ids : list string;
  a_total_documents : json;
  a_error : option string
}.

(** [HebrewRAGAgent.add_documents], on an initialised agent. *)
Definition add_documents (E : env) (store : list chunk) (documents : list chunk)
  : list chunk * add_result :=
  let failed e := {| a_success := false; a_documents_added := 0;
                     a_document_ids := []; a_total_documents := JNum 0;
                     a_error := Some (str e) |} in
  match vector_add_documents E store documents with
  | (store', Raised e) => (store', failed e)
  | (store', Returned document_ids) =>
      match get_collection_stats E with
      | Raised e => (store', failed e)
      | Returned stats =>
          (store', {| a_success := true;
                      a_documents_added := length documents;
                      a_document_ids := document_ids;
                      a_total_documents := md_get stats "total_documents" (JNum 0);
                      a_error := None |})
      end
  end.

Record files_result : Type := {
  success : bool;
  error : option string;
  files_processed : option nat;
  files_failed : option nat;
  total_chunks : option nat;
  documents_added : option nat;
  total_documents : option json;
  processing_details : option report
}.

(** [HebrewRAGAgent.process_and_add_files].  A failing [initialize] is
    outside the [try] and raises to the caller. *)
Definition process_and_add_files (S : settings) (E : env)
    (D : nat -> DocumentProcessor.env) (st : state) (file_paths : list string)
  : state * outcome files_result :=
  let init := if initialized st then Returned tt else agent_initialize E in
  match init with
  | Raised e => (st, Raised e)
  | Returned _ =>
      let processing_result := process_multiple_documents S D file_paths in
      match successful processing_result with
      | [] =>
          ({| initialized := true; vector_store := vector_store st |},
           Returned {| success := false;
                       error := Some "No documents were successfully processed";
                       files_processed := None; files_failed := None;
                       total_chunks := None; documents_added := None;
                       total_documents := None;
                       processing_details := Some processing_result |})
      | _ =>
          let all_documents := flat_map s_documents (successful processing_result) in
          let '(store', add_result) := add_documents E (vector_store st) all_documents in
          ({| initialized := true; vector_store := store' |},
           Returned {| success := a_success add_result;
                       error := a_error add_result;
                       files_processed := Some (length (successful processing_result));
                       files_failed := Some (length (failed processing_result));
                       total_chunks := Some (length all_documents);
                       documents_added := Some (a_documents_added add_result);
                       total_documents := Some (a_total_documents add_result);
                       processing_details := Some processing_result |})
      end
  end.

(** [process_and_add_files] in a task that is cancelled while suspended at
    [point] or, when the call does not suspend there, at the next
    suspension it reaches.  [CancelledError] is not an [Exception]: no
    handler of the call catches it.  [Some st]: the call is abandoned with
    the agent in state [st]; [None]: the call reaches no such suspension
    and completes. *)
Definition process_and_add_files_cancelled (E : env) (st : state)
    (file_paths : list string) (point : suspension) : option state :=
  let in_gather :=
    let init := if initialized st then Returned tt else agent_initialize E in
    match init with
    | Raised _ => None
    | Returned _ =>
        (* for i in range(0, total_files, batch_size): await asyncio.gather *)
        match range_step (length file_paths) batch_size with
        | [] => None
        | _ => Some {| initialized := true; vector_store := vector_store st |}
        end
    end in
  match point with
  | InInitialize => if initialized st then in_gather else Some st
  | InGather => in_gather
  | InSleep => None
  end.

End RagAgent.

(* ===================================================================== *)
(** ** periodic_indexer.py *)
(* ===================================================================== *)

Module PeriodicIndexer.
Import Settings.

Inductive level : Type := DEBUG | INFO | WARNING | ERROR.

(** A [logger] call. *)
Record log_entry : Type := Log { log_level : level; log_msg : string }.

(** What one scan finds outside the process. *)
Record env : Type := {
  rglob : outcome (list string);          (* self.watch_directory.rglob("*") *)
  is_file : string -> outcome bool;
  stat : string -> outcome stat_result;
  utcnow_isoformat : string;
  open_w : outcome unit;                  (* open(self.processed_files_db, 'w') *)
  iterencode : json -> list string;       (* the chunks json.dump writes, indent=2 *)
  fp_write : string -> outcome unit;
  unlink : string -> outcome unit;
  rag : RagAgent.env;
  doc : nat -> DocumentProcessor.env
}.

(** The indexer object together with what it owns outside memory: the
    database file ([None] while it does not exist), the agent behind
    [rag_service], and the source files it has deleted. *)
Record state : Type := {
  processed_files : gset string;
  running : bool;
  db_file : option string;
  rag_state : RagAgent.state;
  unlinked : list string
}.

Definition set_processed (st : state) (p : gset string) : state :=
  {| processed_files := p; running := running st; db_file := db_file st;
     rag_state := rag_state st; unlinked := unlinked st |}.

Definition set_running (st : state) (b : bool) : state :=
  {| processed_files := processed_files st; running := b; db_file := db_file st;
     rag_state := rag_state st; unlinked := unlinked st |}.

Definition set_db_file (st : state) (f : option string) : state :=
  {| processed_files := processed_files st; running := running st; db_file := f;
     rag_state := rag_state st; unlinked := unlinked st |}.

Definition set_rag_state (st : state) (r : RagAgent.state) : state :=
  {| processed_files := processed_files st; running := running st;
     db_file := db_file st; rag_state := r; unlinked := unlinked st |}.

Definition add_unlinked (st : state) (p : string) : state :=
  {| processed_files := processed_files st; running := running st;
     db_file := db_file st; rag_state := rag_state st;
     unlinked := snoc (unlinked st) p |}.

Section WithHash.
(** [hashlib.md5(s.encode()).hexdigest()].  [encode] raises on a string
    with a lone surrogate, which is how a file name that is not valid
    UTF-8 reaches Python. *)
Variable md5_hexdigest : string -> outcome string.

(** A raise in the [try], from [stat] or from [encode], goes to the
    [except], whose own [encode] is not guarded. *)
Definition _get_file_hash (E : env) (file_path : string)
  : outcome string * list log_entry :=
  let fallback (e : exn) :=
    (* Fallback to filename *)
    (md5_hexdigest (path_name file_path),
     [Log ERROR ("Error generating file hash for " +:+ file_path +:+ ": " +:+ str e)]) in
  match stat E file_path with
  | Returned st =>
      let hash_input := path_name file_path +:+ "_" +:+ st_mtime st
                        +:+ "_" +:+ str_Z (st_size st) in
      match md5_hexdigest hash_input with
      | Returned file_hash => (Returned file_hash, [])
      | Raised e => fallback e
      end
  | Raised e => fallback e
  end.

(** *** _save_processed_files *)

Definition db_document (E : env) (processed : gset string) : json :=
  JObj [("processed_files", JArr (map JStr (elements processed)));
        ("last_updated", JStr (utcnow_isoformat E));
        ("total_processed", JNum (Z.of_nat (size processed)))].

(** [json.dump] hands the encoder's chunks to [f.write] one by one. *)
Fixpoint write_chunks (E : env) (chunks : list string) (content : string)
  : string * outcome unit :=
  match chunks with
  | [] => (content, Returned tt)
  | c :: rest =>
      match fp_write E c with
      | Raised e => (content, Raised e)
      | Returned _ => write_chunks E rest (content +:+ c)
      end
  end.

(** The database file once [open(..., 'w')] has truncated it and the
    first [k] chunks have been handed to [write]. *)
Definition db_written (E : env) (processed : gset string) (k : nat)
  : string * outcome unit :=
  write_chunks E (firstn k (iterencode E (db_document E processed))) "".

Definition _save_processed_files (E : env) (st : state) : state * list log_entry :=
  match open_w E with
  | Raised e =>
      (st, [Log ERROR ("Error saving processed files database: " +:+ str e)])
  | Returned _ =>
      let chunks := iterencode E (db_document E (processed_files st)) in
      match db_written E (processed_files st) (length chunks) with
      | (content, Returned _) => (set_db_file st (Some content), [])
      | (content, Raised e) =>
          (set_db_file st (Some content),
           [Log ERROR ("Error saving processed files database: " +:+ str e)])
      end
  end.

(** The database file if the process dies inside [_save_processed_files]
    after [k] chunks. *)
Definition db_file_after_crash (E : env) (st : state) (k : nat) : option string :=
  match open_w E with
  | Raised _ => db_file st
  | Returned _ => Some (fst (db_written E (processed_files st) k))
  end.

(** The two statements that commit fingerprints: mark, then save. *)
Definition mark_processed (st : state) (file_hashes : list string) : state :=
  fold_left (fun st file_hash => set_processed st ({[file_hash]} ∪ processed_files st))
            file_hashes st.

Definition commit (E : env) (st : state) (file_hashes : list string)
  : state * list log_entry :=
  _save_processed_files E (mark_processed st file_hashes).

(** *** _cleanup_processed_files *)

Definition cleanup_one (E : env) (acc : state * list log_entry) (file_path : string)
  : state * list log_entry :=
  let '(st, logs) := acc in
  match unlink E file_path with
  | Returned _ => (add_unlinked st file_path, logs)
  | Raised e =>
      (st, snoc logs (Log WARNING ("Failed to delete file " +:+ file_path
                                   +:+ ": " +:+ str e)))
  end.

Definition _cleanup_processed_files (E : env) (st : state) (file_paths : list string)
  : state * list log_entry :=
  fold_left (cleanup_one E) file_paths (st, []).

(** *** _process_new_files *)

Definition _process_new_files (S : settings) (E : env) (st : state)
    (new_files : list (string * string)) : state * list log_entry :=
  let file_paths := map fst new_files in
  let file_hashes := map snd new_files in
  match RagAgent.process_and_add_files S (rag E) (doc E) (rag_state st) file_paths with
  | (rs, Raised e) =>
      (set_rag_state st rs, [Log ERROR ("Error processing new files: " +:+ str e)])
  | (rs, Returned result) =>
      let st := set_rag_state st rs in
      if RagAgent.success result then
        (* Mark files as processed, save the database *)
        let '(st, logs1) := commit E st file_hashes in
        let '(st, logs2) := _cleanup_processed_files E st file_paths in
        (st, (logs1 ++ logs2)%list)
      else
        (st, [Log ERROR ("Failed to index files: "
                         +:+ OcrService.str_opt (RagAgent.error result))])
  end.

(** *** _scan_and_index *)

(** The [for file_path in rglob] loop; a raising [is_file] or
    [_get_file_hash] aborts it. *)
Fixpoint collect (S : settings) (E : env) (processed : gset string)
    (entries : list string) (new_files : list (string * string))
    (logs : list log_entry)
  : outcome (list (string * string)) * list log_entry :=
  match entries with
  | [] => (Returned new_files, logs)
  | file_path :: rest =>
      match is_file E file_path with
      | Raised e => (Raised e, logs)
      | Returned false => collect S E processed rest new_files logs
      | Returned true =>
          if bool_decide (lower (path_suffix file_path) ∈ supported_extensions S) then
            match _get_file_hash E file_path with
            | (Raised e, l) => (Raised e, (logs ++ l)%list)
            | (Returned file_hash, l) =>
                if bool_decide (file_hash ∈ processed) then
                  collect S E processed rest new_files (logs ++ l)%list
                else
                  collect S E processed rest (snoc new_files (file_path, file_hash))
                          (logs ++ l)%list
            end
          else collect S E processed rest new_files logs
      end
  end.

Definition _scan_and_index (S : settings) (E : env) (st : state)
  : state * list log_entry * outcome unit :=
  match rglob E with
  | Raised e => (st, [Log ERROR ("Error scanning directory: " +:+ str e)], Returned tt)
  | Returned entries =>
      match collect S E (processed_files st) entries [] [] with
      | (Raised e, logs) =>
          (st, snoc logs (Log ERROR ("Error scanning directory: " +:+ str e)),
           Returned tt)
      | (Returned [], logs) => (st, logs, Returned tt)
      | (Returned new_files, logs) =>
          let '(st, logs') := _process_new_files S E st new_files in
          (st, (logs ++ logs')%list, Returned tt)
      end
  end.

(** [_scan_and_index] in a task that is cancelled at [point]: the only
    suspensions of a scan are those of the call into the RAG service, so a
    scan that finds no new file, or gives up before, completes.  [Some]:
    the state and the log entries at the moment [CancelledError] leaves
    the scan; no [except Exception] on its way catches it. *)
Definition _scan_and_index_cancelled (S : settings) (E : env) (st : state)
    (point : suspension) : option (state * list log_entry) :=
  match rglob E with
  | Raised _ => None
  | Returned entries =>
      match collect S E (processed_files st) entries [] [] with
      | (Raised _, _) => None
      | (Returned [], _) => None
      | (Returned new_files, logs) =>
          match RagAgent.process_and_add_files_cancelled
                  (rag E) (rag_state st) (map fst new_files) point with
          | Some rs => Some (set_rag_state st rs, logs)
          | None => None
          end
      end
  end.

(** *** _indexing_loop

    One [tick] is what the world offers to one pass of the loop: the
    environment of its scan, and whether [stop()] is called during the
    pass, with the suspension at which the loop's task then is; a stop
    aimed at a suspension the pass does not reach arrives at the next one
    it does reach, the [asyncio.sleep] at the latest. *)
Record tick : Type := {
  tick_env : env;
  stop_requested : option suspension
}.

Definition stopping (t : tick) : bool :=
  match stop_requested t with
  | Some _ => true
  | None => false
  end.

Inductive event : Type :=
| Scan
| Sleep (seconds : Z)
| Logged (entry : log_entry).

(** [Exited]: the coroutine has returned or was cancelled.  [Suspended]:
    the ticks given ran out while the loop was still going. *)
Inductive loop_status : Type := Exited | Suspended.

Fixpoint _indexing_loop (S : settings) (st : state) (ticks : list tick)
  : state * list event * loop_status :=
  match ticks with
  | [] => (st, [], if running st then Suspended else Exited)
  | t :: rest =>
      if negb (running st) then (st, [], Exited)
      else
        let cancelled :=
          match stop_requested t with
          | Some point => _scan_and_index_cancelled S (tick_env t) st point
          | None => None
          end in
        match cancelled with
        | Some (st, logs) =>
            (* stop() while the scan is suspended: running = False,
               task.cancel(); CancelledError comes out of
               await self._scan_and_index() *)
            (set_running st false,
             snoc (Scan :: map Logged logs)%list
                  (Logged (Log INFO "Indexing loop cancelled")), Exited)
        | None =>
        let '(st, logs, r) := _scan_and_index S (tick_env t) st in
        let scanned := (Scan :: map Logged logs)%list in
        let handled :=
          match r with
          | Returned _ => scanned
          | Raised e =>
              snoc scanned (Logged (Log ERROR ("Error in indexing loop: " +:+ str e)))
          end in
        let slept := snoc handled (Sleep (scan_interval_seconds S)) in
        if stopping t then
          (* stop(): running = False, task.cancel(); the sleep raises
             CancelledError *)
          match r with
          | Returned _ =>
              (set_running st false,
               snoc slept (Logged (Log INFO "Indexing loop cancelled")), Exited)
          | Raised _ => (set_running st false, slept, Exited)
          end
        else
          let '(st', events, status) := _indexing_loop S st rest in
          (st', (slept ++ events)%list, status)
        end
  end.

End WithHash.

End PeriodicIndexer.

(* ===================================================================== *)
(** ** Concrete environments *)
(* ===================================================================== *)

Module Scenario.
Import OcrService.

(** A Linux host with both engines installed: the model answers [primary]
    to every inference and Tesseract answers [fallback]; PDFs have
    [npages] pages and every PyMuPDF and file-system call succeeds. *)
Definition host (primary fallback : outcome string) (npages : nat) : env := {|
  DOTS_OCR_AVAILABLE := true;
  TESSERACT_AVAILABLE := true;
  platform_system := "Linux";
  load_model := Returned tt;
  load_processor := Returned tt;
  infer := fun _ _ => primary;
  json_loads := fun out => if String.eqb out "{}" then Loaded (JObj []) else JSONDecodeError;
  image_to_string := fun _ => fallback;
  fitz_import := Returned tt;
  fitz_open := fun _ => Returned npages;
  load_page := fun _ _ => Returned tt;
  get_pixmap := fun _ _ _ => Returned tt;
  pix_save := fun _ => Returned tt;
  os_remove := fun _ => Returned tt;
  py_hash := fun _ => 42%Z
|}.

(** Model output on which [json.loads] gives up without a
    [JSONDecodeError]: [depth] opening brackets, which at the interpreter's
    recursion limit end in a [RecursionError]. *)
Definition nested (depth : nat) : string :=
  fold_right String.append "" (repeat "[" depth).

Definition recursion_limit : nat := 1000.

Definition recursion_error : exn :=
  Exception "maximum recursion depth exceeded while decoding a JSON array from a unicode string".

(** The host of [host] with a model that degenerates into opening
    brackets, and the decoder as CPython has it. *)
Definition deep_host (fallback : outcome string) : env := {|
  DOTS_OCR_AVAILABLE := true;
  TESSERACT_AVAILABLE := true;
  platform_system := "Linux";
  load_model := Returned tt;
  load_processor := Returned tt;
  infer := fun _ _ => Returned (nested recursion_limit);
  json_loads := fun out =>
    if String.prefix (nested recursion_limit) out then LoadsRaised recursion_error
    else if String.eqb out "{}" then Loaded (JObj []) else JSONDecodeError;
  image_to_string := fun _ => fallback;
  fitz_import := Returned tt;
  fitz_open := fun _ => Returned 1;
  load_page := fun _ _ => Returned tt;
  get_pixmap := fun _ _ _ => Returned tt;
  pix_save := fun _ => Returned tt;
  os_remove := fun _ => Returned tt;
  py_hash := fun _ => 42%Z
|}.

Definition oom : outcome string := Raised (Exception "CUDA out of memory").
Definition unreadable : outcome string := Raised (Exception "cannot identify image file").

Definition loaded : dots_state := {| model := true; processor := true |}.

(** A directory for the document processor: [sizes] lists the files that
    exist with their sizes in bytes; text files read as [hello], the
    other extractors answer [x]; the splitter returns the text whole. *)
Definition folder (sizes : list (string * Z))
    (x : outcome DocumentProcessor.extraction_result) : DocumentProcessor.env := {|
  DocumentProcessor.path_exists := fun p =>
    Returned (existsb (fun e => String.eqb (fst e) p) sizes);
  DocumentProcessor.path_stat := fun p =>
    Returned {| st_size := dict_get sizes p 0%Z; st_mtime := "1730624400.5" |};
  DocumentProcessor.open_read := fun _ => Returned "hello";
  DocumentProcessor.processors := fun _ _ => x;
  DocumentProcessor.md5_hexdigest := fun t => "md5:" +:+ t;
  DocumentProcessor.split_documents := fun t => Returned [t];
  DocumentProcessor.get_memory_usage := JObj []
|}.

Definition corrupt : outcome DocumentProcessor.extraction_result :=
  Returned {| DocumentProcessor.e_success := false;
              DocumentProcessor.e_content := [];
              DocumentProcessor.e_metadata := ∅;
              DocumentProcessor.e_error := Some "cannot open broken document" |}.

(** A vector store that accepts every batch. *)
Definition index_ok : RagAgent.env := {|
  RagAgent.agent_initialize := Returned tt;
  RagAgent.store_add_documents := fun batch => Returned (map (fun _ => "id") batch);
  RagAgent.get_collection_stats := Returned ∅
|}.

(** A plain JSON encoder, one chunk per token. *)
Fixpoint encode (j : json) : list string :=
  match j with
  | JNull => ["null"]
  | JBool b => [if b then "true" else "false"]
  | JNum z => [str_Z z]
  | JFloat n d => [str_Z n; "/"; str_Z d]
  | JStr t => [dq +:+ t +:+ dq]
  | JArr items =>
      ("[" :: (fix go (l : list json) : list string :=
                 match l with
                 | [] => ["]"]
                 | [x] => encode x ++ ["]"]
                 | x :: rest => encode x ++ ", " :: go rest
                 end) items)%list
  | JObj fields =>
      ("{" :: (fix go (l : list (string * json)) : list string :=
                 match l with
                 | [] => ["}"]
                 | [(k, x)] => (dq +:+ k +:+ dq +:+ ": ") :: encode x ++ ["}"]
                 | (k, x) :: rest =>
                     (dq +:+ k +:+ dq +:+ ": ") :: encode x ++ ", " :: go rest
                 end) fields)%list
  end.

(** A watch directory holding [entries], all regular files whose [stat]
    answers [st]; the database file can be written and files deleted;
    behind it the document processor sees [D]. *)
Definition watch (entries : list string) (st : outcome stat_result)
    (D : DocumentProcessor.env) : PeriodicIndexer.env := {|
  PeriodicIndexer.rglob := Returned entries;
  PeriodicIndexer.is_file := fun _ => Returned true;
  PeriodicIndexer.stat := fun _ => st;
  PeriodicIndexer.utcnow_isoformat := "2025-01-01T00:00:00";
  PeriodicIndexer.open_w := Returned tt;
  PeriodicIndexer.iterencode := encode;
  PeriodicIndexer.fp_write := fun _ => Returned tt;
  PeriodicIndexer.unlink := fun _ => Returned tt;
  PeriodicIndexer.rag := index_ok;
  PeriodicIndexer.doc := fun _ => D
|}.

(** A stand-in for [hashlib.md5(s.encode()).hexdigest()] that keeps its
    input readable.  Its [encode] refuses the byte 0xFF, which no UTF-8
    text holds: a file name with it reaches Python as a lone surrogate. *)
Definition readable_md5 (t : string) : outcome string :=
  if contains (String (ascii_of_nat 255) EmptyString) t
  then Raised (Exception "'utf-8' codec can't encode character: surrogates not allowed")
  else Returned ("md5:" +:+ t).

(** An indexer that has processed [seen] and saved [db]. *)
Definition indexer (seen : gset string) (db : option string) : PeriodicIndexer.state := {|
  PeriodicIndexer.processed_files := seen;
  PeriodicIndexer.running := true;
  PeriodicIndexer.db_file := db;
  PeriodicIndexer.rag_state := {| RagAgent.initialized := true;
                                  RagAgent.vector_store := [] |};
  PeriodicIndexer.unlinked := []
|}.

(** The database as a save on the day before left it, with one
    fingerprint. *)
Definition yesterday : string :=
  fold_left String.append
    (encode (JObj [("processed_files", JArr [JStr "h0"]);
                   ("last_updated", JStr "2024-12-31T00:00:00");
                   ("total_processed", JNum 1)])) "".

(** Two files dropped into the watch directory: a text file that reads
    fine and a PDF that no extractor can open. *)
Definition two_files : DocumentProcessor.env :=
  folder [("a.txt", 5%Z); ("b.pdf", 9%Z)] corrupt.

(** One pass of the loop over an empty watch directory, no stop request. *)
Definition quiet_tick : PeriodicIndexer.tick :=
  {| PeriodicIndexer.tick_env := watch [] (Raised (Exception "gone")) two_files;
     PeriodicIndexer.stop_requested := None |}.



Definition busy_tick : PeriodicIndexer.tick :=
  {| PeriodicIndexer.tick_env :=
       watch ["a.txt"] (Returned {| st_size := 5; st_mtime := "1730624400.5" |})
             two_files;
     PeriodicIndexer.stop_requested := Some InGather |}.


End Scenario.

(* ===================================================================== *)
(** ** Statements under test *)
(* ===================================================================== *)

Module Stated.
Import Settings DocumentProcessor.

(** The outcome of every [process_document] call of a batch, in input
    order, and whether an outcome counts as an invalid file: the call
    raised, or returned [success=False]. *)
Definition outcomes (S : settings) (E : nat -> env) (file_paths : list string)
  : list (outcome doc_result) :=
  imap (fun j path => snd (process_document S (E j) path)) file_paths.

(** A path of the input paired with the outcome of its call. *)
Definition attributed (S : settings) (E : nat -> env) (file_paths : list string)
  : list (string * outcome doc_result) :=
  imap (fun j path => (path, snd (process_document S (E j) path))) file_paths.

Definition invalid (o : outcome doc_result) : bool :=
  match o with
  | Raised _ => true
  | Returned r => negb (success r)
  end.

(** The call on [f] returns the unsupported-file-type failure and runs no
    extractor. *)
Definition rejects_as_unsupported (S : settings) (E : env) (f : string) : Prop :=
  exists r msg,
    process_document S E f = ([], Returned r) /\
    success r = false /\ error r = Some msg /\
    contains "Unsupported file type" msg = true.

(** *** The watcher *)

Import PeriodicIndexer.

(** No file whose own processing failed has its fingerprint committed:
    a fingerprint that a batch adds belongs to a file whose call
    succeeded. *)
Definition marks_only_processed_files (S : settings) (E : PeriodicIndexer.env)
    (st : state) (new_files : list (string * string)) : Prop :=
  forall j p h,
    new_files !! j = Some (p, h) ->
    h ∉ processed_files st ->
    h ∈ processed_files (fst (_process_new_files S E st new_files)) ->
    invalid (snd (process_document S (doc E j) p)) = false.

(** Whether [rag_service.add_documents_from_files] reported success. *)
Definition batch_succeeded (o : outcome RagAgent.files_result) : bool :=
  match o with
  | Returned result => RagAgent.success result
  | Raised _ => false
  end.





(** The exception on which a scan in [E] gives up, if there is one: the
    listing raises, or [is_file] or a fingerprint raises on an entry.
    Whether the loop over the listing raises does not depend on the
    processed set, so the empty one is as good as any. *)
Definition scan_error (md5_hexdigest : string -> outcome string) (S : settings)
    (E : PeriodicIndexer.env) : option exn :=
  match rglob E with
  | Raised e => Some e
  | Returned entries =>
      match fst (collect md5_hexdigest S E ∅ entries [] []) with
      | Raised e => Some e
      | Returned _ => None
      end
  end.

(** C10 as stated: a file whose [stat()] raised has a fingerprint, and
    once that fingerprint is in the processed set no later scan selects
    the file, whatever has become of it in between. *)
Definition degraded_fingerprint_is_final (md5_hexdigest : string -> outcome string)
    (S : settings) (E : PeriodicIndexer.env) (p : string) : Prop :=
  exists h,
    fst (_get_file_hash md5_hexdigest E p) = Returned h /\
    forall (E' : PeriodicIndexer.env) (processed : gset string)
           (entries : list string) (new_files : list (string * string))
           (logs : list log_entry),
      h ∈ processed ->
      collect md5_hexdigest S E' processed entries [] [] = (Returned new_files, logs) ->
      forall h', (p, h') ∉ new_files.

(** A crash mid-write leaves the previous snapshot uncorrupted: wherever
    the save of [commit] is cut short, the database file is still the one
    from before. *)
Definition crash_safe (E : PeriodicIndexer.env) (st : state) (fps : list string) : Prop :=
  let st1 := mark_processed st fps in
  forall k,
    k < length (iterencode E (db_document E (processed_files st1))) ->
    db_file_after_crash E st1 k = db_file st.

(** The text [json.dump] leaves behind once every chunk is written. *)
Definition dumped (chunks : list string) : string :=
  fold_left String.append chunks "".

End Stated.

(* ===================================================================== *)
(** ** ocr_service.py: memory handling and the PDF entry point *)
(* ===================================================================== *)

Module OcrLifecycle.
Import OcrService.

(** What [cleanup_memory] touches outside the object. *)
Record mem_env : Type := {
  model_to_cpu : outcome unit;            (* self.model.to('cpu') *)
  cuda_is_available : bool;
  cuda_empty_cache : outcome unit
}.

(** [DotsOCRService.cleanup_memory]: the whole body is one [try]; a raising
    [model.to('cpu')] leaves both handles in place, a raising
    [empty_cache] comes after both were dropped.  The log lines are the
    second component. *)
Definition cleanup_memory (M : mem_env) (s : dots_state) : dots_state * list string :=
  let moved := if model s then model_to_cpu M else Returned tt in
  match moved with
  | Raised e => (s, ["Error during memory cleanup: " +:+ str e])
  | Returned _ =>
      let s' := {| model := false; processor := false |} in
      if cuda_is_available M then
        match cuda_empty_cache M with
        | Returned _ =>
            (s', ["GPU memory cache cleared"; "Dots.OCR memory cleanup completed"])
        | Raised e => (s', ["Error during memory cleanup: " +:+ str e])
        end
      else (s', ["Dots.OCR memory cleanup completed"])
  end.

(** [DotsOCRService.reload_model]. *)
Definition reload_model (E : env) (M : mem_env) (s : dots_state)
  : dots_state * outcome unit :=
  dots_initialize E (fst (cleanup_memory M s)).

(** [DocumentProcessor._cleanup_batch_memory], as far as the OCR service is
    concerned: it reaches into the shared [ocr_service] object. *)
Definition _cleanup_batch_memory (E : env) (M : mem_env) (s : state) : state :=
  if dots_is_available E then
    {| dots_ocr := fst (cleanup_memory M (dots_ocr s)); initialized := initialized s |}
  else s.

(** The dict [OCRService.extract_text_from_pdf] returns; [ps_pages] is the
    key that only the primary's answer adds. *)
Record pdf_service_result : Type := {
  ps_text : string;
  ps_method : string;
  ps_success : bool;
  ps_error : option string;
  ps_parsed : json;
  ps_task_type : string;
  ps_total_pages : nat;
  ps_pages : option (list page_result)
}.

Definition default_dpi : nat := 200.

(** [OCRService.extract_text_from_pdf]. *)
Definition extract_text_from_pdf
    (E : env) (s : state) (tmp : gset string) (pdf_path : string)
    (use_fallback : bool) (task : string)
  : state * gset string * pdf_service_result :=
  let s := initialize E s in
  let failed (err : option string) :=
    {| ps_text := ""; ps_method := ""; ps_success := false;
       ps_error := if use_fallback
                   then Some "PDF processing fallback not available" else err;
       ps_parsed := JNull; ps_task_type := task; ps_total_pages := 0;
       ps_pages := None |} in
  if dots_is_available E then
    match dots_extract_text_from_pdf E (dots_ocr s) tmp pdf_path task default_dpi with
    | (tmp', Returned d) =>
        (s, tmp',
         {| ps_text := pdf_text d; ps_method := "dots.ocr"; ps_success := true;
            ps_error := None; ps_parsed := JNull;
            ps_task_type := pdf_task_type d; ps_total_pages := total_pages d;
            ps_pages := Some (pages d) |})
    | (tmp', Raised e) => (s, tmp', failed (Some (str e)))
    end
  else (s, tmp, failed None).

(** A run of calls on the shared service object, one image after the
    other. *)
Fixpoint serve (E : env) (s : state) (use_fallback : bool) (task : string)
    (images : list string) : state * list result :=
  match images with
  | [] => (s, [])
  | i :: rest =>
      let '(s1, r) := extract_text_from_image E s i use_fallback task in
      let '(s2, rs) := serve E s1 use_fallback task rest in
      (s2, r :: rs)
  end.

End OcrLifecycle.

(* ===================================================================== *)
(** ** document_processor.py: the PDF, DOCX and audio extractors *)
(* ===================================================================== *)

Module Extractors.
Import DocumentProcessor PyText.

Record env : Type := {
  (* fitz.open(file_path) and len(doc) *)
  mupdf_open : string -> outcome nat;
  (* doc[page_num].get_text() *)
  mupdf_text : string -> nat -> outcome string;
  mupdf_close : string -> outcome unit;
  (* open(file_path, 'rb'), PyPDF2.PdfReader(file) and len(pdf_reader.pages) *)
  pypdf_open : string -> outcome nat;
  (* page.extract_text() *)
  pypdf_text : string -> nat -> outcome string;
  (* DocxDocument(file_path): the texts of doc.paragraphs *)
  docx_paragraphs : string -> outcome (list string);
  (* from services import transcription_service: it imports and is not None *)
  transcription_available : bool;
  (* HebrewTranscriptionService.initialize: the two from_pretrained calls *)
  whisper_load : outcome unit;
  (* load the audio, run the model, decode *)
  whisper_transcribe : string -> outcome string
}.

(** *** PDFProcessor *)

(** A [{"page": n, "content": text}] entry. *)
Record page_text : Type := {
  page : nat;
  content : string
}.

(** The page loop of either reader: pages with visible text are appended to
    what is there already; the first raise ends the loop and keeps it. *)
Fixpoint read_pages (text : nat -> outcome string) (page_nums : list nat)
    (text_content : list page_text) : list page_text * outcome unit :=
  match page_nums with
  | [] => (text_content, Returned tt)
  | page_num :: rest =>
      match text page_num with
      | Raised e => (text_content, Raised e)
      | Returned t =>
          read_pages text rest
            (if blank t then text_content
             else snoc text_content {| page := page_num + 1; content := t |})
      end
  end.

(** The dict [PDFProcessor.extract_text] returns, with [metadata["pages"]]
    as [pdf_pages]. *)
Record pdf_extraction : Type := {
  pdf_ok : bool;
  pdf_content : list page_text;
  pdf_pages : nat;
  pdf_error : option string
}.

(** The PyMuPDF attempt: what was collected, the page count written into
    the metadata, and whether the attempt raised. *)
Definition mupdf_attempt (X : env) (file_path : string)
  : list page_text * nat * outcome unit :=
  match mupdf_open X file_path with
  | Raised e => ([], 0, Raised e)
  | Returned n =>
      match read_pages (mupdf_text X file_path) (seq 0 n) [] with
      | (text_content, Raised e) => (text_content, n, Raised e)
      | (text_content, Returned _) => (text_content, n, mupdf_close X file_path)
      end
  end.

Definition pdf_extract_text (X : env) (file_path : string) : pdf_extraction :=
  match mupdf_attempt X file_path with
  | (text_content, n, Returned _) =>
      {| pdf_ok := true; pdf_content := text_content; pdf_pages := n;
         pdf_error := None |}
  | (text_content, n, Raised _) =>
      (* Fallback to PyPDF2 *)
      match pypdf_open X file_path with
      | Raised e =>
          {| pdf_ok := false; pdf_content := []; pdf_pages := n;
             pdf_error := Some (str e) |}
      | Returned m =>
          match read_pages (pypdf_text X file_path) (seq 0 m) text_content with
          | (text_content', Returned _) =>
              {| pdf_ok := true; pdf_content := text_content'; pdf_pages := m;
                 pdf_error := None |}
          | (_, Raised e) =>
              {| pdf_ok := false; pdf_content := []; pdf_pages := m;
                 pdf_error := Some (str e) |}
          end
      end
  end.

(** The extraction as [process_document] reads it: it looks at the type and
    the content of an item, never at its page number. *)
Definition pdf_result (X : env) (file_path : string) : extraction_result :=
  let r := pdf_extract_text X file_path in
  {| e_success := pdf_ok r;
     e_content := map (fun p => {| ci_type := None; ci_content := content p |})
                      (pdf_content r);
     e_metadata := <["pages" := JNum (Z.of_nat (pdf_pages r))]>
                     (<["file_path" := JStr file_path]>
                        (<["file_type" := JStr "pdf"]> ∅));
     e_error := pdf_error r |}.

(** *** DocxProcessor *)

Definition docx_result (X : env) (file_path : string) : extraction_result :=
  match docx_paragraphs X file_path with
  | Returned paragraphs =>
      let text_content := List.filter (fun t => negb (blank t)) paragraphs in
      {| e_success := true;
         e_content := [{| ci_type := None; ci_content := join nl text_content |}];
         e_metadata := <["paragraphs" := JNum (Z.of_nat (length text_content))]>
                         (<["file_path" := JStr file_path]>
                            (<["file_type" := JStr "docx"]> ∅));
         e_error := None |}
  | Raised e =>
      {| e_success := false; e_content := [];
         e_metadata := <["file_path" := JStr file_path]>
                         (<["file_type" := JStr "docx"]> ∅);
         e_error := Some (str e) |}
  end.

(** *** AudioProcessor

    The flag is [transcription_service.initialized]: a load that raises
    leaves it unset. *)
Definition audio_result (X : env) (initialized : bool) (file_path : string)
  : bool * extraction_result :=
  let md := <["file_path" := JStr file_path]> (<["file_type" := JStr "audio"]> ∅) in
  if negb (transcription_available X) then
    (initialized,
     {| e_success := false; e_content := [];
        e_metadata := <["error" := JStr "Transcription service not available"]> md;
        e_error := Some "Transcription service not available" |})
  else
    match (if initialized then Returned tt else whisper_load X) with
    | Raised e =>
        (false,
         {| e_success := false; e_content := [];
            e_metadata :=
              <["error" := JStr "Transcription service initialization failed"]> md;
            e_error := Some ("Transcription service initialization failed: " +:+ str e) |})
    | Returned _ =>
        let md := <["transcription_method" := JStr "whisper-hebrew"]> md in
        match whisper_transcribe X file_path with
        | Returned t =>
            (true,
             {| e_success := true;
                e_content := [{| ci_type := None; ci_content := t |}];
                e_metadata := md; e_error := None |})
        | Raised e =>
            (true,
             {| e_success := false; e_content := []; e_metadata := md;
                e_error := Some (str e) |})
        end
    end.

(** The [processors] table of [DocumentProcessor], over these extractors.
    The image extractor stays a parameter, and so does the state of the
    transcription service the audio extractor finds. *)
Definition dispatch (X : env) (image : string -> outcome extraction_result)
    (transcriber_ready : bool) (file_type file_path : string)
  : outcome extraction_result :=
  if String.eqb file_type "pdf" then Returned (pdf_result X file_path)
  else if String.eqb file_type "docx" || String.eqb file_type "doc"
  then Returned (docx_result X file_path)
  else if String.eqb file_type "audio"
  then Returned (snd (audio_result X transcriber_ready file_path))
  else image file_path.

Definition with_extractors (D : DocumentProcessor.env) (X : env)
    (transcriber_ready : bool) : DocumentProcessor.env :=
  {| path_exists := path_exists D;
     path_stat := path_stat D;
     open_read := open_read D;
     processors := dispatch X (processors D "image") transcriber_ready;
     md5_hexdigest := md5_hexdigest D;
     split_documents := split_documents D;
     get_memory_usage := get_memory_usage D |}.

End Extractors.

(* ===================================================================== *)
(** ** periodic_indexer.py: loading the database, start, stop, force_scan *)
(* ===================================================================== *)

Module Watcher.
Import Settings PeriodicIndexer.

(** What reading the database needs from outside. *)
Record reader : Type := {
  open_r : outcome unit;                  (* open(self.processed_files_db, 'r') *)
  json_load : string -> outcome json      (* json.load on the file's text *)
}.

(** [d.get(key, default)] on a decoded JSON object. *)
Fixpoint obj_get (fields : list (string * json)) (key : string) (default : json) : json :=
  match fields with
  | [] => default
  | (k, v) :: rest => if String.eqb k key then v else obj_get rest key default
  end.

Definition hashable (v : json) : bool :=
  match v with
  | JArr _ | JObj _ => false
  | _ => true
  end.

(** The [TypeError] of [set] on the first member it cannot hash. *)
Definition unhashable_error (items : list json) : exn :=
  match List.find (fun v => negb (hashable v)) items with
  | Some (JObj _) => Exception "unhashable type: 'dict'"
  | _ => Exception "unhashable type: 'list'"
  end.

Definition as_str (v : json) : option string :=
  match v with
  | JStr s => Some s
  | _ => None
  end.

(** [set(v)] for the value found under ["processed_files"].
    - [Some (Returned s)]: the set built, a set of strings;
    - [Some (Raised _)]: [set] raises a [TypeError], the value is not
      iterable or holds a list or a dict;
    - [None]: the set would hold numbers, booleans or [None] next to the
      fingerprints; the indexer's state here is a set of strings, so such
      a file is outside what this development describes. *)
Definition set_of (v : json) : option (outcome (gset string)) :=
  match v with
  | JArr items =>
      if forallb hashable items then
        match mapM as_str items with
        | Some l => Some (Returned (list_to_set l))
        | None => None
        end
      else Some (Raised (unhashable_error items))
  | JStr s => Some (Returned (list_to_set (PyText.code_points s)))
  | JObj fields => Some (Returned (list_to_set (map fst fields)))
  | JNull => Some (Raised (Exception "'NoneType' object is not iterable"))
  | JBool _ => Some (Raised (Exception "'bool' object is not iterable"))
  | JNum _ => Some (Raised (Exception "'int' object is not iterable"))
  | JFloat _ _ => Some (Raised (Exception "'float' object is not iterable"))
  end.

(** [data.get("processed_files", [])]: only a dict has [get]. *)
Definition listed (data : json) : outcome json :=
  match data with
  | JObj fields => Returned (obj_get fields "processed_files" (JArr []))
  | JArr _ => Raised (Exception "'list' object has no attribute 'get'")
  | JStr _ => Raised (Exception "'str' object has no attribute 'get'")
  | JNull => Raised (Exception "'NoneType' object has no attribute 'get'")
  | JBool _ => Raised (Exception "'bool' object has no attribute 'get'")
  | JNum _ => Raised (Exception "'int' object has no attribute 'get'")
  | JFloat _ _ => Raised (Exception "'float' object has no attribute 'get'")
  end.

(** [_load_processed_files]; every failure ends in the empty set. *)
Definition _load_processed_files (R : reader) (st : state)
  : option (state * list log_entry) :=
  let failed e :=
    Some (set_processed st ∅,
          [Log ERROR ("Error loading processed files database: " +:+ str e)]) in
  match db_file st with
  | None =>
      Some (set_processed st ∅,
            [Log INFO "No processed files database found, starting fresh"])
  | Some content =>
      match open_r R with
      | Raised e => failed e
      | Returned _ =>
          match json_load R content with
          | Raised e => failed e
          | Returned data =>
              match listed data with
              | Raised e => failed e
              | Returned v =>
                  match set_of v with
                  | None => None
                  | Some (Raised e) => failed e
                  | Some (Returned s) =>
                      Some (set_processed st s,
                            [Log INFO ("Loaded " +:+ str_nat (size s)
                                       +:+ " processed files from database")])
                  end
              end
          end
      end
  end.

(** The indexer with its task slot: [task] says whether [self.task] holds a
    task object. *)
Record handle : Type := {
  indexer : state;
  task : bool
}.

Definition start (S : settings) (h : handle) : handle * list log_entry :=
  if negb (enable_periodic_indexing S) then
    (h, [Log INFO "Periodic indexing is disabled, not starting"])
  else if running (indexer h) then
    (h, [Log WARNING "Periodic indexer is already running"])
  else
    ({| indexer := set_running (indexer h) true; task := true |},
     [Log INFO "Periodic indexer started"]).

Definition stop (h : handle) : handle * list log_entry :=
  if negb (running (indexer h)) then (h, [])
  else
    ({| indexer := set_running (indexer h) false; task := task h |},
     [Log INFO "Periodic indexer stopped"]).

Definition force_scan (md5_hexdigest : string -> outcome string) (S : settings)
    (E : PeriodicIndexer.env) (st : state) : state * list log_entry :=
  if negb (enable_periodic_indexing S) then
    (st, [Log WARNING "Periodic indexing is disabled"])
  else
    let '(st', logs, _) := _scan_and_index md5_hexdigest S E st in
    (st', Log INFO "Forcing immediate directory scan" :: logs).

End Watcher.

(* ===================================================================== *)
(** ** Notions the further properties are stated with *)
(* ===================================================================== *)

Module Derived.
Import Settings DocumentProcessor PeriodicIndexer Stated.

(** One content item as it appears in the normalised text, and the flag
    it raises in the metadata. *)
Definition kind (item : content_item) : string := default "text" (ci_type item).

Definition rendered (item : content_item) : string :=
  let content := ci_content item in
  if String.eqb (kind item) "table" then
    nl +:+ "[טבלה]" +:+ nl +:+ content +:+ nl +:+ "[/טבלה]" +:+ nl +:+ nl
  else if String.eqb (kind item) "formula" then
    nl +:+ "[נוסחה]" +:+ nl +:+ content +:+ nl +:+ "[/נוסחה]" +:+ nl +:+ nl
  else content +:+ nl +:+ nl.

Definition flag_key (item : content_item) : option string :=
  if String.eqb (kind item) "table" then Some "has_tables"
  else if String.eqb (kind item) "formula" then Some "has_formulas"
  else if String.eqb (kind item) "text_block" then Some "has_text_blocks"
  else None.

Definition flagged (key : string) (items : list content_item) : bool :=
  existsb (fun item => bool_decide (flag_key item = Some key)) items.

Definition flatten (parts : list string) : string :=
  fold_right String.append "" parts.

(** The text [process_document] builds from the items of an extraction. *)
Definition full_text_of (items : list content_item) : string :=
  fst (fold_left add_item items ("", ∅)).

(** Whether the scan looks at an entry at all: a regular file with an
    extension on the allow-list. *)
Definition candidate (S : settings) (E : PeriodicIndexer.env) (p : string) : bool :=
  match is_file E p with
  | Returned true => bool_decide (lower (path_suffix p) ∈ supported_extensions S)
  | _ => false
  end.

(** No [is_file] call of a listing raises. *)
Definition listable (E : PeriodicIndexer.env) (entries : list string) : Prop :=
  forall p, p ∈ entries -> exists b, is_file E p = Returned b.

(** The paths of the successful and failed entries a batch should show:
    the inputs whose call went well, and the others, in input order. *)
Definition valid_paths (l : list (string * outcome doc_result)) : list string :=
  map fst (List.filter (fun po => negb (invalid (snd po))) l).

Definition invalid_paths (l : list (string * outcome doc_result)) : list string :=
  map fst (List.filter (fun po => invalid (snd po)) l).

Definition chunks_of (o : outcome doc_result) : nat :=
  match o with
  | Returned r => if success r then length (documents r) else 0
  | Raised _ => 0
  end.

(** The entries a page loop collects from pages whose text is [texts]. *)
Definition visible_pages (texts : nat -> string) (page_nums : list nat)
  : list Extractors.page_text :=
  flat_map (fun k => if PyText.blank (texts k) then []
                     else [{| Extractors.page := k + 1;
                              Extractors.content := texts k |}]) page_nums.

(** The files whose [unlink] goes through. *)
Definition deletable (E : PeriodicIndexer.env) (p : string) : bool :=
  match unlink E p with
  | Returned _ => true
  | Raised _ => false
  end.

(** The warnings among the entries a call logs. *)
Definition warnings (logs : list log_entry) : list log_entry :=
  List.filter (fun l => match log_level l with WARNING => true | _ => false end) logs.

(** What the scan's loop over a listing hands to [_process_new_files]:
    nothing, if the loop raised. *)
Definition selected (md5_hexdigest : string -> outcome string) (S : settings)
    (E : PeriodicIndexer.env) (processed : gset string) (entries : list string)
  : list (string * string) :=
  match fst (collect md5_hexdigest S E processed entries [] []) with
  | Returned new_files => new_files
  | Raised _ => []
  end.

(** What the scan takes of [p]: a candidate with a new fingerprint, and
    that fingerprint. *)
Definition pick (md5_hexdigest : string -> outcome string) (S : settings)
    (E : PeriodicIndexer.env) (processed : gset string) (p : string)
  : option (string * string) :=
  if candidate S E p then
    match fst (_get_file_hash md5_hexdigest E p) with
    | Returned h => if bool_decide (h ∈ processed) then None else Some (p, h)
    | Raised _ => None
    end
  else None.

(** The fingerprint of every candidate of the listing can be computed. *)
Definition fingerprinted (md5_hexdigest : string -> outcome string) (S : settings)
    (E : PeriodicIndexer.env) (entries : list string) : Prop :=
  forall p, p ∈ entries -> candidate S E p = true ->
    exists h, fst (_get_file_hash md5_hexdigest E p) = Returned h.

End Derived.

(* ===================================================================== *)
(** ** Further concrete environments *)
(* ===================================================================== *)

Module Fixtures.
Import Scenario.

(** The host of [Scenario.host] as a Mac sees it: the primary engine's
    packages may be installed, the platform rules it out. *)
Definition mac (fallback : outcome string) : OcrService.env := {|
  OcrService.DOTS_OCR_AVAILABLE := true;
  OcrService.TESSERACT_AVAILABLE := true;
  OcrService.platform_system := "Darwin";
  OcrService.load_model := Returned tt;
  OcrService.load_processor := Returned tt;
  OcrService.infer := fun _ _ => Returned "{}";
  OcrService.json_loads := fun _ => OcrService.JSONDecodeError;
  OcrService.image_to_string := fun _ => fallback;
  OcrService.fitz_import := Returned tt;
  OcrService.fitz_open := fun _ => Returned 1;
  OcrService.load_page := fun _ _ => Returned tt;
  OcrService.get_pixmap := fun _ _ _ => Returned tt;
  OcrService.pix_save := fun _ => Returned tt;
  OcrService.os_remove := fun _ => Returned tt;
  OcrService.py_hash := fun _ => 42%Z
|}.

(** A Linux host on which the model weights cannot be loaded. *)
Definition no_weights (fallback : outcome string) : OcrService.env := {|
  OcrService.DOTS_OCR_AVAILABLE := true;
  OcrService.TESSERACT_AVAILABLE := true;
  OcrService.platform_system := "Linux";
  OcrService.load_model := Raised (Exception "No module named flash_attn");
  OcrService.load_processor := Returned tt;
  OcrService.infer := fun _ _ => Returned "{}";
  OcrService.json_loads := fun _ => OcrService.JSONDecodeError;
  OcrService.image_to_string := fun _ => fallback;
  OcrService.fitz_import := Returned tt;
  OcrService.fitz_open := fun _ => Returned 1;
  OcrService.load_page := fun _ _ => Returned tt;
  OcrService.get_pixmap := fun _ _ _ => Returned tt;
  OcrService.pix_save := fun _ => Returned tt;
  OcrService.os_remove := fun _ => Returned tt;
  OcrService.py_hash := fun _ => 42%Z
|}.

(** A host whose PDFs cannot be opened. *)
Definition no_pdf : OcrService.env := {|
  OcrService.DOTS_OCR_AVAILABLE := true;
  OcrService.TESSERACT_AVAILABLE := true;
  OcrService.platform_system := "Linux";
  OcrService.load_model := Returned tt;
  OcrService.load_processor := Returned tt;
  OcrService.infer := fun _ _ => Returned "{}";
  OcrService.json_loads := fun _ => OcrService.JSONDecodeError;
  OcrService.image_to_string := fun _ => Returned "text";
  OcrService.fitz_import := Returned tt;
  OcrService.fitz_open := fun _ => Raised (Exception "cannot open broken document");
  OcrService.load_page := fun _ _ => Returned tt;
  OcrService.get_pixmap := fun _ _ _ => Returned tt;
  OcrService.pix_save := fun _ => Returned tt;
  OcrService.os_remove := fun _ => Returned tt;
  OcrService.py_hash := fun _ => 42%Z
|}.

Definition gpu : OcrLifecycle.mem_env := {|
  OcrLifecycle.model_to_cpu := Returned tt;
  OcrLifecycle.cuda_is_available := true;
  OcrLifecycle.cuda_empty_cache := Returned tt
|}.

(** A PDF reader pair: PyMuPDF sees [n] pages and raises on page [bad]
    (never, if [bad] is not below [n]); PyPDF2 sees [m] pages and reads
    them all.  Page [k] reads as [texts k] in both. *)
Definition readers (n bad m : nat) (texts : nat -> string) : Extractors.env := {|
  Extractors.mupdf_open := fun _ => Returned n;
  Extractors.mupdf_text := fun _ k =>
    if Nat.eqb k bad then Raised (Exception "bad xref") else Returned (texts k);
  Extractors.mupdf_close := fun _ => Returned tt;
  Extractors.pypdf_open := fun _ => Returned m;
  Extractors.pypdf_text := fun _ k => Returned (texts k);
  Extractors.docx_paragraphs := fun _ => Returned ["  "; ""];
  Extractors.transcription_available := false;
  Extractors.whisper_load := Returned tt;
  Extractors.whisper_transcribe := fun _ => Returned "shalom"
|}.

(** Page texts: page 1 (index 0) is white space only, the others read
    [page]. *)
Definition sparse (k : nat) : string :=
  if Nat.eqb k 0 then "  " +:+ nl else "page".

Definition all_blank (k : nat) : string := " " +:+ nl.

(** A directory with one file of each modelled kind, all small. *)
Definition inbox : DocumentProcessor.env :=
  folder [("scan.pdf", 9%Z); ("empty.docx", 9%Z); ("memo.mp3", 9%Z);
          ("a.txt", 5%Z)] corrupt.

(** The service once [DocumentProcessor.initialize] has run on [host]. *)
Definition ready : OcrService.state :=
  {| OcrService.dots_ocr := loaded; OcrService.initialized := true |}.

(** A PDF neither reader can open, on a host whose speech model cannot be
    loaded. *)
Definition damaged : Extractors.env := {|
  Extractors.mupdf_open := fun _ => Raised (Exception "cannot open broken document");
  Extractors.mupdf_text := fun _ _ => Returned "";
  Extractors.mupdf_close := fun _ => Returned tt;
  Extractors.pypdf_open := fun _ => Raised (Exception "EOF marker not found");
  Extractors.pypdf_text := fun _ _ => Returned "";
  Extractors.docx_paragraphs := fun _ => Raised (Exception "Package not found");
  Extractors.transcription_available := true;
  Extractors.whisper_load := Raised (Exception "CUDA out of memory");
  Extractors.whisper_transcribe := fun _ => Returned ""
|}.

(** The environment [E] with the database on a read-only file system. *)
Definition read_only_db (E : PeriodicIndexer.env) : PeriodicIndexer.env := {|
  PeriodicIndexer.rglob := PeriodicIndexer.rglob E;
  PeriodicIndexer.is_file := PeriodicIndexer.is_file E;
  PeriodicIndexer.stat := PeriodicIndexer.stat E;
  PeriodicIndexer.utcnow_isoformat := PeriodicIndexer.utcnow_isoformat E;
  PeriodicIndexer.open_w := Raised (Exception "[Errno 30] Read-only file system");
  PeriodicIndexer.iterencode := PeriodicIndexer.iterencode E;
  PeriodicIndexer.fp_write := PeriodicIndexer.fp_write E;
  PeriodicIndexer.unlink := PeriodicIndexer.unlink E;
  PeriodicIndexer.rag := PeriodicIndexer.rag E;
  PeriodicIndexer.doc := PeriodicIndexer.doc E
|}.

(** A JSON reader that decodes the text [encode] writes for [doc], and
    nothing else. *)
Definition decoder (doc : json) : Watcher.reader := {|
  Watcher.open_r := Returned tt;
  Watcher.json_load := fun text =>
    if String.eqb text (Stated.dumped (encode doc)) then Returned doc
    else Raised (Exception "Expecting value: line 1 column 1 (char 0)")
|}.

(** The size and time every file of [folder] shows. *)
Definition nine_bytes : stat_result :=
  {| st_size := 9; st_mtime := "1730624400.5" |}.

End Fixtures.

(* ===================================================================== *)
(** ** The helpers on concrete inputs *)
(* ===================================================================== *)

Section Readings.
Import Settings DocumentProcessor.

Example suffix_of_nested_path : path_suffix "storage/watch/Report.final.PDF" = ".PDF".
Proof. reflexivity. Qed.

Example suffix_of_dotfile : path_suffix "home/.bashrc" = "".
Proof. reflexivity. Qed.

Example suffix_of_trailing_dot : path_suffix "notes." = "".
Proof. reflexivity. Qed.

Example file_type_ignores_case : _get_file_type "storage/watch/Report.final.PDF" = "pdf".
Proof. reflexivity. Qed.

Example file_type_unknown : _get_file_type "archive.tar.gz" = "unknown".
Proof. reflexivity. Qed.

Example format_one_byte_over : format_mb_1f 104857601 = "100.0".
Proof. reflexivity. Qed.

Example format_rounds_up : format_mb_1f 104910029 = "100.1".
Proof. reflexivity. Qed.

Example format_tie_to_even : format_mb_1f 262144 = "0.2".
Proof. reflexivity. Qed.

Example range_of_twelve : range_step 12 batch_size = [0; 5; 10].
Proof. reflexivity. Qed.

Example slice_past_the_end : slice ["a"; "b"; "c"] 2 7 = ["c"].
Proof. reflexivity. Qed.

Example strip_both_ends : strip ("  page one " +:+ nl) = "page one".
Proof. reflexivity. Qed.

(** U+00A0 before and U+001C after are stripped; the one inside stays. *)
Example strip_unicode_space :
  strip (PyText.bytes [194; 160; 97; 194; 160; 98; 28]) = PyText.bytes [97; 194; 160; 98].
Proof. reflexivity. Qed.

Example len_counts_code_points : py_len "[טבלה]" = 6.
Proof. reflexivity. Qed.

Example contains_inside : contains "large" "File too large: 200.0MB" = true.
Proof. reflexivity. Qed.

Example contains_absent : contains "Unsupported" "File too large: 200.0MB" = false.
Proof. reflexivity. Qed.

(** Seven paths, the third and the sixth of them missing: two waves, five
    documents, two failures. *)
Example seven_paths_two_missing :
  let D := Scenario.folder [("1.txt", 1%Z); ("2.txt", 1%Z); ("4.txt", 1%Z);
                            ("5.txt", 1%Z); ("7.txt", 1%Z)] Scenario.corrupt in
  let report := process_multiple_documents defaults (fun _ => D)
                  ["1.txt"; "2.txt"; "3.txt"; "4.txt"; "5.txt"; "6.txt"; "7.txt"] in
  total_documents report = 5 /\
  map f_file_path (failed report) = ["3.txt"; "6.txt"] /\
  map f_error (failed report)
    = [Some "File not found: 3.txt"; Some "File not found: 6.txt"] /\
  total_chunks report = 5.
Proof. lazy. repeat split; reflexivity. Qed.

End Readings.

(* ===================================================================== *)
(** ** Properties of the OCR fallback chain *)
(* ===================================================================== *)

Section Substrings.

Lemma append_cons (c : ascii) (a b : string) :
  String c a +:+ b = String c (a +:+ b).
Proof. reflexivity. Qed.

Lemma append_nil_r (a : string) : a +:+ "" = a.
Proof.
  induction a as [|c a IH]; [done |]. by rewrite append_cons, IH.
Qed.

Lemma prefix_append (a b : string) : String.prefix a (a +:+ b) = true.
Proof.
  induction a as [|c a IH].
  - by destruct b.
  - rewrite append_cons. cbn [String.prefix].
    destruct (ascii_dec c c); [exact IH | congruence].
Qed.

Lemma contains_prefix (n h : string) :
  String.prefix n h = true -> contains n h = true.
Proof. intros H. destruct h; cbn [contains]; rewrite H; done. Qed.

Lemma contains_here (a b : string) : contains a (a +:+ b) = true.
Proof. apply contains_prefix, prefix_append. Qed.

Lemma contains_self (a : string) : contains a a = true.
Proof. rewrite <- (append_nil_r a) at 2. apply contains_here. Qed.

Lemma contains_skip (n a h : string) :
  contains n h = true -> contains n (a +:+ h) = true.
Proof.
  intros H. induction a as [|c a IH]; [exact H |].
  rewrite append_cons. cbn [contains]. rewrite IH. apply orb_true_r.
Qed.

End Substrings.

Section OcrChain.
Import OcrService.
Variable E : env.

Lemma initialize_initialized (s : state) : initialized (initialize E s) = true.
Proof.
  unfold initialize. destruct (initialized s) eqn:Hi; simpl; [done |].
  by destruct (dots_initialize E (dots_ocr s)).
Qed.

(** C1. When the primary engine raises on image [i]: if the fallback
    engine returns, the service's result names the fallback engine and is
    a success carrying its text; if the fallback engine, being tried,
    raises too, the result is a failure whose error message contains both
    underlying errors. *)
Theorem ocr_fallback_on_primary_failure
    (s : state) (i task : string) (e1 : exn) :
  dots_is_available E = true ->
  dots_extract_text_from_image E (dots_ocr (initialize E s)) i task = Raised e1 ->
  let r := snd (extract_text_from_image E s i true task) in
  match tesseract_extract_text_from_image E i with
  | Returned t =>
      method r = "tesseract" /\ success r = true /\ text r = t /\ error r = None
  | Raised e2 =>
      tesseract_is_available E = true ->
      success r = false /\
      exists msg, error r = Some msg /\
                  contains (str e1) msg = true /\ contains (str e2) msg = true
  end.
Proof.
  intros Hav Hprim. unfold extract_text_from_image.
  rewrite Hav, Hprim. cbn zeta.
  destruct (tesseract_extract_text_from_image E i) as [t|e2] eqn:Hfb.
  - assert (Ht : tesseract_is_available E = true).
    { unfold tesseract_extract_text_from_image in Hfb.
      by destruct (tesseract_is_available E). }
    by rewrite Ht.
  - intros Ht. rewrite Ht. cbn. split; [done |].
    eexists; split; [reflexivity |]. split.
    + apply contains_skip, contains_here.
    + do 3 apply contains_skip. apply contains_self.
Qed.

(** For a [full] or [layout_only] task, output text that the JSON decoder
    rejects with a [JSONDecodeError] is returned as it is, with no parsed
    document and marked as a success. *)
Lemma unparsable_output_is_returned_raw
    (s : dots_state) (i task out : string) :
  task = "full" \/ task = "layout_only" ->
  model s = true -> processor s = true ->
  infer E i (_create_prompt task) = Returned out ->
  json_loads E out = JSONDecodeError ->
  dots_extract_text_from_image E s i task =
    Returned {| d_text := out; d_parsed := JNull;
                d_task_type := task; d_success := true |}.
Proof.
  intros Htask Hm Hp Hinf Hjs. unfold dots_extract_text_from_image.
  rewrite Hm, Hp, Hinf. cbn [negb orb].
  assert (Hs : is_structured task = true) by (destruct Htask; subst; reflexivity).
  by rewrite Hs, Hjs.
Qed.

(** Any other exception of the decoder is not caught by
    [except json.JSONDecodeError]: it reaches the outer handler, which
    logs and raises again. *)
Lemma decoder_error_propagates (s : dots_state) (i task out : string) (e : exn) :
  task = "full" \/ task = "layout_only" ->
  model s = true -> processor s = true ->
  infer E i (_create_prompt task) = Returned out ->
  json_loads E out = LoadsRaised e ->
  dots_extract_text_from_image E s i task = Raised e.
Proof.
  intros Htask Hm Hp Hinf Hjs. unfold dots_extract_text_from_image.
  rewrite Hm, Hp, Hinf. cbn [negb orb].
  assert (Hs : is_structured task = true) by (destruct Htask; subst; reflexivity).
  by rewrite Hs, Hjs.
Qed.

(** The same through the service: the raw text is reported under the
    primary engine's name, with no parsed document. *)
Lemma service_returns_raw_text (s : state) (i task out : string) :
  dots_is_available E = true ->
  dots_extract_text_from_image E (dots_ocr (initialize E s)) i task =
    Returned {| d_text := out; d_parsed := JNull;
                d_task_type := task; d_success := true |} ->
  let r := snd (extract_text_from_image E s i true task) in
  text r = out /\ parsed r = JNull /\ success r = true /\ method r = "dots.ocr".
Proof.
  intros Hav Hd. unfold extract_text_from_image. by rewrite Hav, Hd.
Qed.

End OcrChain.

Section OcrChainRuns.
Import OcrService Scenario.

Lemma ocr_fallback_on_primary_failure_witness :
  (let r := snd (extract_text_from_image (host oom (Returned "shalom") 0) init
                                         "scan.png" true "full") in
   method r = "tesseract" /\ success r = true /\ text r = "shalom" /\ error r = None)
  /\
  (let r := snd (extract_text_from_image (host oom unreadable 0) init
                                         "scan.png" true "full") in
   success r = false /\
   exists msg, error r = Some msg /\
               contains "CUDA out of memory" msg = true /\
               contains "cannot identify image file" msg = true).
Proof.
  split.
  - apply (ocr_fallback_on_primary_failure (host oom (Returned "shalom") 0)
             init "scan.png" "full" (Exception "CUDA out of memory"));
      reflexivity.
  - apply (ocr_fallback_on_primary_failure (host oom unreadable 0)
             init "scan.png" "full" (Exception "CUDA out of memory"));
      reflexivity.
Defined.

Lemma rejected_output_is_returned_raw :
  dots_extract_text_from_image (host (Returned "not json") unreadable 0) loaded
                               "scan.png" "layout_only" =
    Returned {| d_text := "not json"; d_parsed := JNull;
                d_task_type := "layout_only"; d_success := true |}.
Proof.
  apply (unparsable_output_is_returned_raw (host (Returned "not json") unreadable 0)
           loaded "scan.png" "layout_only" "not json");
    [right; reflexivity | reflexivity ..].
Qed.

(** C7, at a failing input: the model's output is a thousand opening
    brackets.  It does not parse as JSON, yet [json.loads] leaves with a
    [RecursionError], which [except json.JSONDecodeError] does not catch:
    the call raises, the raw text is lost, and the service reports a
    failure, or the fallback's text when the fallback is allowed. *)
Theorem deeply_nested_output_is_a_failure :
  let fine := {| dots_ocr := loaded; initialized := true |} in
  let out := nested recursion_limit in
  infer (deep_host unreadable) "scan.png" (_create_prompt "full") = Returned out /\
  json_loads (deep_host unreadable) out = LoadsRaised recursion_error /\
  dots_extract_text_from_image (deep_host unreadable) loaded "scan.png" "full"
    = Raised recursion_error /\
  (let r := snd (extract_text_from_image (deep_host unreadable) fine
                                         "scan.png" false "full") in
   success r = false /\ text r = "" /\ error r = Some (str recursion_error)) /\
  (let r := snd (extract_text_from_image (deep_host (Returned "shalom")) fine
                                         "scan.png" true "full") in
   method r = "tesseract" /\ text r = "shalom").
Proof.
  intros fine out.
  assert (Hjs : forall fallback,
            json_loads (deep_host fallback) out = LoadsRaised recursion_error)
    by (intros fallback; vm_compute; reflexivity).
  assert (Hraise : forall fallback,
            dots_extract_text_from_image (deep_host fallback) loaded "scan.png" "full"
            = Raised recursion_error).
  { intros fallback.
    apply (decoder_error_propagates (deep_host fallback) loaded "scan.png" "full" out);
      [by left | reflexivity | reflexivity | reflexivity | apply Hjs]. }
  split; [reflexivity |]. split; [apply Hjs |]. split; [apply Hraise |].
  split.
  - cbn zeta. unfold extract_text_from_image, initialize, fine.
    cbn [initialized dots_ocr]. change (dots_is_available (deep_host unreadable)) with true.
    cbn iota. rewrite Hraise. by cbn.
  - cbn zeta. unfold extract_text_from_image, initialize, fine.
    cbn [initialized dots_ocr].
    change (dots_is_available (deep_host (Returned "shalom"))) with true.
    cbn iota. rewrite Hraise. by cbn.
Qed.

End OcrChainRuns.

(* ===================================================================== *)
(** ** Temporary page images of the PDF path *)
(* ===================================================================== *)

Section PdfTempFiles.
Import OcrService.
Variable E : env.
Variable s : dots_state.
Variables pdf_path task : string.
Variables total dpi : nat.

Hypothesis model_loaded : model s = true.
Hypothesis processor_loaded : processor s = true.

(** The page image exists from [pix.save] on; when the OCR call raises,
    the iteration ends in the [except] clause with the image in place. *)
Lemma process_page_ocr_raises
    (tmp : gset string) (rs : list page_result) (n : nat) (e : exn) :
  load_page E pdf_path n = Returned tt ->
  get_pixmap E pdf_path n dpi = Returned tt ->
  pix_save E (temp_image_path E pdf_path n) = Returned tt ->
  dots_extract_text_from_image E s (temp_image_path E pdf_path n) task = Raised e ->
  process_page E s pdf_path task total dpi (tmp, rs) n =
    ({[temp_image_path E pdf_path n]} ∪ tmp, snoc rs (error_page n total e)).
Proof.
  intros Hl Hg Hs Ho. unfold process_page. by rewrite Hl, Hg, Hs, Ho.
Qed.

(** When the OCR call returns and [os.remove] succeeds, the image is gone
    at the end of the iteration. *)
Lemma process_page_ocr_returns
    (tmp : gset string) (rs : list page_result) (n : nat) (r : dots_result) :
  load_page E pdf_path n = Returned tt ->
  get_pixmap E pdf_path n dpi = Returned tt ->
  pix_save E (temp_image_path E pdf_path n) = Returned tt ->
  os_remove E (temp_image_path E pdf_path n) = Returned tt ->
  dots_extract_text_from_image E s (temp_image_path E pdf_path n) task = Returned r ->
  temp_image_path E pdf_path n ∉
    fst (process_page E s pdf_path task total dpi (tmp, rs) n).
Proof.
  intros Hl Hg Hs Hr Ho. unfold process_page, remove.
  rewrite Hl, Hg, Hs, Ho. cbn [fst].
  destruct (decide _) as [_|Hn]; [| exfalso; apply Hn; set_solver].
  rewrite Hr. cbn [fst]. set_solver.
Qed.

(** A one-page document whose only page fails in OCR: the call reports
    the page as an error page and returns with the page image still in
    [/tmp]. *)
Lemma single_page_ocr_raises (tmp : gset string) (e : exn) :
  fitz_import E = Returned tt ->
  fitz_open E pdf_path = Returned 1 ->
  load_page E pdf_path 0 = Returned tt ->
  get_pixmap E pdf_path 0 dpi = Returned tt ->
  pix_save E (temp_image_path E pdf_path 0) = Returned tt ->
  dots_extract_text_from_image E s (temp_image_path E pdf_path 0) task = Raised e ->
  exists res,
    dots_extract_text_from_pdf E s tmp pdf_path task dpi =
      ({[temp_image_path E pdf_path 0]} ∪ tmp, Returned res) /\
    pages res = [error_page 0 1 e] /\ pdf_success res = false.
Proof.
  intros Hi Hopen Hl Hg Hs Ho. unfold dots_extract_text_from_pdf.
  rewrite model_loaded, processor_loaded, Hi, Hopen. cbn [negb orb seq fold_left].
  unfold process_page. rewrite Hl, Hg, Hs, Ho. cbn.
  eexists; split; [reflexivity |]. split; reflexivity.
Qed.

End PdfTempFiles.

Section PdfTempFilesRun.
Import OcrService Scenario.

(** C6, at a failing input: a one-page PDF whose page image is written
    and whose OCR call then raises.  The page is reported as an error
    page, and its image is still in [/tmp] when the call returns: the
    [os.remove] sits after the OCR call inside the [try], so the raise
    jumps over it. *)
Theorem page_image_left_behind_when_ocr_raises :
  let E := host oom unreadable 1 in
  let out := dots_extract_text_from_pdf E loaded ∅ "report.pdf" "full" 200 in
  temp_image_path E "report.pdf" 0 = "/tmp/dots_ocr_pdf_0_42.png" /\
  "/tmp/dots_ocr_pdf_0_42.png" ∈ fst out /\
  exists res, snd out = Returned res /\
              pages res = [error_page 0 1 (Exception "CUDA out of memory")].
Proof.
  intros E out.
  destruct (single_page_ocr_raises E loaded "report.pdf" "full" 200
              eq_refl eq_refl ∅ (Exception "CUDA out of memory")
              eq_refl eq_refl eq_refl eq_refl eq_refl eq_refl)
    as (res & Hout & Hpages & _).
  split; [reflexivity |]. subst out. rewrite Hout. cbn [fst snd]. split.
  - change (temp_image_path E "report.pdf" 0 ∈
            ({[temp_image_path E "report.pdf" 0]} ∪ ∅ : gset string)).
    set_solver.
  - by exists res.
Qed.

End PdfTempFilesRun.

(* ===================================================================== *)
(** ** The gates in front of the format extractors *)
(* ===================================================================== *)

Section Gates.
Import Settings DocumentProcessor Stated.
Variable S : settings.
Variable E : env.

(** C9. An existing file larger than the configured maximum is rejected
    with a size-limit error that prints the file's size in MB and the
    configured maximum, and no extractor is invoked. *)
Theorem oversized_file_is_rejected (f : string) (st : stat_result) :
  path_exists E f = Returned true ->
  path_stat E f = Returned st ->
  (max_file_size_mb S * MB < st_size st)%Z ->
  exists msg,
    process_document S E f = ([], Returned (failure (Some msg) ∅)) /\
    msg = "File too large: " +:+ format_mb_1f (st_size st)
          +:+ "MB (max: " +:+ str_Z (max_file_size_mb S) +:+ "MB)" /\
    contains (format_mb_1f (st_size st)) msg = true /\
    contains (str_Z (max_file_size_mb S)) msg = true.
Proof.
  intros Hex Hst Hbig. eexists. split; [| split; [reflexivity |]].
  - unfold process_document. rewrite Hex, Hst. cbn [negb].
    apply Z.ltb_lt in Hbig. by rewrite Hbig.
  - split.
    + apply contains_skip, contains_here.
    + do 3 apply contains_skip. apply contains_here.
Qed.

(** C8, amended. An existing file within the size limit whose extension
    is not in the mapping is rejected with the unsupported-file-type
    error naming its suffix, and no extractor is invoked. *)
Theorem unsupported_extension_is_rejected (f : string) (st : stat_result) :
  path_exists E f = Returned true ->
  path_stat E f = Returned st ->
  (st_size st <= max_file_size_mb S * MB)%Z ->
  _get_file_type f = "unknown" ->
  process_document S E f =
    ([], Returned (failure (Some ("Unsupported file type: " +:+ path_suffix f)) ∅))
  /\ rejects_as_unsupported S E f.
Proof.
  intros Hex Hst Hsmall Hty.
  assert (Hrun : process_document S E f =
    ([], Returned (failure (Some ("Unsupported file type: " +:+ path_suffix f)) ∅))).
  { unfold process_document. rewrite Hex, Hst. cbn [negb].
    apply Z.ltb_ge in Hsmall. by rewrite Hsmall, Hty. }
  split; [exact Hrun |].
  exists (failure (Some ("Unsupported file type: " +:+ path_suffix f)) ∅).
  eexists. split; [exact Hrun |]. split; [reflexivity |].
  split; [reflexivity |].
  apply (contains_here "Unsupported file type" (": " +:+ path_suffix f)).
Qed.

(** Whatever its size, a file with an unknown extension reaches no
    extractor. *)
Lemma unknown_type_never_extracted (f : string) :
  _get_file_type f = "unknown" -> fst (process_document S E f) = [].
Proof.
  intros Hty. unfold process_document.
  destruct (path_exists E f) as [[|]|e0]; [| done | done].
  destruct (path_stat E f) as [st|e]; [| done].
  destruct (_ <? _)%Z; [done |]. by rewrite Hty.
Qed.

End Gates.

Section GatesRun.
Import Settings DocumentProcessor Stated Scenario.

Lemma oversized_file_is_rejected_witness :
  exists msg,
    process_document defaults (folder [("big.pdf", 209715200%Z)] corrupt) "big.pdf"
      = ([], Returned (failure (Some msg) ∅)) /\
    msg = "File too large: 200.0MB (max: 100MB)".
Proof.
  destruct (oversized_file_is_rejected defaults
              (folder [("big.pdf", 209715200%Z)] corrupt) "big.pdf"
              {| st_size := 209715200; st_mtime := "1730624400.5" |}
              eq_refl eq_refl eq_refl) as (msg & Hrun & Hmsg & _).
  exists msg. split; [exact Hrun | exact Hmsg].
Defined.

Lemma unsupported_extension_is_rejected_witness :
  process_document defaults (folder [("notes.xyz", 12%Z)] corrupt) "notes.xyz"
    = ([], Returned (failure (Some "Unsupported file type: .xyz") ∅)).
Proof.
  apply (unsupported_extension_is_rejected defaults
           (folder [("notes.xyz", 12%Z)] corrupt) "notes.xyz"
           {| st_size := 12; st_mtime := "1730624400.5" |});
    [reflexivity | reflexivity | vm_compute; discriminate | reflexivity].
Defined.

(** C8 as stated fails on an existing file that has an unsupported
    extension and is also over the size limit: the size check comes
    first and the error is the size-limit one. *)
Lemma oversized_unsupported_file_gets_size_error :
  let E := folder [("dump.xyz", 209715200%Z)] corrupt in
  path_exists E "dump.xyz" = Returned true /\
  _get_file_type "dump.xyz" = "unknown" /\
  process_document defaults E "dump.xyz"
    = ([], Returned (failure (Some "File too large: 200.0MB (max: 100MB)") ∅)) /\
  ~ rejects_as_unsupported defaults E "dump.xyz".
Proof.
  intros E. repeat split; try reflexivity.
  intros (r & msg & Hrun & _ & Herr & Hc).
  assert (Hcomp : process_document defaults E "dump.xyz"
    = ([], Returned (failure (Some "File too large: 200.0MB (max: 100MB)") ∅)))
    by reflexivity.
  rewrite Hcomp in Hrun. injection Hrun as <-.
  cbn in Herr. injection Herr as <-. vm_compute in Hc. discriminate Hc.
Qed.

End GatesRun.

(* ===================================================================== *)
(** ** The batch report *)
(* ===================================================================== *)

Section Waves.
Context {A R : Type}.
Variable f : R -> A -> R.

Lemma take_plus (a b : nat) (l : list A) :
  take (a + b) l = (take a l ++ take b (drop a l))%list.
Proof.
  revert l. induction a as [|a IH]; intros l; [done |].
  destruct l as [|x l]; cbn; [by destruct b | by rewrite IH].
Qed.

(** Folding wave after wave over consecutive slices is folding over the
    stretch of the list they cover. *)
Lemma fold_waves (w : nat) (l : list A) (m b : nat) (r : R) :
  fold_left (fun r i => fold_left f (take w (drop i l)) r)
            (map (fun j => j * w) (seq b m)) r
  = fold_left f (take (m * w) (drop (b * w) l)) r.
Proof.
  revert b r. induction m as [|m IH]; intros b r; [done |].
  cbn [seq map fold_left]. rewrite IH.
  replace (Datatypes.S m * w) with (w + m * w) by lia.
  rewrite take_plus, fold_left_app, drop_drop.
  by replace (b * w + w) with (Datatypes.S b * w) by lia.
Qed.

Lemma fold_range_step (w : nat) (l : list A) (r : R) :
  0 < w ->
  fold_left (fun r i => fold_left f (take w (drop i l)) r)
            (DocumentProcessor.range_step (length l) w) r
  = fold_left f l r.
Proof.
  intros Hw. unfold DocumentProcessor.range_step.
  rewrite fold_waves. change (drop (0 * w) l) with l. rewrite take_ge; [done |].
  pose proof (Nat.div_mod_eq (length l + w - 1) w) as Hd.
  assert (Hm : (length l + w - 1) mod w < w) by (apply Nat.mod_upper_bound; lia).
  revert Hd Hm.
  generalize ((length l + w - 1) / w) as q, ((length l + w - 1) mod w) as m.
  intros q m Hd Hm. nia.
Qed.

End Waves.

Section Batch.
Import Settings DocumentProcessor Stated.
Variable S : settings.
Variable E : nat -> env.

Lemma combine_imap_lookup {A B : Type} (g : nat -> A -> B) (l : list A) (k : nat) :
  combine l (imap g l) !! k = (fun q => (q, g k q)) <$> l !! k.
Proof.
  revert g k. induction l as [|x l IH]; intros g k; [done |].
  destruct k as [|k]; [done |]. cbn. by rewrite (IH (g ∘ Datatypes.S)).
Qed.

Lemma attributed_slice (file_paths : list string) (i : nat) :
  combine (slice file_paths i (i + batch_size))
          (imap (fun o path => snd (process_document S (E (i + o)) path))
                (slice file_paths i (i + batch_size)))
  = take batch_size (drop i (attributed S E file_paths)).
Proof.
  unfold slice, attributed. replace (i + batch_size - i) with batch_size by lia.
  apply list_eq. intros k.
  rewrite combine_imap_lookup, !lookup_take.
  case_decide; [| done].
  by rewrite !lookup_drop, list_lookup_imap.
Qed.

Lemma fold_left_pointwise {X Y : Type} (g h : X -> Y -> X) (l : list Y) (x : X) :
  (forall a b, g a b = h a b) -> fold_left g l x = fold_left h l x.
Proof.
  intros Hgh. revert x. induction l as [|y l IH]; intros x; [done |].
  cbn. by rewrite Hgh, IH.
Qed.

Lemma batches_are_a_single_pass (file_paths : list string) (r : report) :
  fold_left (process_batch S E file_paths)
            (range_step (length file_paths) batch_size) r
  = fold_left record_result (attributed S E file_paths) r.
Proof.
  rewrite <- (fold_range_step record_result batch_size (attributed S E file_paths) r)
    by (unfold batch_size; lia).
  replace (length (attributed S E file_paths)) with (length file_paths)
    by (unfold attributed; by rewrite length_imap).
  apply fold_left_pointwise. intros r' i. unfold process_batch.
  by rewrite attributed_slice.
Qed.

(** Each recorded result lands in exactly one of the two lists. *)
Lemma record_result_step (r : report) (p : string) (o : outcome doc_result) :
  length (successful (record_result r (p, o)))
    = length (successful r) + (if invalid o then 0 else 1) /\
  length (failed (record_result r (p, o)))
    = length (failed r) + (if invalid o then 1 else 0).
Proof.
  unfold record_result, invalid, snoc.
  destruct o as [d|e]; [destruct (success d) |];
    cbn [negb successful failed]; rewrite ?length_app; cbn [length]; lia.
Qed.

Lemma record_result_counts (l : list (string * outcome doc_result)) (r : report) :
  let r' := fold_left record_result l r in
  length (successful r') + length (List.filter invalid (map snd l))
    = length (successful r) + length l /\
  length (failed r') = length (failed r) + length (List.filter invalid (map snd l)).
Proof.
  revert r. induction l as [|[p o] l IH]; intros r; cbn zeta; [cbn; lia |].
  cbn [fold_left map snd List.filter].
  destruct (IH (record_result r (p, o))) as [IH1 IH2].
  destruct (record_result_step r p o) as [H1 H2].
  destruct (invalid o); cbn [length]; lia.
Qed.

Lemma outcomes_attributed (file_paths : list string) :
  map snd (attributed S E file_paths) = outcomes S E file_paths.
Proof.
  unfold attributed, outcomes. generalize 0 as b.
  assert (H : forall (g : nat -> string -> outcome doc_result) l,
            map snd (imap (fun j p => (p, g j p)) l) = imap g l).
  { intros g l. revert g. induction l as [|x l IH]; intros g; [done |].
    cbn. f_equal. apply (IH (g ∘ Datatypes.S)). }
  intros _. apply H.
Qed.

(** C5. Of [n] input paths with [k] invalid ones (the call on them raised
    or returned [success=False]), the report counts [n - k] documents and
    lists [k] failures: a raise becomes a failure entry, it is not
    propagated. *)
Theorem batch_report_counts (file_paths : list string) :
  let report := process_multiple_documents S E file_paths in
  let n := length file_paths in
  let k := length (List.filter invalid (outcomes S E file_paths)) in
  total_documents report = n - k /\ length (failed report) = k.
Proof.
  cbn zeta. unfold process_multiple_documents. cbn [total_documents failed].
  rewrite batches_are_a_single_pass.
  pose proof (record_result_counts (attributed S E file_paths)
                {| successful := []; failed := []; total_documents := 0;
                   total_chunks := 0; memory_usage := JObj [] |}) as [H1 H2].
  rewrite outcomes_attributed in H1, H2. cbn [successful failed length] in H1, H2.
  unfold attributed in H1 at 2. rewrite length_imap in H1. lia.
Qed.

End Batch.

(* ===================================================================== *)
(** ** The fingerprint store *)
(* ===================================================================== *)

Section FingerprintStore.
Import Settings PeriodicIndexer Stated.
Variable E : PeriodicIndexer.env.

Lemma mark_processed_fields (st : state) (hs : list string) :
  processed_files (mark_processed st hs) = processed_files st ∪ list_to_set hs /\
  running (mark_processed st hs) = running st /\
  db_file (mark_processed st hs) = db_file st /\
  rag_state (mark_processed st hs) = rag_state st.
Proof.
  unfold mark_processed. revert st.
  induction hs as [|h hs IH]; intros st; cbn [fold_left list_to_set].
  - split; [set_solver | done].
  - destruct (IH (set_processed st ({[h]} ∪ processed_files st)))
      as (Hp & Hr & Hd & Hg).
    rewrite Hp, Hr, Hd, Hg. cbn. split; [set_solver | done].
Qed.

Lemma write_chunks_complete (chunks : list string) (content : string) :
  (forall c, fp_write E c = Returned tt) ->
  write_chunks E chunks content = (fold_left String.append chunks content, Returned tt).
Proof.
  intros Hw. revert content.
  induction chunks as [|c chunks IH]; intros content; cbn; [done |].
  by rewrite Hw, IH.
Qed.

Lemma save_keeps_memory (st : state) :
  let st' := fst (_save_processed_files E st) in
  processed_files st' = processed_files st /\ running st' = running st /\
  rag_state st' = rag_state st.
Proof.
  unfold _save_processed_files. destruct (open_w E); [| done].
  by destruct (db_written E (processed_files st) _) as [content [[]|e]].
Qed.

(** C4, amended. When the database can be opened and written, committing
    [fps] leaves in it the dump of a document holding the elements of the
    in-memory set united with [fps], the timestamp and the size of that
    union.  The file is the database file itself, opened for writing: it
    is already empty before the first chunk is written. *)
Theorem commit_rewrites_database_in_place (st : state) (fps : list string) :
  open_w E = Returned tt ->
  (forall c, fp_write E c = Returned tt) ->
  let st' := fst (commit E st fps) in
  let u := processed_files st ∪ list_to_set fps in
  processed_files st' = u /\
  db_file st' =
    Some (dumped (iterencode E
            (JObj [("processed_files", JArr (map JStr (elements u)));
                   ("last_updated", JStr (utcnow_isoformat E));
                   ("total_processed", JNum (Z.of_nat (size u)))]))) /\
  (forall x, x ∈ elements u <-> x ∈ processed_files st \/ x ∈ fps) /\
  NoDup (elements u) /\
  db_file_after_crash E (mark_processed st fps) 0 = Some "".
Proof.
  intros Hopen Hwrite. cbn zeta.
  destruct (mark_processed_fields st fps) as (Hp & _).
  unfold commit, _save_processed_files, db_file_after_crash, db_written.
  rewrite Hopen, firstn_all, write_chunks_complete by done.
  cbn [fst db_file set_db_file processed_files]. rewrite Hp.
  repeat split; try done.
  - intros Hx. apply elem_of_elements in Hx. set_solver.
  - intros Hx. apply elem_of_elements. set_solver.
  - apply NoDup_elements.
Qed.

End FingerprintStore.

Section FingerprintStoreRun.
Import Settings PeriodicIndexer Stated Scenario.

Lemma commit_rewrites_database_in_place_witness :
  let E := watch [] (Raised (Exception "gone")) two_files in
  let st := indexer {["h0"]} (Some yesterday) in
  processed_files (fst (commit E st ["h1"])) = {["h0"]} ∪ list_to_set ["h1"] /\
  db_file_after_crash E (mark_processed st ["h1"]) 0 = Some "".
Proof.
  intros E st.
  destruct (commit_rewrites_database_in_place E st ["h1"] eq_refl
              (fun _ => eq_refl)) as (Hp & _ & _ & _ & Hc).
  split; [exact Hp | exact Hc].
Defined.

(** C4 as stated fails: the save opens the database file itself for
    writing, so a crash before the first chunk leaves it empty and the
    previous snapshot is gone. *)
Lemma crash_during_save_loses_snapshot :
  let E := watch [] (Raised (Exception "gone")) two_files in
  let st := indexer {["h0"]} (Some yesterday) in
  db_file_after_crash E (mark_processed st ["h1"]) 0 = Some "" /\
  ~ crash_safe E st ["h1"].
Proof.
  intros E st. split; [reflexivity |].
  intros Hsafe. specialize (Hsafe 0).
  assert (Hlen : 0 < length (iterencode E
                   (db_document E (processed_files (mark_processed st ["h1"])))))
    by (cbn [iterencode E watch encode db_document length]; lia).
  specialize (Hsafe Hlen). discriminate Hsafe.
Qed.

End FingerprintStoreRun.

(* ===================================================================== *)
(** ** Fingerprints and the scan *)
(* ===================================================================== *)

Section Fingerprints.
Import Settings PeriodicIndexer Stated.
Variable md5 : string -> outcome string.

(** Every file a scan selects is one whose fingerprint, as computed in
    this scan, is not in the processed set. *)
Lemma collect_selects_unseen (S : settings) (E : PeriodicIndexer.env)
    (processed : gset string) (entries : list string)
    (acc news : list (string * string)) (logs logs' : list log_entry) :
  collect md5 S E processed entries acc logs = (Returned news, logs') ->
  forall p h, (p, h) ∈ news ->
    (p, h) ∈ acc \/ (fst (_get_file_hash md5 E p) = Returned h /\ h ∉ processed).
Proof.
  revert acc logs. induction entries as [|q entries IH]; intros acc logs Hc p h Hin.
  - cbn in Hc. injection Hc as <- _. by left.
  - cbn [collect] in Hc.
    destruct (is_file E q) as [[|]|e]; [| by eapply IH | discriminate Hc].
    case_bool_decide; [| by eapply IH].
    destruct (_get_file_hash md5 E q) as [[file_hash|e] l] eqn:Hh;
      [| discriminate Hc].
    case_bool_decide as Hseen; [by eapply IH |].
    destruct (IH _ _ Hc p h Hin) as [Hacc | Hnew]; [| by right].
    unfold snoc in Hacc. apply elem_of_app in Hacc as [Hacc | Hlast]; [by left |].
    apply list_elem_of_singleton in Hlast. injection Hlast as -> ->.
    right. by rewrite Hh.
Qed.

(** Whether the loop over a listing raises, and with what, does not
    depend on the processed set or on what was collected so far. *)
Lemma collect_raises_alike (S : settings) (E : PeriodicIndexer.env)
    (entries : list string) (processed processed' : gset string)
    (acc acc' : list (string * string)) (logs logs' : list log_entry) (e : exn) :
  fst (collect md5 S E processed entries acc logs) = Raised e ->
  fst (collect md5 S E processed' entries acc' logs') = Raised e.
Proof.
  revert acc acc' logs logs'.
  induction entries as [|q entries IH]; intros acc acc' logs logs'; [done |].
  cbn [collect].
  destruct (is_file E q) as [[|]|e0]; [| by apply IH | done].
  case_bool_decide; [| by apply IH].
  destruct (_get_file_hash md5 E q) as [[file_hash|e0] l]; [| done].
  do 2 case_bool_decide; by apply IH.
Qed.

(** C10, amended. For a path whose [stat()] raises, computing the
    fingerprint comes down to hashing the file name alone: the fingerprint
    is that hash, and when the name cannot be encoded the computation
    raises.  The result is the same in any later scan in which [stat()]
    raises again, whatever happened to the file in between, so once the
    fingerprint is in the processed set such a scan does not select the
    file.  In a scan in which [stat()] answers, the fingerprint is that
    of name, modification time and size again. *)
Theorem fingerprint_degrades_to_filename
    (E1 E2 : PeriodicIndexer.env) (p : string) (e1 e2 : exn) :
  stat E1 p = Raised e1 ->
  stat E2 p = Raised e2 ->
  fst (_get_file_hash md5 E1 p) = md5 (path_name p) /\
  fst (_get_file_hash md5 E2 p) = fst (_get_file_hash md5 E1 p) /\
  (forall (S : settings) (processed : gset string) (entries : list string)
          (news : list (string * string)) (logs : list log_entry) (h : string),
     fst (_get_file_hash md5 E1 p) = Returned h ->
     h ∈ processed ->
     collect md5 S E2 processed entries [] [] = (Returned news, logs) ->
     forall h', (p, h') ∉ news) /\
  forall (E3 : PeriodicIndexer.env) (st : stat_result) (h : string),
    stat E3 p = Returned st ->
    md5 (path_name p +:+ "_" +:+ st_mtime st +:+ "_" +:+ str_Z (st_size st))
      = Returned h ->
    fst (_get_file_hash md5 E3 p) = Returned h.
Proof.
  intros H1 H2.
  assert (Hh1 : fst (_get_file_hash md5 E1 p) = md5 (path_name p))
    by (unfold _get_file_hash; by rewrite H1).
  assert (Hh2 : fst (_get_file_hash md5 E2 p) = md5 (path_name p))
    by (unfold _get_file_hash; by rewrite H2).
  split; [exact Hh1 |]. split; [congruence |]. split.
  - intros S processed entries news logs h Hh Hseen Hc h' Hin.
    destruct (collect_selects_unseen S E2 processed entries [] news [] logs Hc p h' Hin)
      as [Hnil | [Hh' Hnew]].
    + by apply elem_of_nil in Hnil.
    + apply Hnew. congruence.
  - intros E3 st h H3 Hh. unfold _get_file_hash. by rewrite H3, Hh.
Qed.

End Fingerprints.

Section FingerprintsRun.
Import Settings PeriodicIndexer Stated Scenario.

Lemma fingerprint_degrades_to_filename_witness :
  let E := watch ["in/scan.png"] (Raised (Exception "[Errno 5] Input/output error"))
                 two_files in
  fst (_get_file_hash readable_md5 E "in/scan.png") = Returned "md5:scan.png".
Proof.
  intros E.
  apply (fingerprint_degrades_to_filename readable_md5 E E "in/scan.png"
           (Exception "[Errno 5] Input/output error")
           (Exception "[Errno 5] Input/output error"));
    reflexivity.
Defined.

(** C10 as stated fails once [stat()] answers again: the fingerprint of
    the file is then the one of name, time and size, the name hash in the
    processed set does not match it, and the scan selects the file. *)
Lemma recovered_stat_triggers_reprocessing :
  let p := "in/scan.png" in
  let E1 := watch [p] (Raised (Exception "[Errno 5] Input/output error")) two_files in
  let E2 := watch [p] (Returned {| st_size := 9; st_mtime := "1730624400.5" |})
                  two_files in
  fst (_get_file_hash readable_md5 E1 p) = Returned "md5:scan.png" /\
  fst (collect readable_md5 defaults E2 {["md5:scan.png"]} [p] [] [])
    = Returned [(p, "md5:scan.png_1730624400.5_9")] /\
  ~ degraded_fingerprint_is_final readable_md5 defaults E1 p.
Proof.
  intros p E1 E2.
  assert (Hsel : collect readable_md5 defaults E2 {["md5:scan.png"]} [p] [] []
                 = (Returned [(p, "md5:scan.png_1730624400.5_9")], []))
    by (vm_compute; reflexivity).
  split; [reflexivity |]. split; [by rewrite Hsel |].
  intros (h & Hh & Hfinal). injection Hh as <-.
  eapply (Hfinal E2 {["md5:scan.png"]} [p]); [| exact Hsel |].
  - by apply elem_of_singleton.
  - apply list_elem_of_singleton. reflexivity.
Qed.

(** Nor does a file whose name cannot be encoded get a fingerprint at
    all: both [encode] calls raise, the second one in the [except]. *)
Lemma unencodable_name_has_no_fingerprint :
  let p := "in/caf" +:+ PyText.bytes [255] +:+ ".png" in
  let E := watch [p] (Raised (Exception "[Errno 5] Input/output error")) two_files in
  (exists e, fst (_get_file_hash readable_md5 E p) = Raised e) /\
  ~ degraded_fingerprint_is_final readable_md5 defaults E p.
Proof.
  intros p E.
  assert (Hraise : exists e, fst (_get_file_hash readable_md5 E p) = Raised e)
    by (eexists; vm_compute; reflexivity).
  split; [exact Hraise |].
  destruct Hraise as [e He]. intros (h & Hh & _). congruence.
Qed.

End FingerprintsRun.

(* ===================================================================== *)
(** ** What a batch commits *)
(* ===================================================================== *)

Section VectorIndex.
Import Settings DocumentProcessor RagAgent.
Variable E : RagAgent.env.

Lemma add_batch_raised (docs : list chunk) (l : list nat) (store : list chunk) (e : exn) :
  fold_left (add_batch E docs) l (store, Raised e) = (store, Raised e).
Proof. induction l as [|i l IH]; [done | exact IH]. Qed.

Lemma add_batches_committed (docs : list chunk) (m b : nat)
    (store store' : list chunk) (ids ids' : list string) :
  fold_left (add_batch E docs) (map (fun j => j * 100) (seq b m)) (store, Returned ids)
    = (store', Returned ids') ->
  store' = (store ++ take (m * 100) (drop (b * 100) docs))%list.
Proof.
  revert b store ids. induction m as [|m IH]; intros b store ids Hf.
  - cbn in Hf. injection Hf as <- _. by rewrite app_nil_r.
  - cbn [seq map fold_left] in Hf. unfold add_batch at 2 in Hf.
    unfold slice in Hf. replace (b * 100 + 100 - b * 100) with 100 in Hf by lia.
    destruct (store_add_documents E _) as [batch_ids|e].
    + apply IH in Hf. rewrite Hf, <- app_assoc. f_equal.
      replace (Datatypes.S m * 100) with (100 + m * 100) by lia.
      rewrite take_plus, drop_drop.
      by replace (b * 100 + 100) with (Datatypes.S b * 100) by lia.
    + rewrite add_batch_raised in Hf. discriminate Hf.
Qed.

(** A call of the vector service that returns has put every document of
    the call into the index. *)
Lemma vector_add_documents_committed
    (store store' docs : list chunk) (ids : list string) :
  vector_add_documents E store docs = (store', Returned ids) ->
  store' = (store ++ docs)%list.
Proof.
  unfold vector_add_documents, range_step. intros Hf.
  apply add_batches_committed in Hf. rewrite Hf. f_equal.
  change (drop (0 * 100) docs) with docs. apply take_ge.
  pose proof (Nat.div_mod_eq (length docs + 100 - 1) 100) as Hd.
  assert (Hm : (length docs + 100 - 1) mod 100 < 100)
    by (apply Nat.mod_upper_bound; lia).
  revert Hd Hm.
  generalize ((length docs + 100 - 1) / 100) as q,
             ((length docs + 100 - 1) mod 100) as r.
  intros q r Hd Hm. lia.
Qed.

Lemma add_documents_committed (store store' docs : list chunk) (r : add_result) :
  add_documents E store docs = (store', r) ->
  a_success r = true ->
  store' = (store ++ docs)%list.
Proof.
  unfold add_documents. intros Ha Hs.
  destruct (vector_add_documents E store docs) as [s1 [ids|e]] eqn:Hv.
  - apply vector_add_documents_committed in Hv.
    destruct (get_collection_stats E); injection Ha as <- <-; [done |].
    discriminate Hs.
  - injection Ha as <- <-. discriminate Hs.
Qed.

(** A batch reported as a success had at least one processed file, and
    the chunks of all processed files are in the index. *)
Lemma process_and_add_files_committed
    (S : settings) (D : nat -> DocumentProcessor.env) (st st' : RagAgent.state)
    (file_paths : list string) (res : files_result) :
  process_and_add_files S E D st file_paths = (st', Returned res) ->
  RagAgent.success res = true ->
  let report := process_multiple_documents S D file_paths in
  successful report <> [] /\
  vector_store st' =
    (vector_store st ++ flat_map s_documents (successful report))%list.
Proof.
  unfold process_and_add_files. intros Hp Hs. cbn zeta.
  destruct (if initialized st then _ else _) as [[]|e]; [| discriminate Hp].
  destruct (successful (process_multiple_documents S D file_paths))
    as [|x xs] eqn:Hsucc.
  - injection Hp as <- <-. discriminate Hs.
  - destruct (add_documents E (vector_store st) _) as [store' r] eqn:Ha.
    injection Hp as <- <-. cbn in Hs. split; [done |].
    by apply add_documents_committed in Ha.
Qed.

End VectorIndex.

Section BatchCommit.
Import Settings DocumentProcessor PeriodicIndexer Stated.
Variable S : settings.
Variable E : PeriodicIndexer.env.

Lemma cleanup_keeps_memory (file_paths : list string) (st : state)
    (logs : list log_entry) :
  let st' := fst (fold_left (cleanup_one E) file_paths (st, logs)) in
  processed_files st' = processed_files st /\ running st' = running st /\
  db_file st' = db_file st /\ rag_state st' = rag_state st.
Proof.
  revert st logs. induction file_paths as [|p ps IH]; intros st logs; [done |].
  cbn [fold_left]. cbn zeta.
  assert (Hone : exists logs1,
             cleanup_one E (st, logs) p = (st, logs1) \/
             cleanup_one E (st, logs) p = (add_unlinked st p, logs1)).
  { unfold cleanup_one. destruct (unlink E p); eauto. }
  destruct Hone as [logs1 [-> | ->]]; [apply IH |].
  destruct (IH (add_unlinked st p) logs1) as (H1 & H2 & H3 & H4).
  by rewrite H1, H2, H3, H4.
Qed.

Lemma commit_keeps_agent (st : state) (hs : list string) :
  let st' := fst (commit E st hs) in
  processed_files st' = processed_files st ∪ list_to_set hs /\
  running st' = running st /\ rag_state st' = rag_state st.
Proof.
  unfold commit. cbn zeta.
  destruct (save_keeps_memory E (mark_processed st hs)) as (H1 & H2 & H3).
  destruct (mark_processed_fields st hs) as (M1 & M2 & _ & M4).
  by rewrite H1, H2, H3, M1, M2, M4.
Qed.

(** What [_process_new_files] leaves behind: the agent as the call into
    the RAG service left it, and the processed set grown by the whole
    batch or not at all. *)
Lemma process_new_files_fields (st : state) (new_files : list (string * string)) :
  let call := RagAgent.process_and_add_files S (rag E) (doc E) (rag_state st)
                (map fst new_files) in
  let st' := fst (_process_new_files S E st new_files) in
  rag_state st' = fst call /\
  processed_files st' =
    if batch_succeeded (snd call)
    then processed_files st ∪ list_to_set (map snd new_files)
    else processed_files st.
Proof.
  cbn zeta. unfold _process_new_files.
  destruct (RagAgent.process_and_add_files S (rag E) (doc E) (rag_state st)
              (map fst new_files)) as [rs [res|e]];
    cbn [fst snd batch_succeeded]; [| done].
  destruct (RagAgent.success res); [| done].
  destruct (commit E (set_rag_state st rs) (map snd new_files))
    as [st1 logs1] eqn:Hc.
  pose proof (commit_keeps_agent (set_rag_state st rs) (map snd new_files))
    as (C1 & _ & C3).
  rewrite Hc in C1, C3. cbn [fst] in C1, C3.
  unfold _cleanup_processed_files.
  pose proof (cleanup_keeps_memory (map fst new_files) st1 []) as (K1 & _ & _ & K4).
  destruct (fold_left (cleanup_one E) (map fst new_files) (st1, []))
    as [st2 logs2].
  cbn [fst] in *. by rewrite K1, K4, C1, C3.
Qed.

(** C2, amended. A batch adds fingerprints exactly when the call into the
    RAG service reports success, and then it adds the fingerprint of
    every file of the batch.  A reported success means that at least one
    file was processed and that the chunks of all processed files are in
    the vector index by then.  Otherwise the processed set is unchanged. *)
Theorem fingerprints_follow_batch_success (st : state)
    (new_files : list (string * string)) :
  let file_paths := map fst new_files in
  let report := process_multiple_documents S (doc E) file_paths in
  let st' := fst (_process_new_files S E st new_files) in
  if batch_succeeded
       (snd (RagAgent.process_and_add_files S (rag E) (doc E) (rag_state st) file_paths))
  then
    processed_files st' = processed_files st ∪ list_to_set (map snd new_files) /\
    successful report <> [] /\
    RagAgent.vector_store (rag_state st') =
      (RagAgent.vector_store (rag_state st)
         ++ flat_map s_documents (successful report))%list
  else processed_files st' = processed_files st.
Proof.
  cbn zeta.
  destruct (process_new_files_fields st new_files) as [Hagent Hset].
  destruct (RagAgent.process_and_add_files S (rag E) (doc E) (rag_state st)
              (map fst new_files)) as [rs [res|e]] eqn:Hrag;
    cbn [fst snd batch_succeeded] in *; [| exact Hset].
  destruct (RagAgent.success res) eqn:Hs; [| exact Hset].
  destruct (process_and_add_files_committed (rag E) S (doc E) _ _ _ _ Hrag Hs)
    as [Hne Hstore].
  split; [exact Hset |]. split; [exact Hne |]. by rewrite Hagent.
Qed.

End BatchCommit.

Section BatchCommitRun.
Import Settings DocumentProcessor PeriodicIndexer Stated Scenario.

(** C2 as stated fails on a batch of a readable text file and a PDF that
    no extractor can open: the batch is a success, and the fingerprint of
    the PDF is added with the other one. *)
Lemma failed_file_is_marked_with_its_batch :
  let E := watch ["a.txt"; "b.pdf"]
                 (Returned {| st_size := 5; st_mtime := "1730624400.5" |}) two_files in
  let new_files := [("a.txt", "fp-a"); ("b.pdf", "fp-b")] in
  invalid (snd (process_document defaults two_files "b.pdf")) = true /\
  "fp-b" ∈ processed_files (fst (_process_new_files defaults E (indexer ∅ None) new_files)) /\
  ~ marks_only_processed_files defaults E (indexer ∅ None) new_files.
Proof.
  intros E new_files.
  assert (Hbad : invalid (snd (process_document defaults two_files "b.pdf")) = true)
    by (vm_compute; reflexivity).
  assert (Hin : "fp-b" ∈ processed_files
                  (fst (_process_new_files defaults E (indexer ∅ None) new_files))).
  { destruct (process_new_files_fields defaults E (indexer ∅ None) new_files)
      as [_ Hp].
    assert (Hok : batch_succeeded
              (snd (RagAgent.process_and_add_files defaults (rag E) (doc E)
                      (rag_state (indexer ∅ None)) (map fst new_files))) = true)
      by (vm_compute; reflexivity).
    rewrite Hok in Hp. rewrite Hp.
    subst new_files. cbn [map snd list_to_set]. set_solver. }
  split; [exact Hbad |]. split; [exact Hin |].
  intros Hclaim.
  specialize (Hclaim 1 "b.pdf" "fp-b" eq_refl).
  assert (Hfresh : "fp-b" ∉ processed_files (indexer ∅ None))
  by (unfold indexer; cbn [processed_files]; apply not_elem_of_empty).
  specialize (Hclaim Hfresh Hin).
  change (doc E 1) with two_files in Hclaim. congruence.
Qed.

End BatchCommitRun.

(* ===================================================================== *)
(** ** The indexing loop *)
(* ===================================================================== *)

Section Loop.
Import Settings PeriodicIndexer Stated.
Variable md5 : string -> outcome string.
Variable S : settings.




(** A scan that is cancelled had found new files without an error, and
    is abandoned before the batch changes anything but the agent's
    flag. *)
Lemma cancelled_scan (E : PeriodicIndexer.env) (st st1 : state)
    (point : suspension) (logs : list log_entry) :
  _scan_and_index_cancelled md5 S E st point = Some (st1, logs) ->
  point <> InSleep /\ scan_error md5 S E = None /\
  running st1 = running st /\ processed_files st1 = processed_files st /\
  db_file st1 = db_file st /\ unlinked st1 = unlinked st /\
  RagAgent.vector_store (rag_state st1) = RagAgent.vector_store (rag_state st).
Proof.
  unfold _scan_and_index_cancelled, scan_error.
  destruct (rglob E) as [entries|e0]; [| done].
  destruct (collect md5 S E (processed_files st) entries [] [])
    as [[[|nf nfs]|e0] logs0] eqn:Hc; [done | | done].
  destruct (RagAgent.process_and_add_files_cancelled _ _ _ _) as [rs|] eqn:Hrs;
    [| done].
  intros [= <- <-].
  assert (Hpoint : point <> InSleep) by (intros ->; discriminate Hrs).
  assert (Hstore : RagAgent.vector_store rs = RagAgent.vector_store (rag_state st)).
  { unfold RagAgent.process_and_add_files_cancelled in Hrs.
    destruct point; [| | done];
      repeat (match type of Hrs with
              | (if ?b then _ else _) = _ => destruct b
              | (match ?x with _ => _ end) = _ => destruct x
              end; try discriminate Hrs);
      by injection Hrs as <-. }
  split; [exact Hpoint |]. split; [| done].
  destruct (fst (collect md5 S E ∅ entries [] [])) as [news|e0] eqn:Hc0; [done |].
  apply (collect_raises_alike md5 S E entries ∅ (processed_files st) [] [] [] [])
    in Hc0.
  rewrite Hc in Hc0. discriminate Hc0.
Qed.






End Loop.

Section LoopRun.
Import Settings PeriodicIndexer Stated Scenario.

Lemma first_pass_trace :
  _indexing_loop readable_md5 defaults (indexer ∅ None) [quiet_tick]
    = (indexer ∅ None, [Scan; Sleep 3600], Suspended).
Proof. reflexivity. Qed.

(** A [stop()] that finds the scan suspended in its batch ends the pass
    there: no sleep follows the scan. *)
Lemma stop_inside_batch_skips_the_sleep :
  snd (fst (_indexing_loop readable_md5 defaults (indexer ∅ None)
                           [busy_tick; quiet_tick]))
    = [Scan; Logged (Log INFO "Indexing loop cancelled")].
Proof. vm_compute. reflexivity. Qed.



End LoopRun.

(* ===================================================================== *)
(** ** Further properties: the OCR service over its lifetime *)
(* ===================================================================== *)

Section OcrResults.
Import OcrService OcrLifecycle.
Variable E : env.

(** X1. Every result of the image entry point has one of three shapes: a
    success under the primary's name (the primary is available), a success
    under the fallback's name (the fallback was allowed and is available),
    or a failure with no method, no text and no parsed document.  A success
    never carries an error. *)
Theorem ocr_result_names_its_engine
    (s : state) (i : string) (use_fallback : bool) (task : string) :
  let r := snd (extract_text_from_image E s i use_fallback task) in
  (success r = true /\ error r = None /\ method r = "dots.ocr" /\
   dots_is_available E = true) \/
  (success r = true /\ error r = None /\ method r = "tesseract" /\
   use_fallback = true /\ tesseract_is_available E = true) \/
  (success r = false /\ method r = "" /\ text r = "" /\ parsed r = JNull).
Proof.
  cbn zeta. unfold extract_text_from_image.
  destruct (dots_is_available E) eqn:Hav.
  - destruct (dots_extract_text_from_image E _ i task) as [d|e1].
    + left. by cbn.
    + destruct use_fallback, (tesseract_is_available E) eqn:Ht; cbn [andb];
        try (right; right; by cbn).
      destruct (tesseract_extract_text_from_image E i);
        [right; left | right; right]; by cbn.
  - destruct use_fallback, (tesseract_is_available E) eqn:Ht; cbn [andb];
      try (right; right; by cbn).
    destruct (tesseract_extract_text_from_image E i);
      [right; left | right; right]; by cbn.
Qed.

(** X2. When the primary engine is not available on the platform and the
    fallback raises, the error still speaks of both engines and prints
    [None] for the primary, which never ran. *)
Theorem lone_fallback_failure_blames_both
    (s : state) (i task : string) (e2 : exn) :
  dots_is_available E = false ->
  tesseract_is_available E = true ->
  image_to_string E i = Raised e2 ->
  let r := snd (extract_text_from_image E s i true task) in
  success r = false /\
  error r = Some ("Both OCR methods failed. Dots: None, Tesseract: " +:+ str e2).
Proof.
  intros Hav Ht Hocr. cbn zeta. unfold extract_text_from_image.
  rewrite Hav, Ht. cbn [andb]. unfold tesseract_extract_text_from_image.
  rewrite Ht, Hocr. by cbn.
Qed.

(** A service that counts as initialised while the primary's model or
    processor is missing stays exactly as it is, and answers without the
    primary. *)
Lemma settled_without_primary (s : state) (i : string) (use_fallback : bool)
    (task : string) :
  initialized s = true ->
  model (dots_ocr s) && processor (dots_ocr s) = false ->
  fst (extract_text_from_image E s i use_fallback task) = s /\
  method (snd (extract_text_from_image E s i use_fallback task)) <> "dots.ocr".
Proof.
  intros Hi Hm. unfold extract_text_from_image, initialize. rewrite Hi. cbn [negb].
  assert (Hd : dots_extract_text_from_image E (dots_ocr s) i task
               = Raised (RuntimeError "Dots.OCR model not initialized")).
  { unfold dots_extract_text_from_image.
    by destruct (model (dots_ocr s)), (processor (dots_ocr s)). }
  rewrite Hd.
  destruct (dots_is_available E), (use_fallback && tesseract_is_available E);
    try destruct (tesseract_extract_text_from_image E i); by cbn.
Qed.

Lemma serve_settled (s : state) (use_fallback : bool) (task : string)
    (images : list string) :
  initialized s = true ->
  model (dots_ocr s) && processor (dots_ocr s) = false ->
  fst (serve E s use_fallback task images) = s /\
  Forall (fun r => method r <> "dots.ocr") (snd (serve E s use_fallback task images)).
Proof.
  intros Hi Hm. induction images as [|i images IH]; [by cbn |].
  cbn [serve].
  destruct (settled_without_primary s i use_fallback task Hi Hm) as [Hs Hr].
  destruct (extract_text_from_image E s i use_fallback task) as [s1 r].
  cbn [fst snd] in Hs, Hr. subst s1.
  destruct (serve E s use_fallback task images) as [s2 rs].
  cbn [fst snd] in *. destruct IH as [-> Hrs]. split; [done |]. by constructor.
Qed.

(** X3. If the first initialisation of the primary engine raises, the
    service marks itself initialised all the same and never tries again:
    over any run of calls the state stays the one the first call left and
    no result comes from the primary. *)
Theorem failed_initialisation_is_never_retried
    (use_fallback : bool) (task : string) (images : list string) (e : exn) :
  snd (dots_initialize E dots_init) = Raised e ->
  fst (serve E (initialize E init) use_fallback task images) = initialize E init /\
  fst (serve E init use_fallback task images)
    = (if images is [] then init else initialize E init) /\
  Forall (fun r => method r <> "dots.ocr") (snd (serve E init use_fallback task images)).
Proof.
  intros Hfail.
  assert (Hi : initialized (initialize E init) = true) by apply initialize_initialized.
  assert (Hm : model (dots_ocr (initialize E init))
               && processor (dots_ocr (initialize E init)) = false).
  { unfold initialize, init. cbn [initialized negb dots_ocr].
    unfold dots_initialize, dots_init in *. cbn [processor] in *.
    destruct (dots_is_available E); cbn [negb] in *; [| done].
    destruct (load_model E); [| done].
    destruct (load_processor E); [discriminate Hfail | done]. }
  destruct (serve_settled (initialize E init) use_fallback task images Hi Hm)
    as [Hs Hr].
  split; [exact Hs |].
  destruct images as [|i images]; [by cbn |].
  cbn [serve].
  assert (Hagain : initialize E (initialize E init) = initialize E init)
    by (unfold initialize at 1; by rewrite Hi).
  assert (Hcall : extract_text_from_image E init i use_fallback task
                  = extract_text_from_image E (initialize E init) i use_fallback task).
  { unfold extract_text_from_image. by rewrite Hagain. }
  rewrite Hcall.
  destruct (settled_without_primary (initialize E init) i use_fallback task Hi Hm)
    as [Hs1 Hr1].
  destruct (extract_text_from_image E (initialize E init) i use_fallback task)
    as [s1 r].
  cbn [fst snd] in Hs1, Hr1. subst s1.
  destruct (serve_settled (initialize E init) use_fallback task images Hi Hm)
    as [Hs2 Hr2].
  destruct (serve E (initialize E init) use_fallback task images) as [s2 rs].
  cbn [fst snd] in *. split; [done |]. by constructor.
Qed.

(** X4. The memory cleanup between waves drops the primary's model while
    the service keeps counting as initialised: from then on no call uses
    the primary engine, and nothing reloads it. *)
Theorem batch_cleanup_retires_primary
    (M : mem_env) (s : state) (use_fallback : bool) (task : string)
    (images : list string) :
  initialized s = true ->
  dots_is_available E = true ->
  model_to_cpu M = Returned tt ->
  let s' := _cleanup_batch_memory E M s in
  fst (serve E s' use_fallback task images) = s' /\
  Forall (fun r => method r <> "dots.ocr") (snd (serve E s' use_fallback task images)).
Proof.
  intros Hi Hav Hcpu. cbn zeta. apply serve_settled.
  - unfold _cleanup_batch_memory. by rewrite Hav.
  - unfold _cleanup_batch_memory, cleanup_memory. rewrite Hav, Hcpu.
    destruct (model (dots_ocr s)), (cuda_is_available M);
      try destruct (cuda_empty_cache M); by cbn.
Qed.

End OcrResults.

Section OcrResultsRun.
Import OcrService OcrLifecycle Scenario Fixtures.

Lemma lone_fallback_failure_blames_both_witness :
  error (snd (extract_text_from_image (mac unreadable) init "scan.png" true "full"))
    = Some "Both OCR methods failed. Dots: None, Tesseract: cannot identify image file".
Proof.
  apply (lone_fallback_failure_blames_both (mac unreadable) init "scan.png" "full"
           (Exception "cannot identify image file")); reflexivity.
Defined.

Lemma failed_initialisation_is_never_retried_witness :
  Forall (fun r => method r <> "dots.ocr")
    (snd (serve (no_weights (Returned "text")) init true "full" ["a.png"; "b.png"])).
Proof.
  apply (failed_initialisation_is_never_retried (no_weights (Returned "text"))
           true "full" ["a.png"; "b.png"]
           (RuntimeError "Dots.OCR model requires flash_attn: No module named flash_attn")).
  reflexivity.
Defined.

Lemma batch_cleanup_retires_primary_witness :
  Forall (fun r => method r <> "dots.ocr")
    (snd (serve (host (Returned "{}") (Returned "text") 1)
                (_cleanup_batch_memory (host (Returned "{}") (Returned "text") 1) gpu ready)
                true "full" ["a.png"])).
Proof.
  apply (batch_cleanup_retires_primary (host (Returned "{}") (Returned "text") 1)
           gpu ready true "full" ["a.png"]); reflexivity.
Defined.

(** Before the cleanup the same service answers with the primary. *)
Example primary_answers_before_cleanup :
  map method (snd (serve (host (Returned "{}") (Returned "text") 1) ready
                         true "full" ["a.png"])) = ["dots.ocr"]
  /\ map method
       (snd (serve (host (Returned "{}") (Returned "text") 1)
                   (_cleanup_batch_memory (host (Returned "{}") (Returned "text") 1) gpu ready)
                   true "full" ["a.png"])) = ["tesseract"].
Proof. split; reflexivity. Qed.

End OcrResultsRun.

(* ===================================================================== *)
(** ** Further properties: PDFs through the OCR path *)
(* ===================================================================== *)

Section PdfPages.
Import OcrService OcrLifecycle.
Variable E : env.
Variable s : dots_state.
Variables pdf_path task : string.
Variables total dpi : nat.

(** One iteration appends exactly one page result, numbered from one, and
    the only file it may create or delete is its own page image. *)
Lemma process_page_step (tmp : gset string) (rs : list page_result) (n : nat) :
  exists pg tmp',
    process_page E s pdf_path task total dpi (tmp, rs) n = (tmp', snoc rs pg) /\
    page_num pg = n + 1 /\ page_total pg = total /\
    (forall p, p ∈ tmp' -> p ∈ tmp \/ p = temp_image_path E pdf_path n) /\
    (forall p, p ∈ tmp -> p <> temp_image_path E pdf_path n -> p ∈ tmp') /\
    (forall e, dots_extract_text_from_image E s (temp_image_path E pdf_path n) task
               = Raised e -> p_success pg = false) /\
    ((exists r, dots_extract_text_from_image E s (temp_image_path E pdf_path n) task
                = Returned r) ->
     os_remove E (temp_image_path E pdf_path n) = Returned tt ->
     tmp' ⊆ tmp).
Proof.
  unfold process_page.
  destruct (load_page E pdf_path n) as [[]|e].
  2: { eexists _, tmp. split; [reflexivity |]. repeat split; try done; auto. }
  destruct (get_pixmap E pdf_path n dpi) as [[]|e].
  2: { eexists _, tmp. split; [reflexivity |]. repeat split; try done; auto. }
  destruct (pix_save E (temp_image_path E pdf_path n)) as [[]|e].
  2: { eexists _, tmp. split; [reflexivity |]. repeat split; try done; auto. }
  destruct (dots_extract_text_from_image E s (temp_image_path E pdf_path n) task)
    as [r|e].
  - eexists _, _. split; [reflexivity |]. unfold remove.
    destruct (decide _) as [_|Hn]; [| exfalso; apply Hn; set_solver].
    destruct (os_remove E (temp_image_path E pdf_path n)) as [[]|e']; cbn [fst];
      repeat split; try done; try set_solver.
  - eexists _, _. split; [reflexivity |].
    repeat split; try done; try set_solver;
      try (intros [r Hr]; discriminate Hr).
Qed.

Lemma fold_pages (ns : list nat) (tmp : gset string) (rs : list page_result) :
  exists new tmp',
    fold_left (process_page E s pdf_path task total dpi) ns (tmp, rs)
      = (tmp', (rs ++ new)%list) /\
    map page_num new = map (fun n => n + 1) ns /\
    Forall (fun pg => page_total pg = total) new /\
    (forall p, p ∈ tmp' -> p ∈ tmp \/ exists n, n ∈ ns /\ p = temp_image_path E pdf_path n) /\
    (forall p, p ∈ tmp -> (forall n, n ∈ ns -> p <> temp_image_path E pdf_path n) ->
               p ∈ tmp') /\
    ((forall n, n ∈ ns ->
        exists e, dots_extract_text_from_image E s (temp_image_path E pdf_path n) task
                  = Raised e) ->
     Forall (fun pg => p_success pg = false) new) /\
    ((forall n, n ∈ ns ->
        (exists r, dots_extract_text_from_image E s (temp_image_path E pdf_path n) task
                   = Returned r) /\
        os_remove E (temp_image_path E pdf_path n) = Returned tt) ->
     tmp' ⊆ tmp).
Proof.
  revert tmp rs. induction ns as [|n ns IH]; intros tmp rs.
  - exists [], tmp. rewrite app_nil_r. repeat split; try done; auto.
  - cbn [fold_left].
    destruct (process_page_step tmp rs n)
      as (pg & tmp1 & -> & Hnum & Htot & Hin & Hkeep & Hfail & Hclean).
    destruct (IH tmp1 (snoc rs pg))
      as (new & tmp' & -> & Hnums & Htots & Hin' & Hkeep' & Hfail' & Hclean').
    exists (pg :: new), tmp'. unfold snoc. rewrite <- app_assoc. cbn [app].
    split; [done |]. split; [cbn; by rewrite Hnum, Hnums |].
    split; [by constructor |]. split; [| split; [| split]].
    + intros p Hp. destruct (Hin' p Hp) as [H1 | (m & Hm & ->)].
      * destruct (Hin p H1) as [H0 | ->]; [by left |].
        right. exists n. split; [set_solver | done].
      * right. exists m. split; [set_solver | done].
    + intros p Hp Hne. apply Hkeep'; [apply Hkeep; [done |] |].
      * apply Hne. set_solver.
      * intros m Hm. apply Hne. set_solver.
    + intros Hall. constructor.
      * destruct (Hall n) as [e He]; [set_solver |]. by eapply Hfail.
      * apply Hfail'. intros m Hm. apply Hall. set_solver.
    + intros Hall.
      assert (H1 : tmp1 ⊆ tmp).
      { destruct (Hall n) as [Hr Hrm]; [set_solver |]. by apply Hclean. }
      assert (H2 : tmp' ⊆ tmp1).
      { apply Hclean'. intros m Hm. apply Hall. set_solver. }
      set_solver.
Qed.

Lemma combine_pages_count (rs : list page_result) (acc : string) (k : nat) :
  snd (fold_left combine_page rs (acc, k)) = k + length (List.filter p_success rs).
Proof.
  revert acc k. induction rs as [|r rs IH]; intros acc k; [cbn; lia |].
  cbn [fold_left List.filter]. unfold combine_page at 2.
  destruct (p_success r); rewrite IH; cbn [length]; lia.
Qed.

Lemma some_page_succeeded (rs : list page_result) :
  Nat.ltb 0 (length (List.filter p_success rs)) = existsb p_success rs.
Proof.
  induction rs as [|r rs IH]; [done |].
  cbn [List.filter existsb]. by destruct (p_success r).
Qed.

Hypothesis model_loaded : model s = true.
Hypothesis processor_loaded : processor s = true.
Hypothesis fitz_imported : fitz_import E = Returned tt.
Hypothesis opened : fitz_open E pdf_path = Returned total.

(** The call on an opened document, spelled out. *)
Lemma pdf_call_unfolds (tmp : gset string) :
  exists tmp' rs text,
    fold_left (process_page E s pdf_path task total dpi) (seq 0 total) (tmp, [])
      = (tmp', rs) /\
    dots_extract_text_from_pdf E s tmp pdf_path task dpi =
      (tmp', Returned {| pdf_text := text; pages := rs; pdf_task_type := task;
                         pdf_success := existsb p_success rs;
                         total_pages := total;
                         successful_pages := length (List.filter p_success rs);
                         dpi_used := dpi |}).
Proof.
  unfold dots_extract_text_from_pdf.
  rewrite model_loaded, processor_loaded, fitz_imported, opened. cbn [negb orb].
  destruct (fold_left (process_page E s pdf_path task total dpi) (seq 0 total) (tmp, []))
    as [tmp' rs].
  pose proof (combine_pages_count rs "" 0) as Hc.
  destruct (fold_left combine_page rs ("", 0)) as [text ok]. cbn [snd] in Hc.
  subst ok. cbn [Nat.add]. rewrite some_page_succeeded. by eexists _, _, _.
Qed.

(** X5. Once the document is open the call returns, whatever happens on
    the pages: it reports one result per page, numbered 1 to [total] in
    order, counts the successful ones, and succeeds exactly when at least
    one page did. *)
Theorem pdf_pages_are_numbered (tmp : gset string) :
  exists res,
    snd (dots_extract_text_from_pdf E s tmp pdf_path task dpi) = Returned res /\
    map page_num (pages res) = seq 1 total /\
    Forall (fun pg => page_total pg = total) (pages res) /\
    total_pages res = total /\
    successful_pages res = length (List.filter p_success (pages res)) /\
    pdf_success res = existsb p_success (pages res).
Proof.
  destruct (pdf_call_unfolds tmp) as (tmp' & rs & text & Hfold & ->).
  destruct (fold_pages (seq 0 total) tmp []) as (new & tmp'' & Hf & Hnums & Htots & _).
  rewrite Hfold in Hf. injection Hf as -> ->. cbn [app] in *.
  eexists. split; [reflexivity |]. cbn [pages total_pages successful_pages pdf_success].
  repeat split; try done.
  rewrite Hnums.
  assert (Hshift : forall t a, map (fun n => n + 1) (seq a t) = seq (Datatypes.S a) t).
  { clear. induction t as [|t IH]; intros a; [done |].
    cbn [seq map]. f_equal; [lia |]. apply IH. }
  apply Hshift.
Qed.

(** X6. When the OCR call returns on every page and every [os.remove] goes
    through, the call leaves no file in [/tmp] that was not there before. *)
Theorem pdf_leaves_no_image_when_ocr_returns (tmp : gset string) :
  (forall n, n < total ->
     exists r, dots_extract_text_from_image E s (temp_image_path E pdf_path n) task
               = Returned r) ->
  (forall n, n < total -> os_remove E (temp_image_path E pdf_path n) = Returned tt) ->
  fst (dots_extract_text_from_pdf E s tmp pdf_path task dpi) ⊆ tmp.
Proof.
  intros Hocr Hrm.
  destruct (pdf_call_unfolds tmp) as (tmp' & rs & text & Hfold & ->).
  destruct (fold_pages (seq 0 total) tmp [])
    as (new & tmp'' & Hf & _ & _ & _ & _ & _ & Hclean).
  rewrite Hfold in Hf. injection Hf as -> _. cbn [fst]. apply Hclean.
  intros n Hn. apply elem_of_seq in Hn. split; [apply Hocr | apply Hrm]; lia.
Qed.

(** X8. A document all of whose pages fail in OCR still comes back from
    the service as a success under the primary's name, with the page
    count, while every page result in it is a failure. *)
Theorem all_pages_failed_is_still_success
    (sv : state) (tmp : gset string) (use_fallback : bool) :
  dots_is_available E = true ->
  dots_ocr (initialize E sv) = s ->
  dpi = default_dpi ->
  (forall n, n < total ->
     exists e, dots_extract_text_from_image E s (temp_image_path E pdf_path n) task
               = Raised e) ->
  let r := snd (extract_text_from_pdf E sv tmp pdf_path use_fallback task) in
  ps_success r = true /\ ps_method r = "dots.ocr" /\ ps_error r = None /\
  ps_total_pages r = total /\
  exists rs, ps_pages r = Some rs /\ length rs = total /\
             Forall (fun pg => p_success pg = false) rs.
Proof.
  intros Hav Hs Hdpi Hall. cbn zeta. unfold extract_text_from_pdf.
  rewrite Hav, Hs, <- Hdpi.
  destruct (pdf_call_unfolds tmp) as (tmp' & rs & text & Hfold & ->).
  destruct (fold_pages (seq 0 total) tmp [])
    as (new & tmp'' & Hf & Hnums & _ & _ & _ & Hfail & _).
  rewrite Hfold in Hf. injection Hf as -> ->. cbn [app] in *.
  cbn. repeat split; try done. exists new. split; [done |]. split.
  - rewrite <- (length_map page_num), Hnums, length_map. apply length_seq.
  - apply Hfail. intros n Hn. apply elem_of_seq in Hn. apply Hall. lia.
Qed.

End PdfPages.

Section PdfFiles.
Import OcrService OcrLifecycle.

(** X7. Whatever the call does, the only files it creates or deletes in
    [/tmp] are the page images of this document: anything else that was
    there stays, and nothing else appears. *)
Theorem pdf_touches_only_its_page_images
    (E : env) (s : dots_state) (tmp : gset string) (pdf_path task : string)
    (dpi : nat) (p : string) :
  let tmp' := fst (dots_extract_text_from_pdf E s tmp pdf_path task dpi) in
  (p ∈ tmp' -> p ∈ tmp \/ exists n, p = temp_image_path E pdf_path n) /\
  (p ∈ tmp -> (forall n, p <> temp_image_path E pdf_path n) -> p ∈ tmp').
Proof.
  cbn zeta. unfold dots_extract_text_from_pdf.
  destruct (negb (model s) || negb (processor s)); [by auto |].
  destruct (fitz_import E); [| by auto].
  destruct (fitz_open E pdf_path) as [total|e]; [| by auto].
  destruct (fold_pages E s pdf_path task total dpi (seq 0 total) tmp [])
    as (new & tmp' & -> & _ & _ & Hin & Hkeep & _).
  cbn [app]. destruct (fold_left combine_page new ("", 0)) as [text ok].
  cbn [fst]. split.
  - intros Hp. destruct (Hin p Hp) as [H | (m & _ & Hm)]; [by left | right; eauto].
  - intros Hp Hne. apply Hkeep; [done |]. intros m _. apply Hne.
Qed.

(** X9. When the primary raises on a PDF (here: the document cannot be
    opened), the service fails; with the fallback allowed its error is the
    fixed text about the missing PDF fallback and the primary's error is
    gone, without it the error is the primary's.  No file is touched. *)
Theorem pdf_fallback_hides_primary_error
    (E : env) (sv : state) (tmp : gset string) (pdf_path task : string)
    (use_fallback : bool) (e : exn) :
  dots_is_available E = true ->
  model (dots_ocr (initialize E sv)) = true ->
  processor (dots_ocr (initialize E sv)) = true ->
  fitz_import E = Returned tt ->
  fitz_open E pdf_path = Raised e ->
  let '(_, tmp', r) := extract_text_from_pdf E sv tmp pdf_path use_fallback task in
  tmp' = tmp /\ ps_success r = false /\ ps_method r = "" /\
  ps_error r = Some (if use_fallback then "PDF processing fallback not available"
                     else str e).
Proof.
  intros Hav Hm Hp Hi Ho. unfold extract_text_from_pdf, dots_extract_text_from_pdf.
  rewrite Hav, Hm, Hp, Hi, Ho. cbn. by destruct use_fallback.
Qed.

End PdfFiles.

Section PdfRuns.
Import OcrService OcrLifecycle Scenario Fixtures.

Lemma pdf_pages_are_numbered_witness :
  exists res,
    snd (dots_extract_text_from_pdf (host oom unreadable 3) loaded ∅
                                    "report.pdf" "full" 200) = Returned res /\
    map page_num (pages res) = [1; 2; 3].
Proof.
  destruct (pdf_pages_are_numbered (host oom unreadable 3) loaded "report.pdf" "full"
              3 200 eq_refl eq_refl eq_refl eq_refl ∅) as (res & Hres & Hnums & _).
  by exists res.
Defined.

Lemma pdf_leaves_no_image_when_ocr_returns_witness :
  fst (dots_extract_text_from_pdf (host (Returned "{}") unreadable 2) loaded ∅
                                  "report.pdf" "full" 200) ⊆ ∅.
Proof.
  apply (pdf_leaves_no_image_when_ocr_returns (host (Returned "{}") unreadable 2)
           loaded "report.pdf" "full" 2 200 eq_refl eq_refl eq_refl eq_refl ∅).
  - intros n _. eexists. reflexivity.
  - intros n _. reflexivity.
Defined.

Lemma all_pages_failed_is_still_success_witness :
  ps_success (snd (extract_text_from_pdf (host oom unreadable 2) ready ∅
                                         "report.pdf" true "full")) = true.
Proof.
  apply (all_pages_failed_is_still_success (host oom unreadable 2) loaded
           "report.pdf" "full" 2 200 eq_refl eq_refl eq_refl eq_refl ready ∅ true
           eq_refl eq_refl eq_refl).
  intros n _. eexists. reflexivity.
Defined.

Lemma pdf_fallback_hides_primary_error_witness :
  ps_error (snd (extract_text_from_pdf no_pdf ready ∅ "report.pdf" true "full"))
    = Some "PDF processing fallback not available".
Proof.
  pose proof (pdf_fallback_hides_primary_error no_pdf ready ∅ "report.pdf" "full" true
                (Exception "cannot open broken document")
                eq_refl eq_refl eq_refl eq_refl eq_refl) as H.
  destruct (extract_text_from_pdf no_pdf ready ∅ "report.pdf" true "full")
    as [[s' tmp'] r].
  destruct H as (_ & _ & _ & H). exact H.
Defined.

End PdfRuns.

(* ===================================================================== *)
(** ** Further properties: one document through [process_document] *)
(* ===================================================================== *)

Section Normalising.
Import Settings DocumentProcessor Stated Derived.

(** Lookups through a stack of inserts under distinct literal keys. *)
Ltac through_inserts :=
  repeat (rewrite lookup_insert_ne by done); rewrite ?lookup_insert_eq; try done.

Lemma append_assoc (a b c : string) : (a +:+ b) +:+ c = a +:+ (b +:+ c).
Proof.
  induction a as [|x a IH]; [done |]. by rewrite !append_cons, IH.
Qed.

Lemma add_item_step (t : string) (m : gmap string json) (item : content_item) :
  add_item (t, m) item =
    (t +:+ rendered item,
     match flag_key item with
     | Some key => <[key := JBool true]> m
     | None => m
     end).
Proof.
  unfold add_item, rendered, flag_key, kind.
  destruct (String.eqb (default "text" (ci_type item)) "table"); [done |].
  destruct (String.eqb (default "text" (ci_type item)) "formula"); [done |].
  by destruct (String.eqb (default "text" (ci_type item)) "text_block").
Qed.

Lemma add_items_text (items : list content_item) (t : string) (m : gmap string json) :
  fst (fold_left add_item items (t, m)) = t +:+ flatten (map rendered items).
Proof.
  revert t m. induction items as [|item items IH]; intros t m.
  - cbn. by rewrite append_nil_r.
  - cbn [fold_left map flatten fold_right]. rewrite add_item_step, IH.
    apply append_assoc.
Qed.

Lemma add_items_flags (items : list content_item) (t : string)
    (m : gmap string json) (key : string) :
  snd (fold_left add_item items (t, m)) !! key =
    if flagged key items then Some (JBool true) else m !! key.
Proof.
  revert t m. induction items as [|item items IH]; intros t m; [done |].
  cbn [fold_left flagged existsb]. rewrite add_item_step, IH. fold (flagged key items).
  destruct (flagged key items); [by rewrite orb_true_r |]. rewrite orb_false_r.
  destruct (flag_key item) as [k|]; case_bool_decide as Hk; try done.
  - injection Hk as ->. by rewrite lookup_insert_eq.
  - rewrite lookup_insert_ne; [done | congruence].
Qed.

Lemma flag_keys (key : string) (items : list content_item) :
  flagged key items = true ->
  key = "has_tables" \/ key = "has_formulas" \/ key = "has_text_blocks".
Proof.
  induction items as [|item items IH]; [done |]. cbn [flagged existsb].
  intros [Hk | Hrest]%orb_true_iff; [| by apply IH].
  case_bool_decide as Hf; [| done]. unfold flag_key in Hf.
  repeat (destruct (String.eqb _ _) in Hf); naive_solver.
Qed.

(** X13. The normalised text is the renderings of the items in their
    order, so every item's rendering (a table's or a formula's content
    between its markers) occurs in it; and the metadata flags
    [has_tables], [has_formulas] and [has_text_blocks] are set exactly
    when an item of that kind is present, no other key being touched. *)
Theorem normalised_text_marks_structure (items : list content_item) :
  full_text_of items = flatten (map rendered items) /\
  (forall item, item ∈ items -> contains (rendered item) (full_text_of items) = true) /\
  forall key,
    snd (fold_left add_item items ("", ∅)) !! key =
      if flagged key items then Some (JBool true) else None.
Proof.
  assert (Htext : full_text_of items = flatten (map rendered items)).
  { unfold full_text_of. by rewrite add_items_text. }
  split; [exact Htext |]. split.
  - intros item Hin. rewrite Htext.
    apply list_elem_of_split in Hin as (l1 & l2 & ->).
    rewrite map_app. cbn [map]. clear Htext.
    induction l1 as [|x l1 IH]; cbn [app map flatten fold_right].
    + apply contains_here.
    + by apply contains_skip.
  - intros key. by rewrite add_items_flags.
Qed.

Variable S : settings.
Variable E : env.

(** A successful call went through both gates, ran one extractor and
    normalised what it returned. *)
Lemma process_document_success (f : string) (r : doc_result) :
  snd (process_document S E f) = Returned r ->
  success r = true ->
  exists st x,
    path_stat E f = Returned st /\
    (if String.eqb (_get_file_type f) "txt"
     then Returned (_process_text_file E f)
     else processors E (_get_file_type f) f) = Returned x /\
    e_success x = true /\
    r = normalise E f (st_size st) x /\
    fst (process_document S E f) = [Extract (_get_file_type f) f].
Proof.
  unfold process_document. intros Hr Hs.
  destruct (path_exists E f) as [[|]|e0];
    [| cbn in Hr; injection Hr as <-; discriminate Hs | discriminate Hr].
  destruct (path_stat E f) as [st|e]; [| discriminate Hr].
  destruct (_ <? _)%Z; [cbn in Hr; injection Hr as <-; discriminate Hs |].
  destruct (String.eqb (_get_file_type f) "unknown");
    [cbn in Hr; injection Hr as <-; discriminate Hs |].
  cbn [fst snd] in *.
  destruct (if String.eqb (_get_file_type f) "txt" then _ else _) as [x|e];
    [| injection Hr as <-; discriminate Hs].
  destruct (e_success x) eqn:Hx; cbn [negb] in Hr;
    [| injection Hr as <-; discriminate Hs].
  injection Hr as <-. by exists st, x.
Qed.

Lemma normalise_success (f : string) (size : Z) (x : extraction_result) :
  success (normalise E f size x) = true ->
  exists pieces,
    split_documents E (full_text_of (e_content x)) = Returned pieces /\
    documents (normalise E f size x) =
      imap (fun i piece =>
              {| page_content := piece;
                 chunk_metadata :=
                   <["chunk_size" := JNum (Z.of_nat (py_len piece))]>
                     (<["total_chunks" := JNum (Z.of_nat (length pieces))]>
                        (<["chunk_id" := JNum (Z.of_nat i)]>
                           (metadata (normalise E f size x)))) |}) pieces /\
    metadata (normalise E f size x) !! "document_hash"
      = Some (JStr (md5_hexdigest E (full_text_of (e_content x)))) /\
    metadata (normalise E f size x) !! "total_chars"
      = Some (JNum (Z.of_nat (py_len (full_text_of (e_content x))))) /\
    metadata (normalise E f size x) !! "file_size_mb" = Some (JFloat size MB) /\
    metadata (normalise E f size x) !! "layout_aware" = Some (JBool true).
Proof.
  unfold normalise, full_text_of.
  pose proof (add_items_flags (e_content x) "" ∅) as Hflags.
  destruct (fold_left add_item (e_content x) ("", ∅)) as [full_text layout] eqn:Hfold.
  cbn [fst snd] in *.
  assert (Hnone : forall key, key <> "has_tables" -> key <> "has_formulas" ->
                              key <> "has_text_blocks" -> layout !! key = None).
  { intros key H1 H2 H3. rewrite Hflags.
    destruct (flagged key (e_content x)) eqn:Hk; [| done].
    apply flag_keys in Hk. naive_solver. }
  set (base0 := <["layout_aware" := JBool true]> _).
  set (base1 := md_update base0 layout).
  set (base2 := if truthy _ then _ else base1).
  unfold split_text.
  destruct (split_documents E full_text) as [pieces|e]; [| by intros Hs].
  intros _. exists pieces. cbn [documents metadata]. split; [done |]. split; [done |].
  assert (H1 : forall key, key <> "ocr_enhanced" -> key <> "layout_elements" ->
                 key <> "text_elements" -> key <> "table_elements" ->
                 key <> "formula_elements" -> base2 !! key = base1 !! key).
  { intros key K1 K2 K3 K4 K5. subst base2. destruct (truthy _); [| done].
    through_inserts. }
  assert (H2 : forall key, key <> "has_tables" -> key <> "has_formulas" ->
                 key <> "has_text_blocks" -> base1 !! key = base0 !! key).
  { intros key K1 K2 K3. subst base1. unfold md_update.
    apply lookup_union_r. by apply Hnone. }
  repeat split; (rewrite H1 by done; rewrite H2 by done; subst base0).
  all: through_inserts.
Qed.

(** X10. The call raises only from the two file-system calls in front of
    its [try]: when [exists()] raises, or when the path exists and
    [stat()] raises, and then with that very exception.  In every other
    case, whatever the extractors and the splitter do, it returns a
    result. *)
Theorem process_document_raises_only_before_try (f : string) (e : exn) :
  snd (process_document S E f) = Raised e <->
  path_exists E f = Raised e \/
  (path_exists E f = Returned true /\ path_stat E f = Raised e).
Proof.
  unfold process_document.
  destruct (path_exists E f) as [[|]|e0]; [| naive_solver | naive_solver].
  destruct (path_stat E f) as [st|e']; [| naive_solver].
  destruct (_ <? _)%Z; [naive_solver |].
  destruct (String.eqb (_get_file_type f) "unknown"); [naive_solver |].
  cbn [snd].
  destruct (if String.eqb (_get_file_type f) "txt" then _ else _) as [x|e''];
    [| naive_solver].
  destruct (e_success x); cbn [negb]; naive_solver.
Qed.

(** X11. In a successful result every chunk is tagged with its position,
    with the number of chunks of the document and with the length of its
    own text, and carries every other key of the document's metadata
    unchanged. *)
Theorem chunks_are_tagged (f : string) (r : doc_result) (i : nat) (c : chunk) :
  snd (process_document S E f) = Returned r ->
  success r = true ->
  documents r !! i = Some c ->
  chunk_metadata c !! "chunk_id" = Some (JNum (Z.of_nat i)) /\
  chunk_metadata c !! "total_chunks" = Some (JNum (Z.of_nat (length (documents r)))) /\
  chunk_metadata c !! "chunk_size" = Some (JNum (Z.of_nat (py_len (page_content c)))) /\
  forall key, key <> "chunk_id" -> key <> "total_chunks" -> key <> "chunk_size" ->
              chunk_metadata c !! key = metadata r !! key.
Proof.
  intros Hr Hs Hc.
  destruct (process_document_success f r Hr Hs) as (st & x & _ & _ & _ & -> & _).
  destruct (normalise_success f (st_size st) x Hs) as (pieces & _ & Hdocs & _).
  rewrite Hdocs in Hc |- *. rewrite length_imap.
  rewrite list_lookup_imap in Hc.
  destruct (pieces !! i) as [piece|]; [| discriminate Hc].
  cbn in Hc. injection Hc as <-. cbn [chunk_metadata page_content].
  repeat split; try through_inserts.
  intros key K1 K2 K3. through_inserts.
Qed.

(** X12. In a successful result the metadata describes the very text that
    was split: the chunk texts are the splitter's pieces of the normalised
    text of the extraction, [document_hash] is the MD5 of that text,
    [total_chars] its length, and [file_size_mb] the size [stat()] gave. *)
Theorem metadata_describes_the_split_text (f : string) (r : doc_result) :
  snd (process_document S E f) = Returned r ->
  success r = true ->
  exists st x,
    path_stat E f = Returned st /\
    (if String.eqb (_get_file_type f) "txt"
     then Returned (_process_text_file E f)
     else processors E (_get_file_type f) f) = Returned x /\
    let full_text := full_text_of (e_content x) in
    split_documents E full_text = Returned (map page_content (documents r)) /\
    metadata r !! "document_hash" = Some (JStr (md5_hexdigest E full_text)) /\
    metadata r !! "total_chars" = Some (JNum (Z.of_nat (py_len full_text))) /\
    metadata r !! "file_size_mb" = Some (JFloat (st_size st) MB).
Proof.
  intros Hr Hs.
  destruct (process_document_success f r Hr Hs) as (st & x & Hst & Hx & _ & -> & _).
  destruct (normalise_success f (st_size st) x Hs)
    as (pieces & Hsplit & Hdocs & Hhash & Hchars & Hsize & _).
  exists st, x. split; [done |]. split; [done |]. cbn zeta.
  repeat split; try done.
  rewrite Hsplit, Hdocs. f_equal. clear.
  generalize (metadata (normalise E f (st_size st) x)) as md.
  generalize (length pieces) as n. intros n md.
  set (g := fun i piece => _).
  assert (H : forall (l : list string) (h : nat -> string -> chunk),
            (forall i p, page_content (h i p) = p) -> map page_content (imap h l) = l).
  { clear. intros l. induction l as [|p l IH]; intros h Hh; [done |].
    cbn. rewrite Hh. f_equal. apply IH. intros i q. apply Hh. }
  symmetry. by apply H.
Qed.

End Normalising.

Section NormalisingRun.
Import Settings DocumentProcessor Stated Derived Scenario.

Lemma chunks_are_tagged_witness :
  exists r c,
    snd (process_document defaults two_files "a.txt") = Returned r /\
    documents r !! 0 = Some c /\
    chunk_metadata c !! "chunk_id" = Some (JNum 0) /\
    chunk_metadata c !! "total_chunks" = Some (JNum 1).
Proof.
  set (r := normalise two_files "a.txt" 5 (_process_text_file two_files "a.txt")).
  assert (Hc : exists c, documents r !! 0 = Some c) by (eexists; reflexivity).
  destruct Hc as [c Hc]. exists r, c.
  destruct (chunks_are_tagged defaults two_files "a.txt" r 0 c eq_refl eq_refl Hc)
    as (H1 & H2 & _).
  repeat split; try done.
Defined.

Lemma metadata_describes_the_split_text_witness :
  exists r,
    snd (process_document defaults two_files "a.txt") = Returned r /\
    metadata r !! "document_hash" = Some (JStr ("md5:hello" +:+ nl +:+ nl)) /\
    metadata r !! "total_chars" = Some (JNum 7).
Proof.
  set (r := normalise two_files "a.txt" 5 (_process_text_file two_files "a.txt")).
  exists r.
  destruct (metadata_describes_the_split_text defaults two_files "a.txt" r
              eq_refl eq_refl) as (st & x & Hst & Hx & _ & Hhash & Hchars & _).
  injection Hx as <-. by repeat split.
Defined.

End NormalisingRun.

(* ===================================================================== *)
(** ** Further properties: what reaches the extractors, and the report *)
(* ===================================================================== *)

Section AllowList.
Import Settings DocumentProcessor Stated Derived.

(** X14. Every extension on the watcher's default allow-list has a file
    type: a file the watcher selects is never turned away as unsupported,
    and if it exists, can be examined and is within the size limit, the
    call reaches exactly one extractor, the one of its type. *)
Theorem watched_extensions_reach_an_extractor
    (E : env) (f : string) (st : stat_result) :
  lower (path_suffix f) ∈ supported_extensions defaults ->
  path_exists E f = Returned true ->
  path_stat E f = Returned st ->
  (st_size st <= max_file_size_mb defaults * MB)%Z ->
  _get_file_type f <> "unknown" /\
  fst (process_document defaults E f) = [Extract (_get_file_type f) f].
Proof.
  intros Hext Hex Hst Hsize.
  assert (Hty : String.eqb (_get_file_type f) "unknown" = false).
  { unfold _get_file_type. cbn [supported_extensions defaults] in Hext.
    repeat (apply elem_of_cons in Hext as [-> | Hext]; [reflexivity |]).
    by apply elem_of_nil in Hext. }
  split; [by apply String.eqb_neq |].
  unfold process_document. rewrite Hex, Hst. cbn [negb].
  apply Z.ltb_ge in Hsize. by rewrite Hsize, Hty.
Qed.

End AllowList.

Section Attribution.
Import Settings DocumentProcessor Stated Derived.
Variable S : settings.
Variable E : nat -> env.

Lemma record_results_paths (l : list (string * outcome doc_result)) (r : report) :
  let r' := fold_left record_result l r in
  map s_file_path (successful r') = (map s_file_path (successful r) ++ valid_paths l)%list /\
  map f_file_path (failed r') = (map f_file_path (failed r) ++ invalid_paths l)%list /\
  total_chunks r' = total_chunks r + list_sum (map (fun po => chunks_of (snd po)) l) /\
  list_sum (map (fun e => length (s_documents e)) (successful r'))
    = list_sum (map (fun e => length (s_documents e)) (successful r))
      + list_sum (map (fun po => chunks_of (snd po)) l).
Proof.
  revert r. induction l as [|[p o] l IH]; intros r; cbn zeta.
  - unfold valid_paths, invalid_paths. cbn. rewrite !app_nil_r. repeat split; lia.
  - cbn [fold_left]. destruct (IH (record_result r (p, o))) as (H1 & H2 & H3 & H4).
    rewrite H1, H2, H3, H4. clear.
    unfold valid_paths, invalid_paths, record_result, invalid, chunks_of, snoc.
    cbn [List.filter map snd fst list_sum].
    destruct o as [d|e]; [destruct (success d) |];
      cbn [negb successful failed total_chunks map fst list_sum];
      rewrite ?map_app, ?list_sum_app, <- ?app_assoc; cbn [map app list_sum s_documents
        s_file_path f_file_path]; repeat split; try done;
      unfold list_sum; cbn [fold_right]; lia.
Qed.

(** X15. The report attributes every result to the path it came from: the
    successful entries are the inputs whose call went well, the failed
    entries the others, each in input order; and [total_chunks] is the
    number of chunks the successful entries carry. *)
Theorem batch_report_attribution (file_paths : list string) :
  let report := process_multiple_documents S E file_paths in
  map s_file_path (successful report) = valid_paths (attributed S E file_paths) /\
  map f_file_path (failed report) = invalid_paths (attributed S E file_paths) /\
  total_chunks report
    = list_sum (map (fun e => length (s_documents e)) (successful report)).
Proof.
  cbn zeta. unfold process_multiple_documents.
  cbn [successful failed total_chunks]. rewrite batches_are_a_single_pass.
  destruct (record_results_paths (attributed S E file_paths)
              {| successful := []; failed := []; total_documents := 0;
                 total_chunks := 0; memory_usage := JObj [] |}) as (H1 & H2 & H3 & H4).
  cbn [successful failed total_chunks map app list_sum] in *.
  rewrite H1, H2, H3, H4. by repeat split.
Qed.

End Attribution.

(* ===================================================================== *)
(** ** Further properties: the PDF, DOCX and audio extractors *)
(* ===================================================================== *)

Section PdfReaders.
Import DocumentProcessor PyText Extractors Derived.

Lemma visible_pages_app (texts : nat -> string) (a b : list nat) :
  visible_pages texts (a ++ b) = (visible_pages texts a ++ visible_pages texts b)%list.
Proof. apply flat_map_app. Qed.

(** A loop all of whose pages can be read appends their visible ones. *)
Lemma read_pages_all (text : nat -> outcome string) (texts : nat -> string)
    (page_nums : list nat) (acc : list page_text) :
  (forall k, k ∈ page_nums -> text k = Returned (texts k)) ->
  read_pages text page_nums acc
    = ((acc ++ visible_pages texts page_nums)%list, Returned tt).
Proof.
  revert acc. induction page_nums as [|k ks IH]; intros acc Hall.
  - cbn. by rewrite app_nil_r.
  - cbn [read_pages]. rewrite (Hall k) by set_solver.
    rewrite IH by (intros j Hj; apply Hall; set_solver).
    unfold visible_pages at 2. cbn [flat_map]. fold (visible_pages texts ks).
    destruct (blank (texts k)); [done |]. unfold snoc. by rewrite <- app_assoc.
Qed.

(** A loop that raises on a page keeps what the pages before it gave. *)
Lemma read_pages_until (text : nat -> outcome string) (texts : nat -> string)
    (before after : list nat) (bad : nat) (e : exn) (acc : list page_text) :
  (forall k, k ∈ before -> text k = Returned (texts k)) ->
  text bad = Raised e ->
  read_pages text (before ++ bad :: after) acc
    = ((acc ++ visible_pages texts before)%list, Raised e).
Proof.
  revert acc. induction before as [|k ks IH]; intros acc Hall Hbad.
  - cbn. by rewrite Hbad, app_nil_r.
  - cbn [read_pages app]. rewrite (Hall k) by set_solver.
    rewrite IH by (try done; intros j Hj; apply Hall; set_solver).
    unfold visible_pages at 2. cbn [flat_map]. fold (visible_pages texts ks).
    destruct (blank (texts k)); [done |]. unfold snoc. by rewrite <- app_assoc.
Qed.

Lemma read_pages_grows (text : nat -> outcome string) (page_nums : list nat)
    (acc : list page_text) (P : page_text -> Prop) :
  Forall P acc ->
  (forall k t, blank t = false -> P {| page := k + 1; content := t |}) ->
  Forall P (fst (read_pages text page_nums acc)).
Proof.
  intros Hacc HP. revert acc Hacc.
  induction page_nums as [|k ks IH]; intros acc Hacc; [done |].
  cbn [read_pages]. destruct (text k) as [t|e]; [| done].
  apply IH. destruct (blank t) eqn:Hb; [done |].
  unfold snoc. apply Forall_app. split; [done |]. constructor; [by apply HP | done].
Qed.

Variable X : env.
Variable file_path : string.

(** A PyMuPDF attempt that reads every page collects the visible ones and
    ends in the [close]. *)
Lemma mupdf_attempt_reads_all (n : nat) (texts : nat -> string) :
  mupdf_open X file_path = Returned n ->
  (forall k, k < n -> mupdf_text X file_path k = Returned (texts k)) ->
  mupdf_attempt X file_path
    = (visible_pages texts (seq 0 n), n, mupdf_close X file_path).
Proof.
  intros Ho Ht. unfold mupdf_attempt. rewrite Ho.
  by rewrite (read_pages_all _ texts) by (intros k Hk%elem_of_seq; apply Ht; lia).
Qed.

(** X16. When PyMuPDF opens the document and reads every page, the
    extraction is a success made of the pages with visible text, numbered
    from one in page order, with the page count PyMuPDF gave; PyPDF2 plays
    no part in it. *)
Theorem pdf_text_layer_pages (n : nat) (texts : nat -> string) :
  mupdf_open X file_path = Returned n ->
  (forall k, k < n -> mupdf_text X file_path k = Returned (texts k)) ->
  mupdf_close X file_path = Returned tt ->
  pdf_extract_text X file_path =
    {| pdf_ok := true; pdf_content := visible_pages texts (seq 0 n);
       pdf_pages := n; pdf_error := None |}.
Proof.
  intros Ho Ht Hc. unfold pdf_extract_text.
  by rewrite (mupdf_attempt_reads_all n texts Ho Ht), Hc.
Qed.

(** X17. When PyMuPDF raises on page [bad] after reading the pages before
    it, and PyPDF2 then reads the whole document, the result is a success
    that holds the pages PyMuPDF had collected followed by all the pages
    PyPDF2 read: the first [bad] pages appear twice. *)
Theorem pdf_fallback_repeats_pages_already_read
    (n bad m : nat) (texts texts' : nat -> string) (e : exn) :
  mupdf_open X file_path = Returned n ->
  bad < n ->
  (forall k, k < bad -> mupdf_text X file_path k = Returned (texts k)) ->
  mupdf_text X file_path bad = Raised e ->
  pypdf_open X file_path = Returned m ->
  (forall k, k < m -> pypdf_text X file_path k = Returned (texts' k)) ->
  pdf_extract_text X file_path =
    {| pdf_ok := true;
       pdf_content := (visible_pages texts (seq 0 bad)
                       ++ visible_pages texts' (seq 0 m))%list;
       pdf_pages := m; pdf_error := None |}.
Proof.
  intros Ho Hlt Ht Hbad Ho' Ht'. unfold pdf_extract_text, mupdf_attempt. rewrite Ho.
  replace (seq 0 n) with (seq 0 bad ++ bad :: seq (Datatypes.S bad) (n - bad - 1))%list.
  2: { replace n with (bad + Datatypes.S (n - bad - 1)) at 2 by lia.
       by rewrite seq_app. }
  rewrite (read_pages_until _ texts _ _ _ e)
    by (try done; intros k Hk%elem_of_seq; apply Ht; lia).
  rewrite Ho'. cbn [app].
  by rewrite (read_pages_all _ texts')
    by (intros k Hk%elem_of_seq; apply Ht'; lia).
Qed.

(** X18. A PDF extraction fails only if both readers raised, and what it
    reports then is PyPDF2's error with no content at all, also when
    PyMuPDF had read pages before it raised. *)
Theorem pdf_failure_is_the_second_readers (r : pdf_extraction) :
  pdf_extract_text X file_path = r ->
  pdf_ok r = false ->
  pdf_content r = [] /\
  (exists e1, snd (mupdf_attempt X file_path) = Raised e1) /\
  exists e2, pdf_error r = Some (str e2) /\
             (pypdf_open X file_path = Raised e2 \/
              exists k, pypdf_text X file_path k = Raised e2).
Proof.
  intros <-. unfold pdf_extract_text.
  destruct (mupdf_attempt X file_path) as [[text_content n] [[]|e1]]; [done |].
  destruct (pypdf_open X file_path) as [m|e2] eqn:Ho.
  - destruct (read_pages (pypdf_text X file_path) (seq 0 m) text_content)
      as [tc [[]|e2]] eqn:Hread; [done |].
    intros _. cbn. split; [done |]. split; [by eexists |]. exists e2.
    split; [done |]. right. clear Ho.
    revert text_content Hread. generalize (seq 0 m) as ks.
    induction ks as [|k ks IH]; intros acc Hread; [discriminate Hread |].
    cbn [read_pages] in Hread.
    destruct (pypdf_text X file_path k) as [t|e'] eqn:Hk.
    + by eapply IH.
    + injection Hread as _ ->. by exists k.
  - intros _. cbn. split; [done |]. split; [by eexists |]. exists e2. by split; [| left].
Qed.

(** X19. Whatever the readers do, no page entry of a PDF extraction is
    blank, and page numbers start at one. *)
Theorem pdf_entries_are_visible :
  Forall (fun p => blank (content p) = false /\ 1 <= page p)
         (pdf_content (pdf_extract_text X file_path)).
Proof.
  set (P := fun p => blank (content p) = false /\ 1 <= page p).
  assert (HP : forall k t, blank t = false -> P {| page := k + 1; content := t |})
    by (intros k t Hb; split; [done | cbn; lia]).
  unfold pdf_extract_text, mupdf_attempt.
  destruct (mupdf_open X file_path) as [n|e].
  - pose proof (read_pages_grows (mupdf_text X file_path) (seq 0 n) [] P
                  (Forall_nil_2 P) HP) as H1.
    destruct (read_pages (mupdf_text X file_path) (seq 0 n) []) as [tc [[]|e]];
      cbn [fst] in H1.
    + destruct (mupdf_close X file_path); [done |].
      destruct (pypdf_open X file_path) as [m|e2]; [| done].
      pose proof (read_pages_grows (pypdf_text X file_path) (seq 0 m) tc P H1 HP) as H2.
      by destruct (read_pages (pypdf_text X file_path) (seq 0 m) tc) as [tc' [[]|e3]].
    + destruct (pypdf_open X file_path) as [m|e2]; [| done].
      pose proof (read_pages_grows (pypdf_text X file_path) (seq 0 m) tc P H1 HP) as H2.
      by destruct (read_pages (pypdf_text X file_path) (seq 0 m) tc) as [tc' [[]|e3]].
  - destruct (pypdf_open X file_path) as [m|e2]; [| done].
    pose proof (read_pages_grows (pypdf_text X file_path) (seq 0 m) [] P
                  (Forall_nil_2 P) HP) as H2.
    by destruct (read_pages (pypdf_text X file_path) (seq 0 m) []) as [tc' [[]|e3]].
Qed.

End PdfReaders.

Section ExtractorsInPipeline.
Import Settings DocumentProcessor PyText Extractors Derived.
Variable S : settings.
Variable D : DocumentProcessor.env.
Variable X : Extractors.env.
Variable ready : bool.
Variable f : string.
Variable st : stat_result.

Hypothesis f_exists : path_exists D f = Returned true.
Hypothesis f_stat : path_stat D f = Returned st.
Hypothesis f_small : (st_size st <= max_file_size_mb S * MB)%Z.

(** Past the two gates, the call is the dispatch on the file type followed
    by the normalisation of a successful extraction. *)
Lemma past_the_gates (file_type : string) (x : extraction_result) :
  _get_file_type f = file_type ->
  String.eqb file_type "unknown" = false ->
  String.eqb file_type "txt" = false ->
  dispatch X (processors D "image") ready file_type f = Returned x ->
  process_document S (with_extractors D X ready) f =
    ([Extract file_type f],
     if e_success x
     then Returned (normalise (with_extractors D X ready) f (st_size st) x)
     else Returned (failure (e_error x) (e_metadata x))).
Proof.
  intros Hty Hu Ht Hx. unfold process_document.
  cbn [with_extractors path_exists path_stat processors].
  rewrite f_exists, f_stat. cbn [negb].
  pose proof f_small as Hs. apply Z.ltb_ge in Hs. rewrite Hs, Hty, Hu, Ht, Hx.
  by destruct (e_success x).
Qed.

(** X20. A PDF without a text layer (every page reads as white space) is
    not a failure and is not sent to OCR: the extraction succeeds with no
    content, the normalised text is empty, and the document is a success
    carrying whatever the splitter makes of the empty text. *)
Theorem pdf_without_text_layer_is_a_success
    (n : nat) (texts : nat -> string) (pieces : list string) :
  _get_file_type f = "pdf" ->
  mupdf_open X f = Returned n ->
  (forall k, k < n -> mupdf_text X f k = Returned (texts k) /\ blank (texts k) = true) ->
  mupdf_close X f = Returned tt ->
  split_documents D "" = Returned pieces ->
  exists r,
    process_document S (with_extractors D X ready) f = ([Extract "pdf" f], Returned r) /\
    success r = true /\
    map page_content (documents r) = pieces /\
    metadata r !! "total_chars" = Some (JNum 0) /\
    metadata r !! "document_hash" = Some (JStr (md5_hexdigest D "")).
Proof.
  intros Hty Ho Ht Hc Hsplit.
  assert (Hpdf : pdf_extract_text X f =
                 {| pdf_ok := true; pdf_content := []; pdf_pages := n;
                    pdf_error := None |}).
  { unfold pdf_extract_text.
    rewrite (mupdf_attempt_reads_all X f n texts Ho) by (intros k Hk; by apply Ht).
    rewrite Hc. f_equal. clear -Ht.
    assert (H : forall ks, (forall k, k ∈ ks -> k < n) -> visible_pages texts ks = []).
    { induction ks as [|k ks IH]; intros Hks; [done |].
      unfold visible_pages. cbn [flat_map]. fold (visible_pages texts ks).
      destruct (Ht k) as [_ ->]; [apply Hks; set_solver |].
      apply IH. intros j Hj. apply Hks. set_solver. }
    apply H. intros k Hk%elem_of_seq. lia. }
  set (x := pdf_result X f).
  assert (Hx : e_success x = true /\ e_content x = []).
  { subst x. unfold pdf_result. by rewrite Hpdf. }
  destruct Hx as [Hok Hcontent].
  rewrite (past_the_gates "pdf" x Hty eq_refl eq_refl eq_refl), Hok.
  set (r := normalise (with_extractors D X ready) f (st_size st) x).
  assert (Hs : success r = true).
  { subst r. unfold normalise. rewrite Hcontent. cbn [fold_left].
    unfold split_text. cbn [with_extractors split_documents]. by rewrite Hsplit. }
  destruct (normalise_success (with_extractors D X ready) f (st_size st) x Hs)
    as (pieces' & Hsp & Hdocs & Hhash & Hchars & _).
  rewrite Hcontent in Hsp, Hhash, Hchars.
  change (full_text_of []) with "" in *.
  cbn [with_extractors split_documents md5_hexdigest] in Hsp, Hhash.
  rewrite Hsplit in Hsp. injection Hsp as <-.
  exists r. repeat split; try done.
  fold r in Hdocs. rewrite Hdocs. clear.
  generalize (metadata r) as md, (length pieces) as m. intros md m.
  assert (H : forall (l : list string) (h : nat -> string -> chunk),
            (forall i p, page_content (h i p) = p) -> map page_content (imap h l) = l).
  { clear. intros l. induction l as [|p l IH]; intros h Hh; [done |].
    cbn. rewrite Hh. f_equal. apply IH. intros i q. apply Hh. }
  by apply H.
Qed.

(** X21. A Word document with no visible paragraph is not a failure
    either: its text is the empty join followed by the two newlines every
    item ends in, so the document is a success of two characters. *)
Theorem docx_without_text_is_a_success (paragraphs pieces : list string) :
  _get_file_type f = "docx" ->
  docx_paragraphs X f = Returned paragraphs ->
  forallb blank paragraphs = true ->
  split_documents D (nl +:+ nl) = Returned pieces ->
  exists r,
    process_document S (with_extractors D X ready) f = ([Extract "docx" f], Returned r) /\
    success r = true /\
    metadata r !! "total_chars" = Some (JNum 2) /\
    metadata r !! "document_hash" = Some (JStr (md5_hexdigest D (nl +:+ nl))).
Proof.
  intros Hty Hdoc Hblank Hsplit.
  assert (Hnone : List.filter (fun t => negb (blank t)) paragraphs = []).
  { clear -Hblank. induction paragraphs as [|p ps IH]; [done |].
    cbn in *. apply andb_true_iff in Hblank as [-> Hps]. by apply IH. }
  set (x := docx_result X f).
  assert (Hx : e_success x = true /\
               e_content x = [{| ci_type := None; ci_content := "" |}]).
  { subst x. unfold docx_result. by rewrite Hdoc, Hnone. }
  destruct Hx as [Hok Hcontent].
  rewrite (past_the_gates "docx" x Hty eq_refl eq_refl eq_refl), Hok.
  set (r := normalise (with_extractors D X ready) f (st_size st) x).
  assert (Hfull : full_text_of (e_content x) = nl +:+ nl) by by rewrite Hcontent.
  assert (Hs : success r = true).
  { subst r. unfold normalise. rewrite Hcontent. cbn [fold_left add_item].
    unfold split_text. cbn [with_extractors split_documents].
    change (default "text" (ci_type {| ci_type := None; ci_content := "" |}))
      with "text". cbn [String.eqb Ascii.eqb Bool.eqb andb ci_content].
    change ("" +:+ "" +:+ nl +:+ nl) with (nl +:+ nl). by rewrite Hsplit. }
  destruct (normalise_success (with_extractors D X ready) f (st_size st) x Hs)
    as (pieces' & _ & _ & Hhash & Hchars & _).
  rewrite Hfull in Hhash, Hchars. exists r. by repeat split.
Qed.

(** X22. With no transcription service to import, an audio file still
    passes the gates and is dispatched, and the call returns a failure
    whose error and metadata both say that the service is not available. *)
Theorem audio_without_transcriber_is_reported :
  _get_file_type f = "audio" ->
  transcription_available X = false ->
  exists r,
    process_document S (with_extractors D X ready) f = ([Extract "audio" f], Returned r) /\
    success r = false /\ documents r = [] /\
    error r = Some "Transcription service not available" /\
    metadata r !! "error" = Some (JStr "Transcription service not available") /\
    metadata r !! "file_type" = Some (JStr "audio").
Proof.
  intros Hty Hna.
  set (x := snd (audio_result X ready f)).
  assert (Hx : x = {| e_success := false; e_content := [];
                      e_metadata :=
                        <["error" := JStr "Transcription service not available"]>
                          (<["file_path" := JStr f]>
                             (<["file_type" := JStr "audio"]> ∅));
                      e_error := Some "Transcription service not available" |}).
  { subst x. unfold audio_result. by rewrite Hna. }
  rewrite (past_the_gates "audio" x Hty eq_refl eq_refl eq_refl), Hx.
  cbn [e_success]. eexists. split; [reflexivity |]. cbn.
  repeat split; try done;
    repeat (rewrite lookup_insert_ne by done); by rewrite ?lookup_insert_eq.
Qed.

End ExtractorsInPipeline.

Section ExtractorsRun.
Import Settings DocumentProcessor PyText Extractors Derived Scenario Fixtures.

Lemma watched_extensions_reach_an_extractor_witness :
  _get_file_type "scan.pdf" <> "unknown" /\
  fst (process_document defaults inbox "scan.pdf") = [Extract "pdf" "scan.pdf"].
Proof.
  apply (watched_extensions_reach_an_extractor inbox "scan.pdf" nine_bytes).
  - apply list_elem_of_In. cbn. tauto.
  - reflexivity.
  - reflexivity.
  - vm_compute. discriminate.
Defined.

Lemma pdf_text_layer_pages_witness :
  pdf_extract_text (readers 3 7 3 sparse) "scan.pdf" =
    {| pdf_ok := true;
       pdf_content := [{| page := 2; content := "page" |};
                       {| page := 3; content := "page" |}];
       pdf_pages := 3; pdf_error := None |}.
Proof.
  apply (pdf_text_layer_pages (readers 3 7 3 sparse) "scan.pdf" 3 sparse).
  - reflexivity.
  - intros k Hk. cbn. destruct (Nat.eqb_spec k 7); [lia | reflexivity].
  - reflexivity.
Defined.

Lemma pdf_fallback_repeats_pages_already_read_witness :
  pdf_extract_text (readers 3 2 3 sparse) "scan.pdf" =
    {| pdf_ok := true;
       pdf_content := [{| page := 2; content := "page" |};
                       {| page := 2; content := "page" |};
                       {| page := 3; content := "page" |}];
       pdf_pages := 3; pdf_error := None |}.
Proof.
  apply (pdf_fallback_repeats_pages_already_read (readers 3 2 3 sparse) "scan.pdf"
           3 2 3 sparse sparse (Exception "bad xref")).
  - reflexivity.
  - lia.
  - intros k Hk. cbn. destruct (Nat.eqb_spec k 2); [lia | reflexivity].
  - reflexivity.
  - reflexivity.
  - reflexivity.
Defined.

Lemma pdf_failure_is_the_second_readers_witness :
  pdf_content (pdf_extract_text damaged "scan.pdf") = [] /\
  (exists e1, snd (mupdf_attempt damaged "scan.pdf") = Raised e1) /\
  exists e2, pdf_error (pdf_extract_text damaged "scan.pdf") = Some (str e2) /\
             (pypdf_open damaged "scan.pdf" = Raised e2 \/
              exists k, pypdf_text damaged "scan.pdf" k = Raised e2).
Proof.
  apply (pdf_failure_is_the_second_readers damaged "scan.pdf"
           (pdf_extract_text damaged "scan.pdf")); reflexivity.
Defined.

Lemma pdf_without_text_layer_is_a_success_witness :
  exists r,
    process_document defaults (with_extractors inbox (readers 2 7 2 all_blank) false)
                     "scan.pdf"
      = ([Extract "pdf" "scan.pdf"], Returned r) /\
    success r = true /\
    map page_content (documents r) = [""] /\
    metadata r !! "total_chars" = Some (JNum 0) /\
    metadata r !! "document_hash" = Some (JStr "md5:").
Proof.
  apply (pdf_without_text_layer_is_a_success defaults inbox (readers 2 7 2 all_blank)
           false "scan.pdf" nine_bytes eq_refl eq_refl) with (n := 2) (texts := all_blank).
  - vm_compute. discriminate.
  - reflexivity.
  - reflexivity.
  - intros k Hk. cbn. destruct (Nat.eqb_spec k 7); [lia |]. split; reflexivity.
  - reflexivity.
  - reflexivity.
Defined.

Lemma docx_without_text_is_a_success_witness :
  exists r,
    process_document defaults (with_extractors inbox (readers 2 7 2 all_blank) false)
                     "empty.docx"
      = ([Extract "docx" "empty.docx"], Returned r) /\
    success r = true /\
    metadata r !! "total_chars" = Some (JNum 2) /\
    metadata r !! "document_hash" = Some (JStr ("md5:" +:+ nl +:+ nl)).
Proof.
  apply (docx_without_text_is_a_success defaults inbox (readers 2 7 2 all_blank)
           false "empty.docx" nine_bytes eq_refl eq_refl)
    with (paragraphs := ["  "; ""]) (pieces := [nl +:+ nl]).
  - vm_compute. discriminate.
  - reflexivity.
  - reflexivity.
  - reflexivity.
  - reflexivity.
Defined.

Lemma audio_without_transcriber_is_reported_witness :
  exists r,
    process_document defaults (with_extractors inbox (readers 2 7 2 all_blank) false)
                     "memo.mp3"
      = ([Extract "audio" "memo.mp3"], Returned r) /\
    success r = false /\ documents r = [] /\
    error r = Some "Transcription service not available" /\
    metadata r !! "error" = Some (JStr "Transcription service not available") /\
    metadata r !! "file_type" = Some (JStr "audio").
Proof.
  apply (audio_without_transcriber_is_reported defaults inbox (readers 2 7 2 all_blank)
           false "memo.mp3" nine_bytes eq_refl eq_refl).
  - vm_compute. discriminate.
  - reflexivity.
  - reflexivity.
Defined.

End ExtractorsRun.

(* ===================================================================== *)
(** ** Further properties: the vector index and the watcher's batches *)
(* ===================================================================== *)

Section IndexGrowth.
Import Settings DocumentProcessor RagAgent.
Variable E : RagAgent.env.

(** Batches [b], [b+1], ... are added until one raises: the index holds
    the first [k] of them. *)
Lemma add_batches_prefix (docs : list chunk) (m b : nat)
    (store : list chunk) (ids : list string) :
  exists k o,
    fold_left (add_batch E docs) (map (fun j => j * 100) (seq b m)) (store, Returned ids)
      = ((store ++ take (k * 100) (drop (b * 100) docs))%list, o) /\
    match o with
    | Returned _ => k = m
    | Raised e =>
        k < m /\
        store_add_documents E (slice docs ((b + k) * 100) ((b + k) * 100 + 100)) = Raised e
    end.
Proof.
  revert b store ids. induction m as [|m IH]; intros b store ids.
  - exists 0, (Returned ids). cbn. by rewrite app_nil_r.
  - cbn [seq map fold_left]. unfold add_batch at 2.
    destruct (store_add_documents E (slice docs (b * 100) (b * 100 + 100)))
      as [batch_ids|e] eqn:Hadd.
    + destruct (IH (Datatypes.S b) (store ++ slice docs (b * 100) (b * 100 + 100))%list
                  (ids ++ batch_ids)%list) as (k & o & Hf & Ho).
      exists (Datatypes.S k), o. rewrite Hf. split.
      * f_equal. rewrite <- app_assoc. f_equal. unfold slice.
        replace (b * 100 + 100 - b * 100) with 100 by lia.
        replace (Datatypes.S k * 100) with (100 + k * 100) by lia.
        rewrite take_plus, drop_drop.
        by replace (b * 100 + 100) with (Datatypes.S b * 100) by lia.
      * destruct o as [ids'|e]; [lia |]. destruct Ho as [Hk He].
        split; [lia |].
        by replace (b + Datatypes.S k) with (Datatypes.S b + k) by lia.
    + exists 0, (Raised e). rewrite add_batch_raised. cbn [Nat.mul take].
      rewrite app_nil_r, Nat.add_0_r. split; [done |]. split; [lia | done].
Qed.

Lemma vector_index_prefix (store docs : list chunk) :
  exists k o,
    vector_add_documents E store docs = ((store ++ take (k * 100) docs)%list, o).
Proof.
  unfold vector_add_documents, range_step.
  destruct (add_batches_prefix docs ((length docs + 100 - 1) / 100) 0 store [])
    as (k & o & Hf & _).
  by exists k, o.
Qed.

(** X23. A call of the vector service adds whole batches of 100 in order
    and stops at the first batch whose add raises: whatever the outcome,
    the index is the old one followed by the first [k] batches.  When the
    call returns these are all the documents; when it raises, the batches
    before the failing one stay in the index. *)
Theorem vector_index_grows_by_whole_batches (store docs : list chunk) :
  exists k o,
    vector_add_documents E store docs = ((store ++ take (k * 100) docs)%list, o) /\
    match o with
    | Returned _ => take (k * 100) docs = docs
    | Raised e =>
        k * 100 < length docs /\
        store_add_documents E (slice docs (k * 100) (k * 100 + 100)) = Raised e
    end.
Proof.
  unfold vector_add_documents, range_step.
  destruct (add_batches_prefix docs ((length docs + 100 - 1) / 100) 0 store [])
    as (k & o & Hf & Ho).
  exists k, o. change (drop (0 * 100) docs) with docs in Hf. split; [exact Hf |].
  pose proof (Nat.div_mod_eq (length docs + 100 - 1) 100) as Hd.
  assert (Hm : (length docs + 100 - 1) mod 100 < 100)
    by (apply Nat.mod_upper_bound; lia).
  revert Ho Hd Hm.
  generalize ((length docs + 100 - 1) / 100) as q,
             ((length docs + 100 - 1) mod 100) as r.
  intros q r Ho Hd Hm. destruct o as [ids|e].
  - subst k. apply take_ge. lia.
  - destruct Ho as [Hk He]. cbn [Nat.add] in He. split; [lia | exact He].
Qed.

(** Whatever [add_documents] reports, the index has only grown, by a
    prefix of the documents of the call. *)
Lemma add_documents_prefix (store docs : list chunk) :
  exists k, fst (add_documents E store docs) = (store ++ take (k * 100) docs)%list.
Proof.
  destruct (vector_index_prefix store docs) as (k & o & Hv). exists k.
  unfold add_documents. rewrite Hv.
  destruct o as [ids|e]; [| done]. by destruct (get_collection_stats E).
Qed.

End IndexGrowth.

Section WatcherBatches.
Import Settings DocumentProcessor PeriodicIndexer Stated Derived.
Variable md5 : string -> outcome string.
Variable S : settings.
Variable E : PeriodicIndexer.env.

Lemma mark_processed_unlinked (st : state) (hs : list string) :
  unlinked (mark_processed st hs) = unlinked st.
Proof.
  unfold mark_processed. revert st.
  induction hs as [|h hs IH]; intros st; [done |].
  cbn [fold_left]. by rewrite IH.
Qed.

(** The loop over the files of a batch: every file is tried, the ones
    whose [unlink] goes through are recorded in order, each of the others
    adds one warning. *)
Lemma cleanup_fold (file_paths : list string) (st : state) (logs : list log_entry) :
  let r := fold_left (cleanup_one E) file_paths (st, logs) in
  unlinked (fst r) = (unlinked st ++ List.filter (deletable E) file_paths)%list /\
  length (warnings (snd r))
    = length (warnings logs)
      + length (List.filter (fun p => negb (deletable E p)) file_paths).
Proof.
  revert st logs. induction file_paths as [|p ps IH]; intros st logs; cbn zeta.
  - cbn [fold_left List.filter fst snd length]. rewrite app_nil_r.
    split; [done | lia].
  - cbn [fold_left List.filter].
    assert (Hone : (deletable E p = true /\
                    cleanup_one E (st, logs) p = (add_unlinked st p, logs)) \/
                   (deletable E p = false /\
                    exists w, log_level w = WARNING /\
                              cleanup_one E (st, logs) p = (st, snoc logs w))).
    { unfold cleanup_one, deletable.
      destruct (unlink E p); [by left | right]. split; [done |].
      eexists. split; [| reflexivity]. reflexivity. }
    destruct Hone as [[Hd ->] | [Hd (w & Hw & ->)]]; rewrite Hd; cbn [negb].
    + destruct (IH (add_unlinked st p) logs) as [H1 H2]. rewrite H1, H2.
      unfold add_unlinked, snoc. cbn [unlinked]. by rewrite <- app_assoc.
    + destruct (IH st (snoc logs w)) as [H1 H2]. rewrite H1, H2.
      split; [done |]. unfold warnings, snoc. rewrite List.filter_app, length_app.
      cbn [List.filter]. rewrite Hw. cbn [length]. lia.
Qed.

(** X25. The clean-up tries every file of the batch: a failing [unlink]
    does not stop the loop.  The files deleted are the ones whose [unlink]
    went through, in batch order; every other file costs exactly one
    warning; the processed set and the database file are not touched. *)
Theorem cleanup_deletes_what_it_can (st : state) (file_paths : list string) :
  let '(st', logs) := _cleanup_processed_files E st file_paths in
  unlinked st' = (unlinked st ++ List.filter (deletable E) file_paths)%list /\
  length (warnings logs)
    = length (List.filter (fun p => negb (deletable E p)) file_paths) /\
  processed_files st' = processed_files st /\ db_file st' = db_file st.
Proof.
  unfold _cleanup_processed_files.
  destruct (cleanup_fold file_paths st []) as [H1 H2].
  destruct (cleanup_keeps_memory E file_paths st []) as (K1 & _ & K3 & _).
  destruct (fold_left (cleanup_one E) file_paths (st, [])) as [st' logs].
  cbn [fst snd] in *. by rewrite H1, H2, K1, K3.
Qed.

(** Whatever the call into the RAG service reports, the index has grown by
    whole batches of the chunks of the processed files, or not at all. *)
Lemma process_and_add_files_prefix (rs : RagAgent.state) (file_paths : list string) :
  exists k,
    RagAgent.vector_store
      (fst (RagAgent.process_and_add_files S (rag E) (doc E) rs file_paths))
    = (RagAgent.vector_store rs
       ++ take (k * 100)
            (flat_map s_documents
               (successful (process_multiple_documents S (doc E) file_paths))))%list.
Proof.
  unfold RagAgent.process_and_add_files.
  destruct (if RagAgent.initialized rs then _ else _) as [[]|e];
    [| exists 0; cbn; by rewrite app_nil_r].
  destruct (successful (process_multiple_documents S (doc E) file_paths))
    as [|x xs]; [exists 0; cbn; by rewrite app_nil_r |].
  destruct (add_documents_prefix (rag E) (RagAgent.vector_store rs)
              (flat_map s_documents (x :: xs))) as [k Hk].
  exists k.
  by destruct (RagAgent.add_documents (rag E) (RagAgent.vector_store rs) _).
Qed.

(** X24. A batch that is not reported successful commits nothing: no
    fingerprint is added, the database file is not written, no source file
    is deleted, and a single error is logged, so the same files are found
    again by the next scan.  The vector index may all the same have grown
    by whole batches of 100 of the chunks of this batch. *)
Theorem failed_batch_is_left_for_the_next_scan
    (st : state) (new_files : list (string * string)) :
  batch_succeeded
    (snd (RagAgent.process_and_add_files S (rag E) (doc E) (rag_state st)
            (map fst new_files))) = false ->
  let '(st', logs) := _process_new_files S E st new_files in
  processed_files st' = processed_files st /\ db_file st' = db_file st /\
  unlinked st' = unlinked st /\
  (exists msg, logs = [Log ERROR msg]) /\
  exists k,
    RagAgent.vector_store (rag_state st')
    = (RagAgent.vector_store (rag_state st)
       ++ take (k * 100)
            (flat_map s_documents
               (successful (process_multiple_documents S (doc E) (map fst new_files)))))%list.
Proof.
  intros Hfail.
  destruct (process_and_add_files_prefix (rag_state st) (map fst new_files)) as [k Hk].
  unfold _process_new_files.
  destruct (RagAgent.process_and_add_files S (rag E) (doc E) (rag_state st)
              (map fst new_files)) as [rs [res|e]]; cbn [fst snd batch_succeeded] in *.
  - rewrite Hfail. cbn. repeat split; eauto.
  - cbn. repeat split; eauto.
Qed.

(** X26. When the batch succeeded but the database file cannot be opened
    for writing, the failure is logged and nothing else changes course:
    the fingerprints are in memory only, the database file is as it was,
    and the source files are deleted all the same. *)
Theorem unsaved_fingerprints_still_delete_files
    (st : state) (new_files : list (string * string)) (e : exn) :
  batch_succeeded
    (snd (RagAgent.process_and_add_files S (rag E) (doc E) (rag_state st)
            (map fst new_files))) = true ->
  open_w E = Raised e ->
  let '(st', logs) := _process_new_files S E st new_files in
  db_file st' = db_file st /\
  processed_files st' = processed_files st ∪ list_to_set (map snd new_files) /\
  unlinked st' = (unlinked st ++ List.filter (deletable E) (map fst new_files))%list /\
  Log ERROR ("Error saving processed files database: " +:+ str e) ∈ logs.
Proof.
  intros Hok Hopen. unfold _process_new_files.
  destruct (RagAgent.process_and_add_files S (rag E) (doc E) (rag_state st)
              (map fst new_files)) as [rs [res|e']]; cbn [fst snd batch_succeeded] in Hok;
    [| discriminate Hok].
  rewrite Hok. unfold commit, _save_processed_files. rewrite Hopen.
  unfold _cleanup_processed_files.
  set (st1 := mark_processed (set_rag_state st rs) (map snd new_files)).
  destruct (cleanup_fold (map fst new_files) st1 []) as [H1 _].
  destruct (cleanup_keeps_memory E (map fst new_files) st1 []) as (K1 & _ & K3 & _).
  destruct (fold_left (cleanup_one E) (map fst new_files) (st1, [])) as [st2 logs2].
  cbn [fst snd] in *.
  destruct (mark_processed_fields (set_rag_state st rs) (map snd new_files))
    as (M1 & _ & M3 & _).
  pose proof (mark_processed_unlinked (set_rag_state st rs) (map snd new_files)) as M5.
  fold st1 in M1, M3, M5. rewrite H1, K1, K3, M1, M3, M5.
  repeat split; try done. cbn. set_solver.
Qed.

Lemma omap_skip {A B : Type} (f : A -> option B) (x : A) (l : list A) :
  f x = None -> omap f (x :: l) = omap f l.
Proof. intros H. cbn. by rewrite H. Qed.

Lemma omap_take {A B : Type} (f : A -> option B) (x : A) (y : B) (l : list A) :
  f x = Some y -> omap f (x :: l) = y :: omap f l.
Proof. intros H. cbn. by rewrite H. Qed.

(** The scan's loop over a listing it can examine: it returns when the
    fingerprint of every candidate can be computed, with the candidates
    whose fingerprint is new, in listing order; it raises when the
    fingerprint of some candidate raises. *)
Lemma collect_picks (processed : gset string) (entries : list string)
    (acc : list (string * string)) (logs : list log_entry) :
  listable E entries ->
  match fst (collect md5 S E processed entries acc logs) with
  | Returned new_files =>
      new_files = (acc ++ omap (pick md5 S E processed) entries)%list /\
      fingerprinted md5 S E entries
  | Raised e =>
      exists p, p ∈ entries /\ candidate S E p = true /\
                fst (_get_file_hash md5 E p) = Raised e
  end.
Proof.
  revert acc logs. induction entries as [|p ps IH]; intros acc logs Hl.
  - cbn. rewrite app_nil_r. split; [done |]. intros p Hp. by apply elem_of_nil in Hp.
  - assert (Hps : listable E ps) by (intros q Hq; apply Hl; set_solver).
    destruct (Hl p) as [b Hb]; [set_solver |].
    assert (Hskip : candidate S E p = false ->
              forall acc logs,
                match fst (collect md5 S E processed ps acc logs) with
                | Returned new_files =>
                    new_files = (acc ++ omap (pick md5 S E processed) (p :: ps))%list /\
                    fingerprinted md5 S E (p :: ps)
                | Raised e =>
                    exists q, q ∈ p :: ps /\ candidate S E q = true /\
                              fst (_get_file_hash md5 E q) = Raised e
                end).
    { intros Hno acc0 logs0. specialize (IH acc0 logs0 Hps).
      destruct (fst (collect md5 S E processed ps acc0 logs0)) as [nf|e].
      - destruct IH as [-> Hfp].
        rewrite omap_skip by (unfold pick; by rewrite Hno).
        split; [done |]. intros q Hq Hc.
        apply elem_of_cons in Hq as [-> | Hq]; [congruence | by apply Hfp].
      - destruct IH as (q & Hq & Hc & Hr). exists q. set_solver. }
    cbn [collect]. rewrite Hb.
    destruct b; [| apply Hskip; unfold candidate; by rewrite Hb].
    case_bool_decide as Hext;
      [| apply Hskip; unfold candidate; rewrite Hb; by apply bool_decide_eq_false].
    assert (Hcand : candidate S E p = true)
      by (unfold candidate; rewrite Hb; by apply bool_decide_eq_true).
    destruct (_get_file_hash md5 E p) as [[h|e] l] eqn:Hh.
    + assert (Hstep : forall logs0 taken,
                omap (pick md5 S E processed) (p :: ps)
                  = (taken ++ omap (pick md5 S E processed) ps)%list ->
                match fst (collect md5 S E processed ps (acc ++ taken) logs0) with
                | Returned new_files =>
                    new_files = (acc ++ omap (pick md5 S E processed) (p :: ps))%list /\
                    fingerprinted md5 S E (p :: ps)
                | Raised e =>
                    exists q, q ∈ p :: ps /\ candidate S E q = true /\
                              fst (_get_file_hash md5 E q) = Raised e
                end).
      { intros logs0 taken Htaken. specialize (IH (acc ++ taken)%list logs0 Hps).
        destruct (fst (collect md5 S E processed ps (acc ++ taken) logs0)) as [nf|e].
        - destruct IH as [-> Hfp]. rewrite Htaken, app_assoc. split; [done |].
          intros q Hq Hc. apply elem_of_cons in Hq as [-> | Hq]; [| by apply Hfp].
          exists h. by rewrite Hh.
        - destruct IH as (q & Hq & Hc & Hr). exists q. set_solver. }
      case_bool_decide as Hseen.
      * specialize (Hstep (logs ++ l)%list []). rewrite app_nil_r in Hstep.
        apply Hstep. apply omap_skip. unfold pick.
        rewrite Hcand, Hh. cbn [fst]. by rewrite bool_decide_eq_true_2.
      * apply (Hstep (logs ++ l)%list [(p, h)]). apply omap_take. unfold pick.
        rewrite Hcand, Hh. cbn [fst]. by rewrite bool_decide_eq_false_2.
    + cbn [fst]. exists p. rewrite Hh. set_solver.
Qed.

(** X27. When every entry of the listing can be examined: if the
    fingerprint of every candidate can be computed, a scan selects exactly
    the regular files with an allowed extension whose fingerprint is not
    in the processed set, in listing order, each paired with the
    fingerprint computed in this scan; and if the fingerprint of some
    candidate raises, the scan is abandoned and selects nothing. *)
Theorem scan_selects_unseen_candidates (processed : gset string)
    (entries : list string) :
  listable E entries ->
  (fingerprinted md5 S E entries ->
   selected md5 S E processed entries = omap (pick md5 S E processed) entries) /\
  (forall p e, p ∈ entries -> candidate S E p = true ->
     fst (_get_file_hash md5 E p) = Raised e ->
     selected md5 S E processed entries = []).
Proof.
  intros Hl. pose proof (collect_picks processed entries [] [] Hl) as H.
  unfold selected.
  destruct (fst (collect md5 S E processed entries [] [])) as [new_files|e0].
  - destruct H as [-> Hfp]. split; [done |].
    intros p e Hp Hc Hr. destruct (Hfp p Hp Hc) as [h Hh]. congruence.
  - destruct H as (q & Hq & Hc & Hr). split; [| done].
    intros Hfp. destruct (Hfp q Hq Hc) as [h Hh]. congruence.
Qed.


End WatcherBatches.

Section WatcherGrowth.
Import Settings DocumentProcessor PeriodicIndexer Stated Derived.
Variable md5 : string -> outcome string.
Variable S : settings.

(** One scan never removes a fingerprint or a chunk. *)
Lemma scan_grows (E : PeriodicIndexer.env) (st : state) :
  let st' := fst (fst (_scan_and_index md5 S E st)) in
  processed_files st ⊆ processed_files st' /\
  exists extra,
    RagAgent.vector_store (rag_state st')
    = (RagAgent.vector_store (rag_state st) ++ extra)%list.
Proof.
  cbn zeta. unfold _scan_and_index.
  assert (Hsame : processed_files st ⊆ processed_files st /\
                  exists extra,
                    RagAgent.vector_store (rag_state st)
                    = (RagAgent.vector_store (rag_state st) ++ extra)%list)
    by (split; [done | exists []; by rewrite app_nil_r]).
  destruct (rglob E) as [entries|e]; [| exact Hsame].
  destruct (collect md5 S E (processed_files st) entries [] [])
    as [[[|nf nfs]|e] logs]; [exact Hsame | | exact Hsame].
  pose proof (process_new_files_fields S E st (nf :: nfs)) as [Hag Hp].
  destruct (process_and_add_files_prefix S E (rag_state st) (map fst (nf :: nfs)))
    as [k Hk].
  cbn zeta in Hag, Hp.
  destruct (_process_new_files S E st (nf :: nfs)) as [st1 logs1].
  cbn [fst] in *. rewrite Hp, Hag, Hk. split; [| by eexists].
  destruct (batch_succeeded _); set_solver.
Qed.

(** X29. The watcher only ever adds: over any run of the loop, with scans
    that fail or succeed and whether or not it is stopped, every
    fingerprint of the processed set stays in it, and the vector index
    keeps every chunk it held, in place, new chunks being appended. *)
Theorem processed_set_only_grows (st : state) (ticks : list tick) :
  let st' := fst (fst (_indexing_loop md5 S st ticks)) in
  processed_files st ⊆ processed_files st' /\
  exists extra,
    RagAgent.vector_store (rag_state st')
    = (RagAgent.vector_store (rag_state st) ++ extra)%list.
Proof.
  cbn zeta. revert st. induction ticks as [|t ticks IH]; intros st.
  - cbn. split; [done | exists []; by rewrite app_nil_r].
  - cbn [_indexing_loop]. destruct (negb (running st)).
    + cbn. split; [done | exists []; by rewrite app_nil_r].
    + destruct (match stop_requested t with
                | Some point => _scan_and_index_cancelled md5 S (tick_env t) st point
                | None => None
                end) as [[st0 logs0]|] eqn:Hcancel.
      * destruct (stop_requested t) as [point|]; [| discriminate Hcancel].
        destruct (cancelled_scan md5 S _ _ _ _ _ Hcancel)
          as (_ & _ & _ & Hp & _ & _ & Hv).
        cbn. rewrite Hp, Hv. split; [done | exists []; by rewrite app_nil_r].
      * clear Hcancel.
        pose proof (scan_grows (tick_env t) st) as [Hsub [extra Hextra]].
        destruct (_scan_and_index md5 S (tick_env t) st) as [[st1 logs] r].
        cbn [fst] in Hsub, Hextra.
        destruct (stopping t).
        -- destruct r; cbn; (split; [done | by exists extra]).
        -- destruct (IH st1) as [Hsub' [extra' Hextra']].
           destruct (_indexing_loop md5 S st1 ticks) as [[st' events] status].
           cbn [fst] in *. split; [set_solver |].
           exists (extra ++ extra')%list. by rewrite Hextra', Hextra, app_assoc.
Qed.

End WatcherGrowth.

Section StoreRoundTrip.
Import Settings PeriodicIndexer Stated Watcher.

(** [set] on a list of fingerprints as [json.load] returns it. *)
Lemma set_of_fingerprints (l : list string) :
  set_of (JArr (map JStr l)) = Some (Returned (list_to_set l)).
Proof.
  unfold set_of.
  assert (Hh : forallb hashable (map JStr l) = true) by (by induction l).
  assert (Hm : mapM as_str (map JStr l) = Some l).
  { induction l as [|x l IH]; [done |]. cbn. by rewrite IH. }
  by rewrite Hh, Hm.
Qed.

(** X30. What a commit saved is what a restarted indexer loads: when the
    database file can be written and read back, and [json.load] decodes
    what [json.dump] wrote, loading from the file the commit left gives
    the in-memory set united with the committed fingerprints. *)
Theorem saved_fingerprints_are_loaded_back
    (E : PeriodicIndexer.env) (R : reader) (st st0 : state) (fps : list string) :
  let u := processed_files st ∪ list_to_set fps in
  open_w E = Returned tt ->
  (forall c, fp_write E c = Returned tt) ->
  open_r R = Returned tt ->
  json_load R (dumped (iterencode E (db_document E u))) = Returned (db_document E u) ->
  db_file st0 = db_file (fst (commit E st fps)) ->
  exists logs, _load_processed_files R st0 = Some (set_processed st0 u, logs).
Proof.
  intros u Hopen Hwrite Hread Hload Hdb.
  destruct (mark_processed_fields st fps) as (Hp & _).
  assert (Hfile : db_file st0 = Some (dumped (iterencode E (db_document E u)))).
  { rewrite Hdb. unfold commit, _save_processed_files, db_written.
    rewrite Hopen, firstn_all, write_chunks_complete by done.
    cbn [fst db_file set_db_file]. by rewrite Hp. }
  unfold _load_processed_files. rewrite Hfile, Hread, Hload.
  unfold db_document at 1. cbn [listed obj_get String.eqb Ascii.eqb Bool.eqb].
  rewrite set_of_fingerprints, list_to_set_elements_L. by eexists.
Qed.

End StoreRoundTrip.

Section WatcherRun.
Import Settings DocumentProcessor PeriodicIndexer Stated Derived Watcher Scenario Fixtures.

Lemma failed_batch_is_left_for_the_next_scan_witness :
  let E := watch ["b.pdf"] (Returned nine_bytes) two_files in
  let r := _process_new_files defaults E (indexer ∅ None) [("b.pdf", "fp-b")] in
  processed_files (fst r) = ∅ /\ db_file (fst r) = None /\ unlinked (fst r) = [].
Proof.
  intros E r.
  pose proof (failed_batch_is_left_for_the_next_scan defaults E (indexer ∅ None)
                [("b.pdf", "fp-b")] eq_refl) as H.
  fold r in H. destruct r as [st' logs].
  destruct H as (H1 & H2 & H3 & _). by repeat split.
Defined.

Lemma unsaved_fingerprints_still_delete_files_witness :
  let E := read_only_db (watch ["a.txt"] (Returned nine_bytes) two_files) in
  let r := _process_new_files defaults E (indexer ∅ None) [("a.txt", "fp-a")] in
  db_file (fst r) = None /\ unlinked (fst r) = ["a.txt"].
Proof.
  intros E r.
  pose proof (unsaved_fingerprints_still_delete_files defaults E (indexer ∅ None)
                [("a.txt", "fp-a")] (Exception "[Errno 30] Read-only file system")
                eq_refl eq_refl) as H.
  fold r in H. destruct r as [st' logs].
  destruct H as (H1 & _ & H3 & _). by split.
Defined.

Lemma scan_selects_unseen_candidates_witness :
  let E := watch ["a.txt"; "notes.md"; "b.pdf"] (Returned nine_bytes) two_files in
  selected readable_md5 defaults E {["h0"]} ["a.txt"; "notes.md"; "b.pdf"]
    = omap (pick readable_md5 defaults E {["h0"]}) ["a.txt"; "notes.md"; "b.pdf"].
Proof.
  intros E.
  assert (Hl : listable E ["a.txt"; "notes.md"; "b.pdf"])
    by (intros p _; by exists true).
  destruct (scan_selects_unseen_candidates readable_md5 defaults E {["h0"]}
              ["a.txt"; "notes.md"; "b.pdf"] Hl) as [H _].
  apply H. intros p Hp _.
  repeat (apply elem_of_cons in Hp as [-> | Hp]; [eexists; vm_compute; reflexivity |]).
  by apply elem_of_nil in Hp.
Defined.


Lemma saved_fingerprints_are_loaded_back_witness :
  let E := watch [] (Raised (Exception "gone")) two_files in
  let st := indexer {["h0"]} (Some yesterday) in
  let u := processed_files st ∪ list_to_set ["h1"] in
  let st0 := indexer ∅ (db_file (fst (commit E st ["h1"]))) in
  exists logs,
    _load_processed_files (decoder (db_document E u)) st0
      = Some (set_processed st0 u, logs).
Proof.
  intros E st u st0.
  apply (saved_fingerprints_are_loaded_back E (decoder (db_document E u)) st st0 ["h1"]).
  - reflexivity.
  - reflexivity.
  - reflexivity.
  - unfold decoder. cbn [json_load iterencode E watch]. by rewrite String.eqb_refl.
  - reflexivity.
Defined.

End WatcherRun.

(* ===================================================================== *)
(** ** Start, stop, forced scans and reloads *)
(* ===================================================================== *)

Section Lifecycle.
Import Settings OcrService OcrLifecycle PeriodicIndexer Watcher.
Variable md5 : string -> outcome string.
Variable S : settings.

(** Starting a started indexer changes nothing: a second [start] leaves
    the handle of the first. *)
Lemma start_is_idempotent (h : handle) :
  fst (start S (fst (start S h))) = fst (start S h).
Proof.
  unfold start. destruct (enable_periodic_indexing S); cbn [negb]; [| done].
  destruct (running (indexer h)) eqn:Hr; cbn [fst]; [by rewrite Hr | done].
Qed.

(** Once [stop] has returned, the loop makes no further scan, whatever
    the world offers. *)
Lemma stopped_loop_never_scans (h : handle) (ticks : list tick) :
  let st := indexer (fst (stop h)) in
  _indexing_loop md5 S st ticks = (st, [], Exited).
Proof.
  cbn zeta.
  assert (Hr : running (indexer (fst (stop h))) = false).
  { unfold stop. by destruct (running (indexer h)) eqn:Hr. }
  destruct ticks as [|t ticks]; cbn [_indexing_loop]; by rewrite Hr.
Qed.

(** A forced scan does not look at [running]: on an enabled indexer it
    is a scan, stopped or not, and it never removes a fingerprint. *)
Lemma force_scan_is_a_scan (E : PeriodicIndexer.env) (st : state) :
  enable_periodic_indexing S = true ->
  fst (force_scan md5 S E st) = fst (fst (_scan_and_index md5 S E st)) /\
  processed_files st ⊆ processed_files (fst (force_scan md5 S E st)).
Proof.
  intros Hen. destruct (scan_grows md5 S E st) as [Hsub _].
  unfold force_scan. rewrite Hen. cbn [negb].
  by destruct (_scan_and_index md5 S E st) as [[st' logs] r].
Qed.

(** A reload whose model load fails leaves the engine without a model:
    the clean-up has dropped the old one by then. *)
Lemma failed_reload_leaves_no_model
    (E : OcrService.env) (M : mem_env) (s : dots_state) (e : exn) :
  dots_is_available E = true ->
  model_to_cpu M = Returned tt ->
  load_model E = Raised e ->
  exists e', reload_model E M s = ({| model := false; processor := false |}, Raised e').
Proof.
  intros Hav Hcpu Hload. unfold reload_model, dots_initialize.
  rewrite Hav, Hload. cbn [negb]. eexists. f_equal.
  unfold cleanup_memory. rewrite Hcpu.
  destruct (model s); destruct (cuda_is_available M); try done;
    by destruct (cuda_empty_cache M).
Qed.

End Lifecycle.
